(** * Mindful Mornings: the request handlers of [server.py] over the schema of [model.py]

    The development embeds the Flask handlers of [server.py] and the
    SQLAlchemy models of [model.py] as executable Rocq functions.

    - A Python value is a [Value] ([None], an [int] or a [str]); a transient
      model object is its attribute dictionary ([Obj]).  Strings are
      sequences of one-byte characters.
    - The relational store is a record of tables ([DB]), each table the list
      of its rows in insertion order, together with the sequences behind the
      auto-incremented keys.  The store is the PostgreSQL database that
      [connect_to_db] names: the column constraints written in [model.py]
      (nullable, unique, primary and foreign keys, [String(n)] lengths) are
      enforced when a unit of work is flushed, a failed flush rolls the rows
      back, and an ascending [ORDER BY] puts NULL last.
    - A handler is a computation in the monad [M]: it threads the [World]
      (store, pending unit of work, the ['user'] entry of the Flask session
      and the flashed messages) and may raise a Python exception ([Exc]).
      State written before an exception stays written, as a commit that
      precedes a failure stays committed.
    - Templates are not part of the source: [render_template] yields the
      template name and the context it was given, and the messages passed
      to [flash] are recorded in order. *)

From Stdlib Require Import ZArith List String Ascii Bool Lia.
From Stdlib Require Import Sorting.Permutation Sorting.Sorted.
From Stdlib Require Import Decimal DecimalString DecimalZ DecimalPos.
Import ListNotations.

Local Open Scope string_scope.
Local Open Scope list_scope.
Local Open Scope Z_scope.

(* ------------------------------------------------------------------ *)
(** ** Python values and exceptions *)

Inductive Value : Type :=
| VNone
| VInt (z : Z)
| VStr (s : string).

(** The exceptions the handlers can meet: Python's own, SQLAlchemy's, and
    the DBAPI errors the store answers with. *)
Inductive Exc : Type :=
| KeyError
| TypeError
| ValueError
| AttributeError
| UnboundLocalError
| AssertionError
| UnmappedInstanceError
| NoResultFound
| MultipleResultsFound
| IntegrityError
| DataError
| ProgrammingError.

Definition Exc_eqb (a b : Exc) : bool :=
  match a, b with
  | KeyError, KeyError | TypeError, TypeError | ValueError, ValueError
  | AttributeError, AttributeError | UnboundLocalError, UnboundLocalError
  | AssertionError, AssertionError
  | UnmappedInstanceError, UnmappedInstanceError
  | NoResultFound, NoResultFound
  | MultipleResultsFound, MultipleResultsFound
  | IntegrityError, IntegrityError | DataError, DataError
  | ProgrammingError, ProgrammingError => true
  | _, _ => false
  end.

Inductive Outcome (A : Type) : Type :=
| Ok (a : A)
| Raise (e : Exc).
Arguments Ok {A} a.
Arguments Raise {A} e.

(** Python truthiness, as used by [if session['user']:] and [if user:]. *)
Definition truthy (v : Value) : bool :=
  match v with
  | VNone => false
  | VInt z => negb (z =? 0)
  | VStr s => negb (String.eqb s "")
  end.

(** Python [==] on the values met here. *)
Definition py_eq (a b : Value) : bool :=
  match a, b with
  | VNone, VNone => true
  | VInt x, VInt y => x =? y
  | VStr x, VStr y => String.eqb x y
  | _, _ => false
  end.

(* ------------------------------------------------------------------ *)
(** ** Text to number coercions

    Path segments and form fields are strings.  The driver binds a string
    as a quoted literal and refuses one that holds NUL ([has_nul]) with
    [ValueError] before anything is sent; the store then coerces the literal
    bound to an [Integer] column ([int4_in]).  [int(order)] is Python's
    ([py_int]). *)

(** A text holds the NUL character. *)
Fixpoint has_nul (s : string) : bool :=
  match s with
  | String c r => Ascii.eqb c Ascii.zero || has_nul r
  | EmptyString => false
  end.

(** A Python value the driver refuses to bind. *)
Definition unbindable (v : Value) : bool :=
  match v with
  | VStr s => has_nul s
  | _ => false
  end.

Definition is_space (c : ascii) : bool :=
  let n := Z.of_N (N_of_ascii c) in
  (n =? 32) || ((9 <=? n) && (n <=? 13)).

Definition digit_of (c : ascii) : option Z :=
  let n := Z.of_N (N_of_ascii c) in
  if (48 <=? n) && (n <=? 57) then Some (n - 48) else None.

Fixpoint drop_spaces (s : string) : string :=
  match s with
  | String c r => if is_space c then drop_spaces r else s
  | EmptyString => s
  end.

Definition split_sign (s : string) : bool * string :=
  match s with
  | String "-" r => (true, r)
  | String "+" r => (false, r)
  | _ => (false, s)
  end.

Definition signed (neg : bool) (n : Z) : Z := if neg then - n else n.

Definition int4_min : Z := - 2147483648.
Definition int4_max : Z := 2147483647.
Definition int4_ok (z : Z) : bool := (int4_min <=? z) && (z <=? int4_max).

(** The value of a digit in a base up to sixteen. *)
Definition digit_in (base : Z) (c : ascii) : option Z :=
  let n := Z.of_N (N_of_ascii c) in
  let d := if (48 <=? n) && (n <=? 57) then n - 48
           else if (97 <=? n) && (n <=? 102) then n - 87
           else if (65 <=? n) && (n <=? 70) then n - 55
           else base in
  if d <? base then Some d else None.

(** The digits of an integer literal after its first: digits, or an
    underscore that a digit must follow ([pending]). *)
Fixpoint int_digits (base : Z) (pending : bool) (acc : Z) (s : string)
  : option (Z * string) :=
  match s with
  | String c r =>
      match digit_in base c with
      | Some d => int_digits base false (base * acc + d) r
      | None =>
          if pending then None
          else if Ascii.eqb c "_" then int_digits base true acc r
          else Some (acc, s)
      end
  | EmptyString => if pending then None else Some (acc, s)
  end.

(** At least one digit; after a base prefix an underscore may come first. *)
Definition int_literal (base : Z) (prefixed : bool) (s : string)
  : option (Z * string) :=
  match s with
  | String c r =>
      match digit_in base c with
      | Some d => int_digits base false d r
      | None =>
          if prefixed && Ascii.eqb c "_" then int_digits base true 0 r else None
      end
  | EmptyString => None
  end.

(** An unsigned literal: decimal, or in base sixteen, eight or two after
    [0x], [0o] or [0b]. *)
Definition int_magnitude (body : string) : option (Z * string) :=
  match body with
  | String c (String x r) =>
      if Ascii.eqb c "0" && (Ascii.eqb x "x" || Ascii.eqb x "X") then int_literal 16 true r
      else if Ascii.eqb c "0" && (Ascii.eqb x "o" || Ascii.eqb x "O") then int_literal 8 true r
      else if Ascii.eqb c "0" && (Ascii.eqb x "b" || Ascii.eqb x "B") then int_literal 2 true r
      else int_literal 10 false body
  | _ => int_literal 10 false body
  end.

(** The store's input syntax for a 32-bit [Integer] (PostgreSQL 16):
    blanks, an optional sign, a literal with single underscores between its
    digits, blanks; out of range is refused. *)
Definition int4_in (s : string) : option Z :=
  let (neg, body) := split_sign (drop_spaces s) in
  match int_magnitude body with
  | Some (n, rest) =>
      match drop_spaces rest with
      | EmptyString => if int4_ok (signed neg n) then Some (signed neg n) else None
      | _ => None
      end
  | None => None
  end.

(** Python's digit groups: after a first digit, digits or one underscore
    followed by a digit. *)
Fixpoint py_digits (acc : Z) (s : string) {struct s} : option (Z * string) :=
  match s with
  | String c r =>
      match digit_of c with
      | Some d => py_digits (10 * acc + d) r
      | None =>
          if Ascii.eqb c "_" then
            match r with
            | String c2 r2 =>
                match digit_of c2 with
                | Some d => py_digits (10 * acc + d) r2
                | None => None
                end
            | EmptyString => None
            end
          else Some (acc, s)
      end
  | EmptyString => Some (acc, s)
  end.

Definition py_int_of_string (s : string) : option Z :=
  let (neg, body) := split_sign (drop_spaces s) in
  match body with
  | String c r =>
      match digit_of c with
      | Some d =>
          match py_digits d r with
          | Some (n, rest) =>
              match drop_spaces rest with
              | EmptyString => Some (signed neg n)
              | _ => None
              end
          | None => None
          end
      | None => None
      end
  | EmptyString => None
  end.

(** [int(x)] *)
Definition py_int (v : Value) : Outcome Z :=
  match v with
  | VNone => Raise TypeError
  | VInt z => Ok z
  | VStr s => match py_int_of_string s with Some z => Ok z | None => Raise ValueError end
  end.

(** A Python value written to an [Integer] column. *)
Definition as_int4 (v : Value) : Outcome (option Z) :=
  match v with
  | VNone => Ok None
  | VInt z => if int4_ok z then Ok (Some z) else Raise DataError
  | VStr s =>
      if has_nul s then Raise ValueError
      else match int4_in s with Some z => Ok (Some z) | None => Raise DataError end
  end.

(** A Python value compared with an [Integer] column in a query: a string
    is read as an integer, a Python [int] is compared as it is. *)
Definition as_key (v : Value) : Outcome (option Z) :=
  match v with
  | VNone => Ok None
  | VInt z => Ok (Some z)
  | VStr s =>
      if has_nul s then Raise ValueError
      else match int4_in s with Some z => Ok (Some z) | None => Raise DataError end
  end.

(** The first [n] characters of a text, and what follows them. *)
Fixpoint text_take (n : nat) (s : string) : string :=
  match n, s with
  | S m, String c r => String c (text_take m r)
  | _, _ => EmptyString
  end.

Fixpoint text_drop (n : nat) (s : string) : string :=
  match n, s with
  | S m, String c r => text_drop m r
  | _, _ => s
  end.

Fixpoint all_blank (s : string) : bool :=
  match s with
  | String c r => Ascii.eqb c " " && all_blank r
  | EmptyString => true
  end.

(** A Python value bound to a [String(n)] column, a [varchar(n)]: a text of
    more than [n] characters is cut to [n] when only blanks are cut off, and
    refused otherwise. *)
Definition as_varchar (n : nat) (v : Value) : Outcome (option string) :=
  match v with
  | VNone => Ok None
  | VStr s =>
      if has_nul s then Raise ValueError
      else if Nat.leb (String.length s) n then Ok (Some s)
      else if all_blank (text_drop n s) then Ok (Some (text_take n s))
      else Raise DataError
  | VInt _ => Raise ProgrammingError
  end.

(* ------------------------------------------------------------------ *)
(** ** Transient objects and constructors

    A model object that is not yet stored is its attribute dictionary.  An
    attribute that was never set reads as [None]. *)

Definition Obj : Type := list (string * Value).

Fixpoint lookup {A : Type} (k : string) (d : list (string * A)) : option A :=
  match d with
  | [] => None
  | (k', v) :: r => if String.eqb k k' then Some v else lookup k r
  end.

Definition attr (o : Obj) (k : string) : Value :=
  match lookup k o with Some v => v | None => VNone end.

Definition mem (k : string) (l : list string) : bool :=
  existsb (String.eqb k) l.

(** A call [C(k1=v1, ...)] of a constructor written as
    [def __init__(self, p1, ..., pn)]: every keyword must name a parameter
    and every parameter must be given, or Python raises [TypeError]. *)
Definition call_init (params : list string) (kwargs : Obj) : Outcome Obj :=
  if forallb (fun kv => mem (fst kv) params) kwargs
     && forallb (fun p => mem p (map fst kwargs)) params
  then Ok (map (fun p => (p, attr kwargs p)) params)
  else Raise TypeError.

(** The constructor SQLAlchemy gives a model without [__init__]: every
    keyword must be a mapped attribute of the class. *)
Definition declarative_init (attrs : list string) (kwargs : Obj) : Outcome Obj :=
  if forallb (fun kv => mem (fst kv) attrs) kwargs
  then Ok kwargs
  else Raise TypeError.

(* ------------------------------------------------------------------ *)
(** ** The schema of [model.py] *)

Module User.
Record t : Type := mk {
  user_id : Z;
  username : string;
  password : string;
  home_address : option string;
  destination_address : option string
}.
(** [def __init__(self, username, password)] *)
Definition __init__ : Obj -> Outcome Obj := call_init ["username"; "password"].
End User.

Module Setting.
Record t : Type := mk {
  setting_id : Z;
  setting_name : option string
}.
(** [setting.<name>]: the class maps [setting_id] and [setting_name] and
    nothing else. *)
Definition getattr (s : t) (name : string) : Outcome Value :=
  if String.eqb name "setting_id" then Ok (VInt (setting_id s))
  else if String.eqb name "setting_name" then
    Ok (match setting_name s with Some n => VStr n | None => VNone end)
  else Raise AttributeError.
End Setting.

Module UserSetting.
Record t : Type := mk {
  user_setting_id : Z;
  user_id : Z;
  setting_id : Z;
  value : string
}.
Definition __init__ : Obj -> Outcome Obj :=
  declarative_init ["user_setting_id"; "user_id"; "setting_id"; "value"].
End UserSetting.

Module Task.
Record t : Type := mk {
  task_id : Z;
  user_id : Z;
  task_name : string;
  task_description : option string;
  duration_estimate : Z;
  duration_actual : option Z
}.
(** [def __init__(self, task_name, duration_estimate)] *)
Definition __init__ : Obj -> Outcome Obj :=
  call_init ["task_name"; "duration_estimate"].
End Task.

Module GameplanTask.
Record t : Type := mk {
  task_id : Z;
  user_id : Z;
  order : option Z;
  start_time : option Z;
  end_time : option Z
}.
Definition __init__ : Obj -> Outcome Obj :=
  declarative_init ["task_id"; "user_id"; "order"; "start_time"; "end_time"].
End GameplanTask.

Module Category.
Record t : Type := mk {
  category_id : Z;
  category_name : string
}.
End Category.

Module TaskCategory.
Record t : Type := mk {
  tasks_categories_id : Z;
  task_id : Z;
  category_id : option Z
}.
End TaskCategory.

(** The store: one list of rows per table, and the sequences that feed the
    auto-incremented keys the handlers insert into. *)
Record DB : Type := mkDB {
  users : list User.t;
  settings : list Setting.t;
  users_settings : list UserSetting.t;
  tasks : list Task.t;
  gameplan_tasks : list GameplanTask.t;
  categories : list Category.t;
  tasks_categories : list TaskCategory.t;
  users_user_id_seq : Z;
  users_settings_user_setting_id_seq : Z;
  tasks_task_id_seq : Z
}.

Definition with_users (l : list User.t) (d : DB) : DB :=
  mkDB l (settings d) (users_settings d) (tasks d) (gameplan_tasks d)
       (categories d) (tasks_categories d)
       (users_user_id_seq d) (users_settings_user_setting_id_seq d) (tasks_task_id_seq d).

Definition with_users_settings (l : list UserSetting.t) (d : DB) : DB :=
  mkDB (users d) (settings d) l (tasks d) (gameplan_tasks d)
       (categories d) (tasks_categories d)
       (users_user_id_seq d) (users_settings_user_setting_id_seq d) (tasks_task_id_seq d).

Definition with_tasks (l : list Task.t) (d : DB) : DB :=
  mkDB (users d) (settings d) (users_settings d) l (gameplan_tasks d)
       (categories d) (tasks_categories d)
       (users_user_id_seq d) (users_settings_user_setting_id_seq d) (tasks_task_id_seq d).

Definition with_gameplan_tasks (l : list GameplanTask.t) (d : DB) : DB :=
  mkDB (users d) (settings d) (users_settings d) (tasks d) l
       (categories d) (tasks_categories d)
       (users_user_id_seq d) (users_settings_user_setting_id_seq d) (tasks_task_id_seq d).

Definition with_users_user_id_seq (n : Z) (d : DB) : DB :=
  mkDB (users d) (settings d) (users_settings d) (tasks d) (gameplan_tasks d)
       (categories d) (tasks_categories d)
       n (users_settings_user_setting_id_seq d) (tasks_task_id_seq d).

Definition with_users_settings_seq (n : Z) (d : DB) : DB :=
  mkDB (users d) (settings d) (users_settings d) (tasks d) (gameplan_tasks d)
       (categories d) (tasks_categories d)
       (users_user_id_seq d) n (tasks_task_id_seq d).

Definition with_tasks_task_id_seq (n : Z) (d : DB) : DB :=
  mkDB (users d) (settings d) (users_settings d) (tasks d) (gameplan_tasks d)
       (categories d) (tasks_categories d)
       (users_user_id_seq d) (users_settings_user_setting_id_seq d) n.

(** A rollback restores the rows; sequence values already drawn stay drawn. *)
Definition rolled_back (before after : DB) : DB :=
  mkDB (users before) (settings before) (users_settings before) (tasks before)
       (gameplan_tasks before) (categories before) (tasks_categories before)
       (users_user_id_seq after) (users_settings_user_setting_id_seq after)
       (tasks_task_id_seq after).

(** The rows of two stores agree (the sequences may differ). *)
Definition same_rows (a b : DB) : Prop :=
  users a = users b /\ settings a = settings b
  /\ users_settings a = users_settings b /\ tasks a = tasks b
  /\ gameplan_tasks a = gameplan_tasks b /\ categories a = categories b
  /\ tasks_categories a = tasks_categories b.

(* ------------------------------------------------------------------ *)
(** ** Queries *)

Definition opt_eqb (a : option Z) (k : Z) : bool :=
  match a with Some x => x =? k | None => false end.

(** [User.query.get(k)] and the like: the row whose primary key is [k]. *)
Definition get_user (k : Z) (d : DB) : option User.t :=
  find (fun u => User.user_id u =? k) (users d).
Definition get_task (k : Z) (d : DB) : option Task.t :=
  find (fun t => Task.task_id t =? k) (tasks d).
Definition get_gameplan_task (k : Z) (d : DB) : option GameplanTask.t :=
  find (fun g => GameplanTask.task_id g =? k) (gameplan_tasks d).

(** [ORDER BY gameplan_tasks."order"] ascending: the store puts NULL after
    every number. *)
Definition order_leb (a b : option Z) : bool :=
  match a, b with
  | Some x, Some y => x <=? y
  | Some _, None => true
  | None, Some _ => false
  | None, None => true
  end.

Fixpoint insert_by {A : Type} (leb : A -> A -> bool) (x : A) (l : list A) : list A :=
  match l with
  | [] => [x]
  | y :: r => if leb x y then x :: l else y :: insert_by leb x r
  end.

Fixpoint order_by {A : Type} (leb : A -> A -> bool) (l : list A) : list A :=
  match l with
  | [] => []
  | x :: r => insert_by leb x (order_by leb r)
  end.

(* ------------------------------------------------------------------ *)
(** ** Flushing a unit of work

    Each pending change is flushed against the store, which checks the
    constraints of [model.py].  The driver binds every parameter of a
    statement before the statement is sent: a text holding NUL among them
    ends the flush with [ValueError], whatever else the store would have
    refused. *)

Definition binds (o : Obj) (columns : list string) : bool :=
  negb (existsb (fun c => unbindable (attr o c)) columns).

Inductive FlushResult : Type :=
| Flushed (d : DB) (key : Value)
| Failed (e : Exc) (d : DB).

(** [INSERT INTO users]: [username] and [password] are [String(50)],
    non-null; [username] is unique; [user_id] comes from the sequence. *)
Definition insert_user (o : Obj) (d : DB) : FlushResult :=
  if negb (binds o ["username"; "password"; "home_address"; "destination_address"])
  then Failed ValueError d else
  match as_varchar 50 (attr o "username"), as_varchar 50 (attr o "password"),
        as_varchar 100 (attr o "home_address"),
        as_varchar 100 (attr o "destination_address") with
  | Ok un, Ok pw, Ok ha, Ok da =>
      let id := users_user_id_seq d + 1 in
      let d1 := with_users_user_id_seq id d in
      match un, pw with
      | Some un, Some pw =>
          if existsb (fun u => User.user_id u =? id) (users d)
             || existsb (fun u => String.eqb (User.username u) un) (users d)
          then Failed IntegrityError d1
          else Flushed (with_users (users d ++ [User.mk id un pw ha da]) d1) (VInt id)
      | _, _ => Failed IntegrityError d1
      end
  | Raise e, _, _, _ | Ok _, Raise e, _, _ | Ok _, Ok _, Raise e, _
  | Ok _, Ok _, Ok _, Raise e => Failed e d
  end.

(** [INSERT INTO users_settings]: all columns non-null, [user_id] and
    [setting_id] foreign keys, [value] a [String(100)]. *)
Definition insert_user_setting (o : Obj) (d : DB) : FlushResult :=
  if negb (binds o ["user_id"; "setting_id"; "value"]) then Failed ValueError d else
  match as_int4 (attr o "user_id"), as_int4 (attr o "setting_id"),
        as_varchar 100 (attr o "value") with
  | Ok u, Ok s, Ok v =>
      let id := users_settings_user_setting_id_seq d + 1 in
      let d1 := with_users_settings_seq id d in
      match u, s, v with
      | Some u, Some s, Some v =>
          if existsb (fun x => UserSetting.user_setting_id x =? id) (users_settings d)
             || negb (existsb (fun x => User.user_id x =? u) (users d))
             || negb (existsb (fun x => Setting.setting_id x =? s) (settings d))
          then Failed IntegrityError d1
          else Flushed (with_users_settings
                          (users_settings d ++ [UserSetting.mk id u s v]) d1) (VInt id)
      | _, _, _ => Failed IntegrityError d1
      end
  | Raise e, _, _ | Ok _, Raise e, _ | Ok _, Ok _, Raise e => Failed e d
  end.

(** [INSERT INTO tasks]: [user_id], [task_name] and [duration_estimate]
    non-null, [user_id] a foreign key. *)
Definition insert_task (o : Obj) (d : DB) : FlushResult :=
  if negb (binds o ["user_id"; "task_name"; "task_description";
                    "duration_estimate"; "duration_actual"])
  then Failed ValueError d else
  match as_int4 (attr o "user_id"), as_varchar 50 (attr o "task_name"),
        as_varchar 100 (attr o "task_description"),
        as_int4 (attr o "duration_estimate"), as_int4 (attr o "duration_actual") with
  | Ok u, Ok n, Ok ds, Ok e, Ok a =>
      let id := tasks_task_id_seq d + 1 in
      let d1 := with_tasks_task_id_seq id d in
      match u, n, e with
      | Some u, Some n, Some e =>
          if existsb (fun x => Task.task_id x =? id) (tasks d)
             || negb (existsb (fun x => User.user_id x =? u) (users d))
          then Failed IntegrityError d1
          else Flushed (with_tasks (tasks d ++ [Task.mk id u n ds e a]) d1) (VInt id)
      | _, _, _ => Failed IntegrityError d1
      end
  | Raise e, _, _, _, _ | Ok _, Raise e, _, _, _ | Ok _, Ok _, Raise e, _, _
  | Ok _, Ok _, Ok _, Raise e, _ | Ok _, Ok _, Ok _, Ok _, Raise e => Failed e d
  end.

(** [DELETE] of a [Task] object.  The relationship [Task.gameplan_task]
    carries no delete cascade: when a [GameplanTask] hangs on the task the
    ORM tries to blank its [task_id], which is its primary key, and raises
    [AssertionError].  Otherwise the row is deleted unless a
    [tasks_categories] row still refers to it. *)
Definition delete_task (t : Task.t) (d : DB) : FlushResult :=
  if existsb (fun g => GameplanTask.task_id g =? Task.task_id t) (gameplan_tasks d)
  then Failed AssertionError d
  else if existsb (fun c => TaskCategory.task_id c =? Task.task_id t) (tasks_categories d)
  then Failed IntegrityError d
  else Flushed (with_tasks
                  (filter (fun x => negb (Task.task_id x =? Task.task_id t)) (tasks d)) d)
               VNone.

(** [DELETE] of a [GameplanTask] object: no table refers to it. *)
Definition delete_gameplan_task (g : GameplanTask.t) (d : DB) : FlushResult :=
  Flushed (with_gameplan_tasks
             (filter (fun x => negb (GameplanTask.task_id x =? GameplanTask.task_id g))
                     (gameplan_tasks d)) d)
          VNone.

(** [UPDATE users_settings SET value = s WHERE user_setting_id = k] *)
Definition set_value_where (k : Z) (s : string) (x : UserSetting.t) : UserSetting.t :=
  if UserSetting.user_setting_id x =? k
  then UserSetting.mk (UserSetting.user_setting_id x) (UserSetting.user_id x)
                      (UserSetting.setting_id x) s
  else x.

(** [user_setting.value = v] on a stored row, flushed as an [UPDATE] when
    the attribute changed; [value] is a non-null [String(100)]. *)
Definition update_user_setting_value (row : UserSetting.t) (v : Value) (d : DB)
  : FlushResult :=
  if py_eq (VStr (UserSetting.value row)) v then Flushed d VNone
  else
    match as_varchar 100 v with
    | Raise e => Failed e d
    | Ok None => Failed IntegrityError d
    | Ok (Some s) =>
        Flushed (with_users_settings
                   (map (set_value_where (UserSetting.user_setting_id row) s)
                        (users_settings d)) d)
                VNone
    end.

Section GameplanInsert.

(** The store's input syntax for [DateTime] (a text to a point in time) is a
    parameter: no statement depends on what it accepts. *)
Variable timestamp_in : string -> option Z.

Definition as_timestamp (v : Value) : Outcome (option Z) :=
  match v with
  | VNone => Ok None
  | VStr s =>
      if has_nul s then Raise ValueError
      else match timestamp_in s with Some t => Ok (Some t) | None => Raise DataError end
  | VInt _ => Raise ProgrammingError
  end.

Definition clashes (a : option Z) (col : GameplanTask.t -> option Z)
           (l : list GameplanTask.t) : bool :=
  match a with
  | Some x => existsb (fun g => opt_eqb (col g) x) l
  | None => false
  end.

(** [INSERT INTO gameplan_tasks]: [task_id] is the primary key and a
    foreign key, [user_id] a non-null foreign key; [order], [start_time]
    and [end_time] are unique where not NULL. *)
Definition insert_gameplan_task (o : Obj) (d : DB) : FlushResult :=
  if negb (binds o ["task_id"; "user_id"; "order"; "start_time"; "end_time"])
  then Failed ValueError d else
  match as_int4 (attr o "task_id"), as_int4 (attr o "user_id"),
        as_int4 (attr o "order"), as_timestamp (attr o "start_time"),
        as_timestamp (attr o "end_time") with
  | Ok (Some t), Ok (Some u), Ok ord, Ok st, Ok en =>
      if existsb (fun g => GameplanTask.task_id g =? t) (gameplan_tasks d)
         || negb (existsb (fun x => Task.task_id x =? t) (tasks d))
         || negb (existsb (fun x => User.user_id x =? u) (users d))
         || clashes ord GameplanTask.order (gameplan_tasks d)
         || clashes st GameplanTask.start_time (gameplan_tasks d)
         || clashes en GameplanTask.end_time (gameplan_tasks d)
      then Failed IntegrityError d
      else Flushed (with_gameplan_tasks
                      (gameplan_tasks d ++ [GameplanTask.mk t u ord st en]) d) (VInt t)
  | Ok _, Ok _, Ok _, Ok _, Ok _ => Failed IntegrityError d
  | Raise e, _, _, _, _ | Ok _, Raise e, _, _, _ | Ok _, Ok _, Raise e, _, _
  | Ok _, Ok _, Ok _, Raise e, _ | Ok _, Ok _, Ok _, Ok _, Raise e => Failed e d
  end.

End GameplanInsert.

(* ------------------------------------------------------------------ *)
(** ** The world a handler runs in *)

Record World : Type := mkWorld {
  store : DB;                              (* the committed rows *)
  db_session : list (DB -> FlushResult);   (* [db.session]: the pending unit of work *)
  session : option Value;                  (* Flask's [session]: its ['user'] entry, if any *)
  flashed : list string                    (* messages passed to [flash] *)
}.

Definition M (A : Type) : Type := World -> Outcome A * World.

Definition ret {A : Type} (a : A) : M A := fun w => (Ok a, w).

Definition bind {A B : Type} (m : M A) (k : A -> M B) : M B :=
  fun w =>
    match m w with
    | (Ok a, w') => k a w'
    | (Raise e, w') => (Raise e, w')
    end.

Definition raise {A : Type} (e : Exc) : M A := fun w => (Raise e, w).

Definition lift {A : Type} (o : Outcome A) : M A := fun w => (o, w).

Notation "x <- m ;; k" := (bind m (fun x => k))
  (at level 61, m at next level, right associativity).
Notation "m ;; k" := (bind m (fun _ => k))
  (at level 61, right associativity).

(** [try: body  except exc: handler] *)
Definition try_except {A : Type} (body : M A) (exc : Exc) (handler : M A) : M A :=
  fun w =>
    match body w with
    | (Raise e, w') => if Exc_eqb e exc then handler w' else (Raise e, w')
    | r => r
    end.

(** [for x in l: body] *)
Fixpoint for_each {A : Type} (l : list A) (body : A -> M unit) : M unit :=
  match l with
  | [] => ret tt
  | x :: r => body x ;; for_each r body
  end.

Definition query {A : Type} (q : DB -> A) : M A := fun w => (Ok (q (store w)), w).

(** [flash(msg)] *)
Definition flash (msg : string) : M unit :=
  fun w => (Ok tt, mkWorld (store w) (db_session w) (session w) (flashed w ++ [msg])).

(** [session['user']] *)
Definition session_getitem_user : M Value :=
  fun w => match session w with
           | Some v => (Ok v, w)
           | None => (Raise KeyError, w)
           end.

(** [session['user'] = v] *)
Definition session_setitem_user (v : Value) : M unit :=
  fun w => (Ok tt, mkWorld (store w) (db_session w) (Some v) (flashed w)).

(** A local variable that may not have been assigned. *)
Definition local {A : Type} (v : option A) : M A :=
  match v with Some x => ret x | None => raise UnboundLocalError end.

(** [db.session.add(obj)], and an attribute set on a stored object: the
    change waits in the unit of work. *)
Definition db_session_add (change : DB -> FlushResult) : M unit :=
  fun w => (Ok tt, mkWorld (store w) (db_session w ++ [change]) (session w) (flashed w)).

(** [db.session.delete(obj)]; [None] is not a mapped instance. *)
Definition db_session_delete (change : option (DB -> FlushResult)) : M unit :=
  match change with
  | Some c => db_session_add c
  | None => raise UnmappedInstanceError
  end.

Fixpoint flush (changes : list (DB -> FlushResult)) (before d : DB) (keys : list Value)
  : Outcome (list Value) * DB :=
  match changes with
  | [] => (Ok keys, d)
  | c :: r =>
      match c d with
      | Flushed d' k => flush r before d' (keys ++ [k])
      | Failed e d' => (Raise e, rolled_back before d')
      end
  end.

(** [db.session.commit()]: the pending changes are flushed in one
    transaction; the result lists the primary keys the flush gave the
    objects, which is what [obj.<key>] reads afterwards. *)
Definition db_session_commit : M (list Value) :=
  fun w =>
    let (r, d) := flush (db_session w) (store w) (store w) [] in
    (r, mkWorld d [] (session w) (flashed w)).

(** [.one()] and [.first()] *)
Definition one {A : Type} (l : list A) : M A :=
  match l with
  | [x] => ret x
  | [] => raise NoResultFound
  | _ => raise MultipleResultsFound
  end.

Definition first {A : Type} (l : list A) : option A := hd_error l.

(** [Model.query.get(v)] *)
Definition query_get {A : Type} (get : Z -> DB -> option A) (v : Value) : M (option A) :=
  k <- lift (as_key v) ;;
  match k with
  | Some k => query (get k)
  | None => ret None
  end.

(** [Model.query.filter_by(col=v)] on an [Integer] column. *)
Definition filter_by_int {A : Type} (col : A -> Z) (table : DB -> list A) (v : Value)
  : M (list A) :=
  k <- lift (as_key v) ;;
  match k with
  | Some k => query (fun d => filter (fun x => col x =? k) (table d))
  | None => ret []
  end.

(** [User.query.filter_by(username=v)] *)
Definition users_by_username (v : Value) : M (list User.t) :=
  match v with
  | VStr s =>
      if has_nul s then raise ValueError
      else query (fun d => filter (fun u => String.eqb (User.username u) s) (users d))
  | VNone => ret []
  | VInt _ => raise ProgrammingError
  end.

(** [user.username], where [user] may be [None]. *)
Definition username_of (user : option User.t) : M Value :=
  match user with
  | Some u => ret (VStr (User.username u))
  | None => raise AttributeError
  end.

(* ------------------------------------------------------------------ *)
(** ** Requests and responses *)

Inductive Route : Type :=
| GET_index
| GET_register
| POST_register
| POST_login
| GET_logout
| GET_api_tasks
| POST_api_task
| DELETE_api_task (task_id : string)
| GET_settings
| PUT_api_setting (user_setting_id : string)
| GET_dashboard
| POST_api_add_task_to_gameplan
| DELETE_api_gptask (task_id : string)
| GET_about.

Record Request : Type := mkRequest {
  route : Route;
  args : list (string * string);   (* the query string *)
  form : list (string * string)    (* the posted form *)
}.

(** [request.form.get(k)] *)
Definition form_get (r : Request) (k : string) : Value :=
  match lookup k (form r) with Some s => VStr s | None => VNone end.

(** [request.values.get(k)]: the query string first, then the form. *)
Definition values_get (r : Request) (k : string) : Value :=
  match lookup k (args r) with
  | Some s => VStr s
  | None => form_get r k
  end.

Inductive Ctx : Type :=
| CValue (v : Value)
| CUser (u : option User.t)
| CTasks (l : list Task.t)
| CGameplanTasks (l : list GameplanTask.t)
| CUserSettings (l : list UserSetting.t).

Inductive Response : Type :=
| RenderTemplate (name : string) (context : list (string * Ctx))
| Redirect (location : string)
| InternalServerError (e : Exc).

Definition render_template (name : string) (context : list (string * Ctx)) : M Response :=
  ret (RenderTemplate name context).

Definition redirect (location : string) : M Response := ret (Redirect location).

Definition msg_passwords_do_not_match : string :=
  "Your passwords do not match. Please try again.".
Definition msg_registered : string :=
  "Thank you for registering! Now please login with your credentials.".
Definition msg_logged_in : string := "You are now logged in.".
Definition msg_incorrect_login : string :=
  "Incorrect login information. Please try again.".
Definition msg_no_such_username : string :=
  "Your username does not exist. Please try again or register as a new user.".
Definition msg_logged_out : string := "You are now logged out.".
Definition msg_task_active : string :=
  "That task is active in your gameplan! Remove that task from gameplan before deleting from templates.".

(* ------------------------------------------------------------------ *)
(** ** The handlers of [server.py] *)

(** [GET /] *)
Definition show_index : M Response :=
  su <- session_getitem_user ;;
  username <-
    (if truthy su then
       user <- query_get get_user su ;;
       match user with
       | Some u => ret (Some (VStr (User.username u)))
       | None => ret None                 (* [username] stays unassigned *)
       end
     else ret (Some (VStr "friend"))) ;;
  username <- local username ;;
  render_template "index.html" [("username", CValue username)].

(** [GET /register] *)
Definition display_registration_form : M Response :=
  render_template "registration_form.html" [].

(** [POST /register] *)
Definition execute_user_registration (r : Request) : M Response :=
  let username := form_get r "username" in
  let password := form_get r "password" in
  let confirm_password := form_get r "confirm_password" in
  if negb (py_eq password confirm_password) then
    flash msg_passwords_do_not_match ;;
    redirect "/register"
  else
    user <- lift (User.__init__ [("username", username); ("password", password)]) ;;
    db_session_add (insert_user user) ;;
    keys <- db_session_commit ;;
    let user_id := nth 0 keys VNone in
    settings <- query settings ;;
    for_each settings (fun setting =>
      setting_id <- lift (Setting.getattr setting "setting_id") ;;
      default <- lift (Setting.getattr setting "setting_default_value") ;;
      new_user_setting <-
        lift (UserSetting.__init__
                [("user_id", user_id); ("setting_id", setting_id); ("value", default)]) ;;
      db_session_add (insert_user_setting new_user_setting) ;;
      db_session_commit ;;
      ret tt) ;;
    flash msg_registered ;;
    redirect "/".

(** [POST /login].  The [render_template] that ends the Python function is
    never reached: [user] is a row or [None]. *)
Definition check_login_credentials (r : Request) : M Response :=
  let username := form_get r "username" in
  let password := form_get r "password" in
  found <- users_by_username username ;;
  match first found with
  | Some user =>
      if py_eq (VStr (User.password user)) password then
        session_setitem_user (VInt (User.user_id user)) ;;
        flash msg_logged_in ;;
        redirect "/"
      else
        flash msg_incorrect_login ;;
        redirect "/"
  | None =>
      flash msg_no_such_username ;;
      redirect "/"
  end.

(** [GET /logout] *)
Definition log_out_user : M Response :=
  session_setitem_user VNone ;;
  flash msg_logged_out ;;
  redirect "/".

(** [GET /api/tasks] *)
Definition task_list : M Response :=
  user_id <- session_getitem_user ;;
  tasks <- filter_by_int Task.user_id tasks user_id ;;
  render_template "dashboard.html" [("tasks", CTasks tasks)].

(** [POST /api/task] *)
Definition add_new_task (r : Request) : M Response :=
  user_id <- session_getitem_user ;;
  let task_name := form_get r "task_name" in
  let duration_estimate := form_get r "duration_estimate" in
  new_task <-
    lift (Task.__init__ [("user_id", user_id); ("task_name", task_name);
                         ("duration_estimate", duration_estimate)]) ;;
  db_session_add (insert_task new_task) ;;
  db_session_commit ;;
  redirect "/dashboard".

(** [GET|DELETE /api/task/<task_id>] *)
Definition delete_task_from_task_list (task_id : string) : M Response :=
  try_except
    (task_to_delete <- query_get get_task (VStr task_id) ;;
     db_session_delete (option_map delete_task task_to_delete) ;;
     db_session_commit ;;
     ret tt)
    AssertionError
    (flash msg_task_active) ;;
  redirect "/dashboard".

(** [GET /settings] *)
Definition show_user_settings : M Response :=
  su <- session_getitem_user ;;
  if truthy su then
    user <- query_get get_user su ;;
    username <- username_of user ;;
    mine <- filter_by_int UserSetting.user_id users_settings su ;;
    let user_settings :=
      order_by (fun a b => UserSetting.user_setting_id a <=? UserSetting.user_setting_id b)
               mine in
    render_template "user_settings.html"
      [("username", CValue username); ("user_settings", CUserSettings user_settings)]
  else redirect "/".

(** [GET|PUT /api/setting/<user_setting_id>] *)
Definition update_user_setting (user_setting_id : string) (r : Request) : M Response :=
  let new_value_user_setting := values_get r user_setting_id in
  found <- filter_by_int UserSetting.user_setting_id users_settings (VStr user_setting_id) ;;
  user_setting <- one found ;;
  db_session_add (update_user_setting_value user_setting new_value_user_setting) ;;
  db_session_commit ;;
  redirect "/settings".

(** [UserSetting.query.filter_by(user_id=v, setting_id=k).first()], then
    its [value] or [None]. *)
Definition setting_value (v : Value) (k : Z) : M Value :=
  mine <- filter_by_int UserSetting.user_id users_settings v ;;
  match first (filter (fun x => UserSetting.setting_id x =? k) mine) with
  | Some x => ret (VStr (UserSetting.value x))
  | None => ret VNone
  end.

(** [GameplanTask.query.filter_by(user_id=v).order_by(GameplanTask.order).all()] *)
Definition gameplan_tasks_of (v : Value) : M (list GameplanTask.t) :=
  mine <- filter_by_int GameplanTask.user_id gameplan_tasks v ;;
  ret (order_by (fun a b => order_leb (GameplanTask.order a) (GameplanTask.order b)) mine).

(** [GET /dashboard] *)
Definition show_user_tasks_and_gameplan : M Response :=
  user_id <- session_getitem_user ;;
  user <- query_get get_user user_id ;;
  username <- username_of user ;;
  gameplan_tasks <- gameplan_tasks_of user_id ;;
  tasks <- filter_by_int Task.user_id tasks user_id ;;
  priority <- setting_value user_id 1 ;;
  intention <- setting_value user_id 9 ;;
  notes_reminders <- setting_value user_id 10 ;;
  render_template "dashboard.html"
    [("username", CValue username); ("gameplan_tasks", CGameplanTasks gameplan_tasks);
     ("tasks", CTasks tasks); ("priority", CValue priority);
     ("intention", CValue intention); ("notes_reminders", CValue notes_reminders)].

(** [GET|DELETE /api/gptask/<task_id>] *)
Definition delete_task_from_gameplan (task_id : string) : M Response :=
  gptask_to_delete <- query_get get_gameplan_task (VStr task_id) ;;
  db_session_delete (option_map delete_gameplan_task gptask_to_delete) ;;
  db_session_commit ;;
  redirect "/dashboard".

(** [GET /about] *)
Definition display_about_page : M Response :=
  render_template "about.html" [].

Section Application.

Variable timestamp_in : string -> option Z.

(** [POST /api/add_task_to_gameplan] *)
Definition add_task_to_gameplan (r : Request) : M Response :=
  user_id <- session_getitem_user ;;
  let task_id := form_get r "gameplan_task_name" in
  let start_time := form_get r "start_time" in
  let end_time := form_get r "end_time" in
  let order := form_get r "order" in
  order <- lift (py_int order) ;;
  new_gameplan_task <-
    lift (GameplanTask.__init__
            [("task_id", task_id); ("user_id", user_id); ("order", VInt order);
             ("start_time", start_time); ("end_time", end_time)]) ;;
  db_session_add (insert_gameplan_task timestamp_in new_gameplan_task) ;;
  db_session_commit ;;
  redirect "/dashboard".

(** The routing table. *)
Definition dispatch (r : Request) : M Response :=
  match route r with
  | GET_index => show_index
  | GET_register => display_registration_form
  | POST_register => execute_user_registration r
  | POST_login => check_login_credentials r
  | GET_logout => log_out_user
  | GET_api_tasks => task_list
  | POST_api_task => add_new_task r
  | DELETE_api_task task_id => delete_task_from_task_list task_id
  | GET_settings => show_user_settings
  | PUT_api_setting user_setting_id => update_user_setting user_setting_id r
  | GET_dashboard => show_user_tasks_and_gameplan
  | POST_api_add_task_to_gameplan => add_task_to_gameplan r
  | DELETE_api_gptask task_id => delete_task_from_gameplan task_id
  | GET_about => display_about_page
  end.

End Application.

(** What a request leaves behind: the unit of work belongs to the request
    and is dropped with it. *)
Definition at_rest (w : World) : World :=
  mkWorld (store w) [] (session w) (flashed w).

(** One request: the handler runs with a new, empty unit of work; an
    exception that leaves the handler becomes the server-error response. *)
Definition run (h : M Response) (w : World) : Response * World :=
  let (o, w') := h (at_rest w) in
  (match o with Ok resp => resp | Raise e => InternalServerError e end, at_rest w').

Definition serve (timestamp_in : string -> option Z) (r : Request) (w : World)
  : Response * World :=
  run (dispatch timestamp_in r) w.

(** A browser that holds no session cookie yet. *)
Definition fresh (d : DB) : World := mkWorld d [] None [].

(** The worlds a sequence of requests can lead to from a fresh browser. *)
Inductive reachable (timestamp_in : string -> option Z) (d0 : DB) : World -> Prop :=
| reachable_fresh : reachable timestamp_in d0 (fresh d0)
| reachable_serve : forall w r,
    reachable timestamp_in d0 w ->
    reachable timestamp_in d0 (snd (serve timestamp_in r w)).

(** The two states of a session. *)
Inductive SessionState : Type :=
| Anonymous
| Authenticated (user_id : Z).

Definition session_state (w : World) : SessionState :=
  match session w with
  | Some (VInt k) => Authenticated k
  | _ => Anonymous
  end.

(* ------------------------------------------------------------------ *)
(** ** Schema conditions used in the statements *)

(** [username] is declared unique. *)
Definition unique_usernames (d : DB) : Prop :=
  NoDup (map User.username (users d)).

(** The primary keys of the three tables the delete and update handlers
    address. *)
Definition unique_task_ids (d : DB) : Prop :=
  NoDup (map Task.task_id (tasks d)).
Definition unique_gameplan_task_ids (d : DB) : Prop :=
  NoDup (map GameplanTask.task_id (gameplan_tasks d)).
Definition unique_user_setting_ids (d : DB) : Prop :=
  NoDup (map UserSetting.user_setting_id (users_settings d)).

(** Ascending by [order], NULL last. *)
Definition order_le (a b : GameplanTask.t) : Prop :=
  order_leb (GameplanTask.order a) (GameplanTask.order b) = true.

(** What a session may hold, given the stored users. *)
Definition session_ok (w : World) : Prop :=
  match session w with
  | None => True
  | Some VNone => True
  | Some (VInt k) => exists u, In u (users (store w)) /\ User.user_id u = k
  | Some (VStr _) => False
  end.

(** The store a flushed change leaves. *)
Definition after (f : FlushResult) : DB :=
  match f with Flushed d _ => d | Failed _ d => d end.

(** No user is removed: [users] is as it was, or longer at its end. *)
Definition users_grow (d d' : DB) : Prop :=
  exists ext, users d' = users d ++ ext.

(** The uniqueness constraints the statements below rely on. *)
Definition schema_ok (d : DB) : Prop :=
  NoDup (map User.user_id (users d))
  /\ unique_usernames d
  /\ unique_user_setting_ids d
  /\ unique_task_ids d
  /\ unique_gameplan_task_ids d.

Definition schema_kept (d d' : DB) : Prop := schema_ok d -> schema_ok d'.

Section Stability.

(** A relation between the store before and after. *)
Variable R : DB -> DB -> Prop.

(** A pending change that respects [R] whatever store it is flushed on. *)
Definition respects (c : DB -> FlushResult) : Prop :=
  forall d, R d (after (c d)).

Definition calm (w : World) : Prop := Forall respects (db_session w).

(** A computation that leaves the session alone and whose effect on the
    store is within [R]. *)
Definition stable {A : Type} (m : M A) : Prop :=
  forall w, calm w ->
    session (snd (m w)) = session w
    /\ R (store w) (store (snd (m w)))
    /\ calm (snd (m w)).

End Stability.

(** A response that is not the server-error page. *)
Definition recovered (resp : Response) : Prop :=
  forall e, resp <> InternalServerError e.

(** A submitted value is no text of more than [n] characters: what a
    [varchar(n)] column accepts of it, it stores uncut. *)
Definition fits (n : nat) (v : Value) : Prop :=
  match v with
  | VStr s => (String.length s <= n)%nat
  | _ => True
  end.

(** The credentials of a login form are those of the stored user [u],
    whose name, being stored, is a text without NUL. *)
Definition credentials_of (r : Request) (u : User.t) : Prop :=
  form_get r "username" = VStr (User.username u)
  /\ form_get r "password" = VStr (User.password u)
  /\ has_nul (User.username u) = false.

(* ------------------------------------------------------------------ *)
(** ** Sample data *)

Module Sample.

(** Timestamps written as a count of minutes. *)
Definition timestamp_in : string -> option Z := int4_in.

Definition alice : User.t := User.mk 1 "alice" "pw1" None None.
Definition bob : User.t := User.mk 2 "bob" "pw2" None None.
Definition shower : Task.t := Task.mk 1 1 "Shower" None 10 None.
Definition coffee : Task.t := Task.mk 2 1 "Coffee" None 5 None.
Definition stretch : Task.t := Task.mk 3 1 "Stretch" None 15 None.
Definition journal : Task.t := Task.mk 4 1 "Journal" None 20 None.
Definition priority : Setting.t := Setting.mk 1 (Some "priority").

Definition empty : DB := mkDB [] [] [] [] [] [] [] 0 0 0.

(** A catalog with one setting and no user yet. *)
Definition catalog_only : DB := mkDB [] [priority] [] [] [] [] [] 0 0 0.

(** Two users; alice has four tasks, two of them in her gameplan
    (entered out of order), one tagged with a category, and one setting. *)
Definition planned : DB :=
  mkDB [alice; bob] [priority]
       [UserSetting.mk 1 1 1 "ship it"]
       [shower; coffee; stretch; journal]
       [GameplanTask.mk 1 1 (Some 2) (Some 430) (Some 440);
        GameplanTask.mk 2 1 (Some 1) (Some 420) (Some 425)]
       [Category.mk 1 "must-do"]
       [TaskCategory.mk 1 3 (Some 1)]
       2 1 4.

Definition register_alice : Request :=
  mkRequest POST_register []
    [("username", "alice"); ("password", "pw1"); ("confirm_password", "pw1")].

Definition register_typo : Request :=
  mkRequest POST_register []
    [("username", "alice"); ("password", "pw1"); ("confirm_password", "pw2")].

Definition login_alice : Request :=
  mkRequest POST_login [] [("username", "alice"); ("password", "pw1")].

Definition login_wrong_password : Request :=
  mkRequest POST_login [] [("username", "alice"); ("password", "pw2")].

Definition login_nobody : Request :=
  mkRequest POST_login [] [("username", "carol"); ("password", "pw1")].

Definition logout : Request := mkRequest GET_logout [] [].

Definition add_shower : Request :=
  mkRequest POST_api_task [] [("task_name", "Shower"); ("duration_estimate", "10")].

(** alice, logged in. *)
Definition alice_in : World := mkWorld planned [] (Some (VInt 1)) [].

(** A session left over from a user that is no longer stored. *)
Definition stale : World := mkWorld planned [] (Some (VInt 7)) [].

End Sample.

(* ------------------------------------------------------------------ *)
(** ** The rest of [model.py], and what the further statements need *)

(** [User.get_user_by_username(username)]:
    [cls.query.filter_by(username=username).one()] *)
Definition get_user_by_username (username : Value) : M User.t :=
  found <- users_by_username username ;;
  one found.

(** [str(z)] for a Python [int]: decimal digits, ["-"] in front when
    negative. *)
Definition py_str_int (z : Z) : string := NilZero.string_of_int (Z.to_int z).

(** How an f-string shows a nullable column. *)
Definition fmt_int (o : option Z) : string :=
  match o with Some z => py_str_int z | None => "None" end.
Definition fmt_str (o : option string) : string :=
  match o with Some s => s | None => "None" end.

(** The [__repr__] methods of [model.py], on stored rows. *)
Definition User_repr (u : User.t) : string :=
  String.concat "" ["<User user_id="; py_str_int (User.user_id u);
                    " username="; User.username u; ">"].

Definition Setting_repr (x : Setting.t) : string :=
  String.concat "" ["<Setting setting_id="; py_str_int (Setting.setting_id x);
                    " setting_name="; fmt_str (Setting.setting_name x); ">"].

Definition UserSetting_repr (x : UserSetting.t) : string :=
  String.concat "" ["<UserSetting setting_id="; py_str_int (UserSetting.setting_id x);
                    " user_id="; py_str_int (UserSetting.user_id x);
                    " value="; UserSetting.value x; ">"].

Definition Task_repr (t : Task.t) : string :=
  String.concat "" ["<Task task_id="; py_str_int (Task.task_id t);
                    " task_name="; Task.task_name t;
                    " user_id="; py_str_int (Task.user_id t); ">"].

Definition GameplanTask_repr (g : GameplanTask.t) : string :=
  String.concat "" ["<GameplanTask task_id="; py_str_int (GameplanTask.task_id g);
                    " user_id="; py_str_int (GameplanTask.user_id g); ">"].

Definition Category_repr (c : Category.t) : string :=
  String.concat "" ["<Category id="; py_str_int (Category.category_id c);
                    " name="; Category.category_name c; ">"].

Definition TaskCategory_repr (c : TaskCategory.t) : string :=
  String.concat "" ["<TaskCategory id= "; py_str_int (TaskCategory.tasks_categories_id c);
                    " task_id="; py_str_int (TaskCategory.task_id c);
                    " category_id="; fmt_int (TaskCategory.category_id c); ">"].

(** A computation that changes nothing in the world. *)
Definition quiet {A : Type} (m : M A) : Prop :=
  forall w, snd (m w) = w.

(** What identifies a [UserSetting] row apart from its value. *)
Definition pairing (x : UserSetting.t) : Z * Z * Z :=
  (UserSetting.user_setting_id x, UserSetting.user_id x, UserSetting.setting_id x).

(** What a request may do to the store at most: the catalogs and
    [tasks_categories] stay, [tasks] loses rows or stays, [users_settings]
    keeps its rows up to their values, [users] is extended at its end. *)
Definition frame (d d' : DB) : Prop :=
  settings d' = settings d
  /\ categories d' = categories d
  /\ tasks_categories d' = tasks_categories d
  /\ (exists keep, tasks d' = filter keep (tasks d))
  /\ map pairing (users_settings d') = map pairing (users_settings d)
  /\ users_grow d d'.

(** [v] is what the dashboard may show of user [k] for setting [n]: the
    value of one of the user's own rows for that setting, or [None] when
    the user has no such row. *)
Definition own_setting (d : DB) (k n : Z) (v : Value) : Prop :=
  (v = VNone
   /\ forall x, In x (users_settings d) -> UserSetting.user_id x = k ->
                UserSetting.setting_id x <> n)
  \/ (exists x, In x (users_settings d) /\ UserSetting.user_id x = k
                /\ UserSetting.setting_id x = n /\ v = VStr (UserSetting.value x)).

(** Ascending by [user_setting_id]. *)
Definition user_setting_id_le (a b : UserSetting.t) : Prop :=
  UserSetting.user_setting_id a <= UserSetting.user_setting_id b.

Module Demo.

(** Promote task 4 (Journal) to the gameplan as third entry. *)
Definition plan_journal : Request :=
  mkRequest POST_api_add_task_to_gameplan []
    [("gameplan_task_name", "4"); ("order", "3");
     ("start_time", "445"); ("end_time", "465")].


Definition register_carol : Request :=
  mkRequest POST_register []
    [("username", "carol"); ("password", "pw3"); ("confirm_password", "pw3")].

Definition login_carol : Request :=
  mkRequest POST_login [] [("username", "carol"); ("password", "pw3")].

Definition carol : User.t := User.mk 3 "carol" "pw3" None None.

Definition set_priority (v : string) : Request :=
  mkRequest (PUT_api_setting "1") [] [("1", v)].

(** A name the driver cannot bind: it starts with NUL. *)
Definition nul_name : string := String Ascii.zero "alice".

Definition login_nul : Request :=
  mkRequest POST_login [] [("username", nul_name); ("password", "pw1")].

(** [n] blanks before a text. *)
Fixpoint blanks (n : nat) (s : string) : string :=
  match n with
  | O => s
  | S m => String " " (blanks m s)
  end.

(** A text of a hundred characters, and two of a hundred and one: the first
    followed by a blank, and by a letter. *)
Definition hundred : string := "rest" ++ blanks 96 "".
Definition hundred_and_blank : string := "rest" ++ blanks 97 "".
Definition hundred_and_letter : string := "rest" ++ blanks 96 "x".

(** A name of fifty-one characters, the last of them a blank. *)
Definition padded_name : string := "dave" ++ blanks 47 "".

Definition register_padded : Request :=
  mkRequest POST_register []
    [("username", padded_name); ("password", "pw4"); ("confirm_password", "pw4")].

Definition login_padded : Request :=
  mkRequest POST_login [] [("username", padded_name); ("password", "pw4")].

End Demo.

(* ================================================================== *)
(** * Properties *)

(* ------------------------------------------------------------------ *)
(** ** Values, lists and tables *)

Lemma py_eq_true_iff (a b : Value) : py_eq a b = true <-> a = b.
Proof.
  destruct a, b; simpl; split; intro H; try congruence; try discriminate.
  - apply Z.eqb_eq in H. now subst.
  - inversion H. apply Z.eqb_refl.
  - apply String.eqb_eq in H. now subst.
  - inversion H. apply String.eqb_refl.
Qed.

Lemma py_eq_refl (a : Value) : py_eq a a = true.
Proof. now apply py_eq_true_iff. Qed.

Lemma py_eq_false_iff (a b : Value) : py_eq a b = false <-> a <> b.
Proof.
  split.
  - intros H E. apply py_eq_true_iff in E. congruence.
  - intro N. destruct (py_eq a b) eqn:E; [|reflexivity].
    apply py_eq_true_iff in E. contradiction.
Qed.

Lemma rolled_back_same (d : DB) : rolled_back d d = d.
Proof. now destruct d. Qed.

Lemma with_users_settings_same (d : DB) : with_users_settings (users_settings d) d = d.
Proof. now destruct d. Qed.

Section Tables.

Context {A : Type} (key : A -> Z).

Lemma find_key_In (k : Z) (l : list A) (x : A) :
  find (fun y => key y =? k) l = Some x -> In x l /\ key x = k.
Proof.
  intro H. apply find_some in H. destruct H as [Hin Hk].
  apply Z.eqb_eq in Hk. now split.
Qed.


Lemma existsb_key_find (k : Z) (l : list A) :
  existsb (fun y => key y =? k) l
  = match find (fun y => key y =? k) l with Some _ => true | None => false end.
Proof.
  induction l as [|y l IH]; simpl; [reflexivity|].
  destruct (key y =? k); simpl; [reflexivity | exact IH].
Qed.

Lemma filter_key_absent (k : Z) (l : list A) :
  ~ In k (map key l) -> filter (fun y => negb (key y =? k)) l = l.
Proof.
  induction l as [|y l IH]; simpl; intro H; [reflexivity|].
  destruct (Z.eqb_spec (key y) k) as [E|N]; simpl.
  - exfalso. apply H. now left.
  - f_equal. apply IH. intro Hin. apply H. now right.
Qed.

(** Under a primary key, the row [find] returns is the only one with
    that key: deleting by key removes exactly it. *)
Lemma delete_by_key (k : Z) (l : list A) (x : A) :
  NoDup (map key l) ->
  find (fun y => key y =? k) l = Some x ->
  exists l1 l2,
    l = l1 ++ x :: l2
    /\ filter (fun y => negb (key y =? k)) l = l1 ++ l2
    /\ ~ In k (map key (l1 ++ l2)).
Proof.
  induction l as [|y l IH]; simpl; intros ND H; [discriminate|].
  inversion ND as [|? ? Hnotin ND']; subst.
  destruct (Z.eqb_spec (key y) k) as [E|N]; simpl.
  - inversion H; subst. exists [], l. simpl. repeat split.
    + apply filter_key_absent. exact Hnotin.
    + exact Hnotin.
  - destruct (IH ND' H) as (l1 & l2 & -> & Hf & Hni).
    exists (y :: l1), l2. simpl. repeat split.
    + now rewrite Hf.
    + intros [E'|Hin]; [contradiction | now apply Hni].
Qed.

Lemma select_by_key (k : Z) (l : list A) (x : A) :
  NoDup (map key l) -> In x l -> key x = k ->
  filter (fun y => key y =? k) l = [x]
  /\ find (fun y => key y =? k) l = Some x.
Proof.
  induction l as [|y l IH]; simpl; intros ND Hin E; [contradiction|].
  inversion ND as [|? ? Hnotin ND']; subst.
  destruct Hin as [->|Hin].
  - rewrite Z.eqb_refl. split; [|reflexivity]. f_equal.
    clear IH ND ND'. induction l as [|z l IHl]; simpl; [reflexivity|].
    destruct (Z.eqb_spec (key z) (key x)) as [E|N].
    + exfalso. apply Hnotin. left. exact E.
    + apply IHl. intro H. apply Hnotin. now right.
  - destruct (Z.eqb_spec (key y) (key x)) as [E|N].
    + exfalso. apply Hnotin. rewrite E. now apply in_map.
    + now apply IH.
Qed.

End Tables.

(* ------------------------------------------------------------------ *)
(** ** The driver and the store's coercions *)

Lemma digit_in_bindable (base : Z) (c : ascii) (d : Z) :
  digit_in base c = Some d -> Ascii.eqb c Ascii.zero = false.
Proof.
  destruct (Ascii.eqb_spec c Ascii.zero) as [->|]; [|reflexivity].
  unfold digit_in. simpl. rewrite Z.ltb_irrefl. discriminate.
Qed.

Lemma is_space_bindable (c : ascii) :
  is_space c = true -> Ascii.eqb c Ascii.zero = false.
Proof.
  destruct (Ascii.eqb_spec c Ascii.zero) as [->|]; [discriminate | reflexivity].
Qed.

Lemma drop_spaces_bindable (s : string) : has_nul (drop_spaces s) = has_nul s.
Proof.
  induction s as [|c r IH]; simpl; [reflexivity|].
  destruct (is_space c) eqn:E; [|reflexivity].
  now rewrite (is_space_bindable _ E).
Qed.

Lemma split_sign_bindable (s : string) : has_nul (snd (split_sign s)) = has_nul s.
Proof.
  destruct s as [|c r]; [reflexivity|].
  destruct c as [[] [] [] [] [] [] [] []]; reflexivity.
Qed.

Lemma int_digits_bindable (base : Z) (s : string) :
  forall pending acc n rest,
    int_digits base pending acc s = Some (n, rest) -> has_nul s = has_nul rest.
Proof.
  induction s as [|c r IH]; simpl; intros pending acc n rest H.
  - destruct pending; [discriminate|]. now inversion H.
  - destruct (digit_in base c) as [d|] eqn:E.
    + rewrite (digit_in_bindable _ _ _ E). exact (IH _ _ _ _ H).
    + destruct pending; [discriminate|].
      destruct (Ascii.eqb_spec c "_") as [->|].
      * exact (IH _ _ _ _ H).
      * now inversion H.
Qed.

Lemma int_literal_bindable (base : Z) (prefixed : bool) (s : string) (n : Z)
      (rest : string) :
  int_literal base prefixed s = Some (n, rest) -> has_nul s = has_nul rest.
Proof.
  destruct s as [|c r]; simpl; [discriminate|]. intro H.
  destruct (digit_in base c) as [d|] eqn:E.
  - rewrite (digit_in_bindable _ _ _ E). exact (int_digits_bindable _ _ _ _ _ _ H).
  - destruct prefixed; [|discriminate]. simpl in H.
    destruct (Ascii.eqb_spec c "_") as [->|]; [|discriminate].
    exact (int_digits_bindable _ _ _ _ _ _ H).
Qed.

Lemma int_magnitude_bindable (s : string) (n : Z) (rest : string) :
  int_magnitude s = Some (n, rest) -> has_nul s = has_nul rest.
Proof.
  assert (forall b x r, int_literal b true r = Some (n, rest) ->
            Ascii.eqb x Ascii.zero = false ->
            has_nul (String "0" (String x r)) = has_nul rest) as P.
  { intros b x r H Hx. simpl. rewrite Hx. exact (int_literal_bindable _ _ _ _ _ H). }
  unfold int_magnitude. destruct s as [|c [|x r]];
    try exact (int_literal_bindable _ _ _ _ _).
  destruct (Ascii.eqb_spec c "0") as [->|]; cbn [andb];
    [|exact (int_literal_bindable _ _ _ _ _)].
  destruct (Ascii.eqb_spec x "x") as [->|]; [intro H; exact (P _ "x"%char _ H eq_refl)|].
  destruct (Ascii.eqb_spec x "X") as [->|]; [intro H; exact (P _ "X"%char _ H eq_refl)|].
  destruct (Ascii.eqb_spec x "o") as [->|]; [intro H; exact (P _ "o"%char _ H eq_refl)|].
  destruct (Ascii.eqb_spec x "O") as [->|]; [intro H; exact (P _ "O"%char _ H eq_refl)|].
  destruct (Ascii.eqb_spec x "b") as [->|]; [intro H; exact (P _ "b"%char _ H eq_refl)|].
  destruct (Ascii.eqb_spec x "B") as [->|]; [intro H; exact (P _ "B"%char _ H eq_refl)|].
  exact (int_literal_bindable _ _ _ _ _).
Qed.

Lemma blank_rest_bindable (s : string) : drop_spaces s = EmptyString -> has_nul s = false.
Proof.
  intro H. rewrite <- (drop_spaces_bindable s), H. reflexivity.
Qed.

(** The store reads no integer from a text the driver refuses: the order of
    the two checks cannot be told from the outcome of an accepted text. *)
Lemma int4_in_bindable (s : string) (k : Z) : int4_in s = Some k -> has_nul s = false.
Proof.
  unfold int4_in. rewrite <- (drop_spaces_bindable s), <- (split_sign_bindable (drop_spaces s)).
  destruct (split_sign (drop_spaces s)) as [neg body]. simpl.
  destruct (int_magnitude body) as [[n rest]|] eqn:E; [|discriminate].
  rewrite (int_magnitude_bindable _ _ _ E).
  destruct (drop_spaces rest) eqn:Er; [|discriminate]. intros _.
  now apply blank_rest_bindable.
Qed.

Lemma as_key_int4_in (s : string) (k : Z) :
  int4_in s = Some k -> as_key (VStr s) = Ok (Some k).
Proof. intro H. simpl. now rewrite (int4_in_bindable _ _ H), H. Qed.

Lemma as_int4_int4_in (s : string) (k : Z) :
  int4_in s = Some k -> as_int4 (VStr s) = Ok (Some k).
Proof. intro H. simpl. now rewrite (int4_in_bindable _ _ H), H. Qed.

Lemma as_key_bindable (v : Value) (k : option Z) :
  as_key v = Ok k -> unbindable v = false.
Proof.
  destruct v as [| z | s]; simpl; try reflexivity.
  destruct (has_nul s); [discriminate | reflexivity].
Qed.

Lemma as_int4_bindable (v : Value) (k : option Z) :
  as_int4 v = Ok k -> unbindable v = false.
Proof.
  destruct v as [| z | s]; simpl; try reflexivity.
  destruct (has_nul s); [discriminate | reflexivity].
Qed.


Lemma as_varchar_bindable (n : nat) (v : Value) (t : option string) :
  as_varchar n v = Ok t -> unbindable v = false.
Proof.
  destruct v as [| z | s]; simpl; try reflexivity.
  destruct (has_nul s); [discriminate | reflexivity].
Qed.

(** A text that fits the column and that the driver binds is stored as it
    is. *)
Lemma as_varchar_fits (n : nat) (s : string) :
  has_nul s = false -> (String.length s <= n)%nat ->
  as_varchar n (VStr s) = Ok (Some s).
Proof.
  intros Hs Hn. simpl. rewrite Hs.
  apply Nat.leb_le in Hn. now rewrite Hn.
Qed.

Lemma text_take_length (n : nat) (s : string) :
  (String.length (text_take n s) <= n)%nat.
Proof.
  revert s. induction n as [|n IH]; intros [|c r]; simpl; try lia.
  specialize (IH r). lia.
Qed.

Lemma text_take_bindable (n : nat) (s : string) :
  has_nul s = false -> has_nul (text_take n s) = false.
Proof.
  revert s. induction n as [|n IH]; intros [|c r]; simpl; try reflexivity.
  intro H. apply orb_false_iff in H. destruct H as [Hc Hr].
  rewrite Hc. simpl. now apply IH.
Qed.

(** What the store holds after a text was accepted for a [varchar(n)]: the
    text itself when it fits, its first [n] characters when only blanks
    were cut; never more than [n] characters, never NUL. *)
Lemma as_varchar_stored (n : nat) (v : Value) (t : string) :
  as_varchar n v = Ok (Some t) ->
  exists s,
    v = VStr s /\ has_nul s = false
    /\ (((String.length s <= n)%nat /\ t = s)
        \/ ((n < String.length s)%nat /\ t = text_take n s
            /\ all_blank (text_drop n s) = true))
    /\ (String.length t <= n)%nat /\ has_nul t = false.
Proof.
  destruct v as [| z | s]; simpl; try discriminate.
  destruct (has_nul s) eqn:Hs; [discriminate|].
  destruct (Nat.leb_spec (String.length s) n) as [Hn|Hn].
  - intro H. inversion H; subst t. exists s. repeat split; try assumption.
    left. now split.
  - destruct (all_blank (text_drop n s)) eqn:Hb; [|discriminate].
    intro H. inversion H; subst t. exists s. repeat split; try assumption.
    + right. repeat split; assumption.
    + apply text_take_length.
    + now apply text_take_bindable.
Qed.

(* ------------------------------------------------------------------ *)
(** ** Registration *)

(** C6.  When the password and its confirmation differ, registration stores
    nothing: the store and the session are as before, the message "Your
    passwords do not match" is flashed, and the browser is sent back to
    [/register]. *)
Theorem register_mismatch_changes_nothing (r : Request) (w : World) :
  form_get r "password" <> form_get r "confirm_password" ->
  run (execute_user_registration r) w
  = (Redirect "/register",
     mkWorld (store w) [] (session w) (flashed w ++ [msg_passwords_do_not_match])).
Proof.
  intro H. apply py_eq_false_iff in H.
  unfold run, execute_user_registration. rewrite H. reflexivity.
Qed.

Lemma register_mismatch_changes_nothing_witness :
  run (execute_user_registration Sample.register_typo) (fresh Sample.catalog_only)
  = (Redirect "/register",
     mkWorld Sample.catalog_only [] None [msg_passwords_do_not_match]).
Proof.
  apply (register_mismatch_changes_nothing Sample.register_typo (fresh Sample.catalog_only)).
  simpl. discriminate.
Defined.

(** The loop over the catalog stops in its first round: reading
    [setting.setting_default_value] raises [AttributeError] before a
    [UserSetting] is built. *)
Lemma seeding_loop_raises (user_id : Value) (s : Setting.t) (rest : list Setting.t)
      (w : World) :
  for_each (s :: rest) (fun setting =>
      setting_id <- lift (Setting.getattr setting "setting_id") ;;
      default <- lift (Setting.getattr setting "setting_default_value") ;;
      new_user_setting <-
        lift (UserSetting.__init__
                [("user_id", user_id); ("setting_id", setting_id); ("value", default)]) ;;
      db_session_add (insert_user_setting new_user_setting) ;;
      db_session_commit ;;
      ret tt) w
  = (Raise AttributeError, w).
Proof. reflexivity. Qed.

Lemma insert_user_Flushed (o : Obj) (d d1 : DB) (key : Value) :
  insert_user o d = Flushed d1 key ->
  exists u,
    d1 = with_users (users d ++ [u]) (with_users_user_id_seq (users_user_id_seq d + 1) d)
    /\ key = VInt (User.user_id u)
    /\ User.user_id u = users_user_id_seq d + 1
    /\ as_varchar 50 (attr o "username") = Ok (Some (User.username u))
    /\ as_varchar 50 (attr o "password") = Ok (Some (User.password u))
    /\ ~ In (User.username u) (map User.username (users d))
    /\ ~ In (User.user_id u) (map User.user_id (users d)).
Proof.
  unfold insert_user. intro H.
  destruct (negb (binds o ["username"; "password"; "home_address"; "destination_address"]));
    [discriminate|].
  destruct (as_varchar 50 (attr o "username")) as [[un|]|];
    destruct (as_varchar 50 (attr o "password")) as [[pw|]|];
    destruct (as_varchar 100 (attr o "home_address")) as [ha|];
    destruct (as_varchar 100 (attr o "destination_address")) as [da|];
    try discriminate.
  destruct (existsb (fun u => User.user_id u =? users_user_id_seq d + 1) (users d)) eqn:Eid;
    simpl in H; [discriminate|].
  destruct (existsb (fun u => String.eqb (User.username u) un) (users d)) eqn:Eun;
    simpl in H; [discriminate|].
  inversion H; subst; clear H.
  eexists. repeat split; simpl.
  - intro Hin. apply in_map_iff in Hin. destruct Hin as (x & Hx & Hin).
    assert (existsb (fun u => String.eqb (User.username u) un) (users d) = true) as C.
    { apply existsb_exists. exists x. split; [exact Hin|]. rewrite Hx. apply String.eqb_refl. }
    congruence.
  - intro Hin. apply in_map_iff in Hin. destruct Hin as (x & Hx & Hin).
    assert (existsb (fun u => User.user_id u =? users_user_id_seq d + 1) (users d) = true) as C.
    { apply existsb_exists. exists x. split; [exact Hin|]. rewrite Hx. apply Z.eqb_refl. }
    congruence.
Qed.

(** C1.  What the code does for a registration with matching passwords that
    the store accepts, when the catalog holds at least one setting: the
    [User] row is committed, then the seeding loop raises [AttributeError]
    at [setting.setting_default_value] (the [Setting] model maps no such
    attribute); the request ends as a server error and no [UserSetting] row
    is stored. *)
Theorem register_seeds_no_setting (r : Request) (w : World) (d1 : DB) (key : Value) :
  form_get r "password" = form_get r "confirm_password" ->
  insert_user [("username", form_get r "username"); ("password", form_get r "password")]
              (store w) = Flushed d1 key ->
  settings (store w) <> [] ->
  run (execute_user_registration r) w
  = (InternalServerError AttributeError, mkWorld d1 [] (session w) (flashed w))
  /\ users_settings d1 = users_settings (store w)
  /\ exists u, users d1 = users (store w) ++ [u].
Proof.
  intros Hpw Hins Hne.
  destruct (insert_user_Flushed _ _ _ _ Hins) as (u & Hd1 & _).
  split; [|split].
  - assert (settings d1 = settings (store w)) as Hs by (subst d1; reflexivity).
    unfold run, execute_user_registration.
    rewrite <- Hpw, py_eq_refl. cbn -[insert_user for_each].
    unfold bind at 1. cbn -[insert_user for_each].
    unfold bind at 1. unfold db_session_commit. cbn -[insert_user for_each].
    rewrite Hins. cbn -[for_each]. rewrite Hs.
    destruct (settings (store w)) as [|s rest]; [congruence|]. reflexivity.
  - subst d1. reflexivity.
  - exists u. subst d1. reflexivity.
Qed.

Lemma register_seeds_no_setting_witness :
  run (execute_user_registration Sample.register_alice) (fresh Sample.catalog_only)
  = (InternalServerError AttributeError,
     mkWorld (mkDB [Sample.alice] [Sample.priority] [] [] [] [] [] 1 0 0) [] None [])
  /\ users_settings (mkDB [Sample.alice] [Sample.priority] [] [] [] [] [] 1 0 0) = []
  /\ exists u, users (mkDB [Sample.alice] [Sample.priority] [] [] [] [] [] 1 0 0) = [] ++ [u].
Proof.
  apply (register_seeds_no_setting Sample.register_alice (fresh Sample.catalog_only)
           (mkDB [Sample.alice] [Sample.priority] [] [] [] [] [] 1 0 0) (VInt 1)).
  - reflexivity.
  - reflexivity.
  - simpl. discriminate.
Defined.

(** With an empty catalog the loop has nothing to do: the one [User] row is
    stored and the browser is sent home with the welcome message. *)
Lemma register_empty_catalog (r : Request) (w : World) (d1 : DB) (key : Value) :
  form_get r "password" = form_get r "confirm_password" ->
  insert_user [("username", form_get r "username"); ("password", form_get r "password")]
              (store w) = Flushed d1 key ->
  settings (store w) = [] ->
  run (execute_user_registration r) w
  = (Redirect "/", mkWorld d1 [] (session w) (flashed w ++ [msg_registered])).
Proof.
  intros Hpw Hins He.
  destruct (insert_user_Flushed _ _ _ _ Hins) as (u & Hd1 & _).
  assert (settings d1 = settings (store w)) as Hs by (subst d1; reflexivity).
  unfold run, execute_user_registration.
  rewrite <- Hpw, py_eq_refl. cbn -[insert_user for_each].
  unfold bind at 1. cbn -[insert_user for_each].
  unfold bind at 1. unfold db_session_commit. cbn -[insert_user for_each].
  rewrite Hins. cbn -[for_each]. rewrite Hs, He. reflexivity.
Qed.

(* ------------------------------------------------------------------ *)
(** ** Adding a task *)

(** C2.  What the code does for every add-task request: with a ['user']
    entry in the session the call
    [Task(user_id=..., task_name=..., duration_estimate=...)] raises
    [TypeError], because [Task.__init__] takes [task_name] and
    [duration_estimate] only; without the entry [session['user']] raises
    [KeyError].  Either way the request is a server error and the store is
    left as it was: no [Task] row is created. *)
Theorem add_new_task_stores_nothing (r : Request) (w : World) :
  run (add_new_task r) w
  = (InternalServerError (match session w with Some _ => TypeError | None => KeyError end),
     at_rest w).
Proof.
  unfold run, add_new_task, bind, session_getitem_user. simpl.
  destruct (session w); reflexivity.
Qed.

Example add_new_task_logged_in :
  run (add_new_task Sample.add_shower) Sample.alice_in
  = (InternalServerError TypeError, Sample.alice_in).
Proof. reflexivity. Qed.

(* ------------------------------------------------------------------ *)
(** ** The home view *)

(** C8.  Where the home view fails to greet with "friend": a session
    without a ['user'] entry (a first visit) raises [KeyError], and a
    session whose user id matches no stored [User] leaves [username]
    unassigned, so the render raises [UnboundLocalError]. *)
Theorem show_index_without_greeting (w : World) :
  (session w = None ->
   run show_index w = (InternalServerError KeyError, at_rest w))
  /\ (forall k, session w = Some (VInt k) -> k <> 0 -> get_user k (store w) = None ->
      run show_index w = (InternalServerError UnboundLocalError, at_rest w)).
Proof.
  split.
  - intro H. unfold run, show_index, bind, session_getitem_user. simpl.
    rewrite H. reflexivity.
  - intros k H Hk Hu. unfold run, show_index, bind, session_getitem_user. simpl.
    rewrite H. simpl. apply Z.eqb_neq in Hk. rewrite Hk. simpl.
    unfold query. simpl. rewrite Hu. reflexivity.
Qed.

Lemma show_index_without_greeting_witness :
  run show_index (fresh Sample.planned)
  = (InternalServerError KeyError, fresh Sample.planned)
  /\ run show_index Sample.stale
     = (InternalServerError UnboundLocalError, Sample.stale).
Proof.
  split.
  - apply (proj1 (show_index_without_greeting (fresh Sample.planned))). reflexivity.
  - apply (proj2 (show_index_without_greeting Sample.stale) 7).
    + reflexivity.
    + lia.
    + reflexivity.
Defined.

(** The two cases in which the home view does render. *)
Lemma show_index_logged_in (w : World) (k : Z) (u : User.t) :
  session w = Some (VInt k) -> k <> 0 -> get_user k (store w) = Some u ->
  run show_index w
  = (RenderTemplate "index.html" [("username", CValue (VStr (User.username u)))],
     at_rest w).
Proof.
  intros H Hk Hu. unfold run, show_index, bind, session_getitem_user. simpl.
  rewrite H. simpl. apply Z.eqb_neq in Hk. rewrite Hk. simpl.
  unfold query. simpl. rewrite Hu. reflexivity.
Qed.

Lemma show_index_logged_out (w : World) :
  session w = Some VNone ->
  run show_index w
  = (RenderTemplate "index.html" [("username", CValue (VStr "friend"))], at_rest w).
Proof.
  intro H. unfold run, show_index, bind, session_getitem_user. simpl.
  rewrite H. reflexivity.
Qed.

(* ------------------------------------------------------------------ *)
(** ** Deleting by an id that matches no row *)

(** C5, as amended.  A delete request (task template or gameplan entry)
    whose id matches no row is not recovered: [query.get] returns [None],
    [db.session.delete(None)] raises [UnmappedInstanceError], which neither
    handler catches; the request ends as a server error, nothing is flashed
    and the store is unchanged. *)
Theorem delete_unknown_id_is_server_error (id : string) (k : Z) (w : World) :
  int4_in id = Some k ->
  (get_task k (store w) = None ->
   run (delete_task_from_task_list id) w
   = (InternalServerError UnmappedInstanceError, at_rest w))
  /\ (get_gameplan_task k (store w) = None ->
      run (delete_task_from_gameplan id) w
      = (InternalServerError UnmappedInstanceError, at_rest w)).
Proof.
  intro Hid. split; intro Hnone.
  - unfold run, delete_task_from_task_list, bind, try_except, query_get, bind, lift.
    simpl. rewrite (int4_in_bindable _ _ Hid), Hid. unfold query. simpl. rewrite Hnone. reflexivity.
  - unfold run, delete_task_from_gameplan, bind, query_get, bind, lift.
    simpl. rewrite (int4_in_bindable _ _ Hid), Hid. unfold query. simpl. rewrite Hnone. reflexivity.
Qed.

Lemma delete_unknown_id_is_server_error_witness :
  run (delete_task_from_task_list "9") Sample.alice_in
  = (InternalServerError UnmappedInstanceError, Sample.alice_in)
  /\ run (delete_task_from_gameplan "9") Sample.alice_in
     = (InternalServerError UnmappedInstanceError, Sample.alice_in).
Proof.
  split.
  - apply (proj1 (delete_unknown_id_is_server_error "9" 9 Sample.alice_in eq_refl)).
    reflexivity.
  - apply (proj2 (delete_unknown_id_is_server_error "9" 9 Sample.alice_in eq_refl)).
    reflexivity.
Defined.

(** C5 as stated does not hold: for an id that matches no row the handlers
    are not recovered. *)
Lemma delete_unknown_id_counterexample :
  ~ (forall (id : string) (k : Z) (w : World),
        int4_in id = Some k ->
        get_task k (store w) = None ->
        get_gameplan_task k (store w) = None ->
        recovered (fst (run (delete_task_from_task_list id) w))
        /\ recovered (fst (run (delete_task_from_gameplan id) w))).
Proof.
  intro H.
  destruct (H "9" 9 Sample.alice_in eq_refl eq_refl eq_refl) as [H1 _].
  apply (H1 UnmappedInstanceError). reflexivity.
Qed.

(* ------------------------------------------------------------------ *)
(** ** Removing a gameplan entry *)

(** C9.  A gameplan-removal request that names a task in the gameplan
    deletes exactly the [GameplanTask] row with that task id: the table
    keeps its other rows in order, and the tasks (the referenced [Task]
    among them), every other table, the session and the flashed messages
    are unchanged. *)
Theorem delete_task_from_gameplan_removes_one (id : string) (k : Z)
        (g : GameplanTask.t) (w : World) :
  int4_in id = Some k ->
  unique_gameplan_task_ids (store w) ->
  get_gameplan_task k (store w) = Some g ->
  exists l1 l2 w',
    run (delete_task_from_gameplan id) w = (Redirect "/dashboard", w')
    /\ gameplan_tasks (store w) = l1 ++ g :: l2
    /\ GameplanTask.task_id g = k
    /\ gameplan_tasks (store w') = l1 ++ l2
    /\ get_gameplan_task k (store w') = None
    /\ tasks (store w') = tasks (store w)
    /\ get_task k (store w') = get_task k (store w)
    /\ users (store w') = users (store w)
    /\ settings (store w') = settings (store w)
    /\ users_settings (store w') = users_settings (store w)
    /\ categories (store w') = categories (store w)
    /\ tasks_categories (store w') = tasks_categories (store w)
    /\ session w' = session w
    /\ flashed w' = flashed w.
Proof.
  intros Hid ND Hg.
  destruct (find_key_In GameplanTask.task_id _ _ _ Hg) as [Hin Hk].
  destruct (delete_by_key GameplanTask.task_id k _ g ND Hg) as (l1 & l2 & Hl & Hf & Hni).
  exists l1, l2.
  eexists. split.
  - unfold run, delete_task_from_gameplan, bind, query_get, bind, lift.
    simpl. rewrite (int4_in_bindable _ _ Hid), Hid. unfold query. simpl. rewrite Hg. simpl.
    rewrite Hk, Hf. reflexivity.
  - simpl. repeat split; try assumption; try reflexivity.
    unfold get_gameplan_task. simpl.
    destruct (find (fun x => GameplanTask.task_id x =? k) (l1 ++ l2)) as [x|] eqn:E;
      [|reflexivity].
    apply (find_key_In GameplanTask.task_id) in E. destruct E as [E1 E2].
    exfalso. apply Hni. rewrite <- E2. now apply in_map.
Qed.

Lemma delete_task_from_gameplan_removes_one_witness :
  exists l1 l2 w',
    run (delete_task_from_gameplan "2") Sample.alice_in = (Redirect "/dashboard", w')
    /\ gameplan_tasks (store Sample.alice_in)
       = l1 ++ GameplanTask.mk 2 1 (Some 1) (Some 420) (Some 425) :: l2
    /\ GameplanTask.task_id (GameplanTask.mk 2 1 (Some 1) (Some 420) (Some 425)) = 2
    /\ gameplan_tasks (store w') = l1 ++ l2
    /\ get_gameplan_task 2 (store w') = None
    /\ tasks (store w') = tasks (store Sample.alice_in)
    /\ get_task 2 (store w') = get_task 2 (store Sample.alice_in)
    /\ users (store w') = users (store Sample.alice_in)
    /\ settings (store w') = settings (store Sample.alice_in)
    /\ users_settings (store w') = users_settings (store Sample.alice_in)
    /\ categories (store w') = categories (store Sample.alice_in)
    /\ tasks_categories (store w') = tasks_categories (store Sample.alice_in)
    /\ session w' = session Sample.alice_in
    /\ flashed w' = flashed Sample.alice_in.
Proof.
  apply (delete_task_from_gameplan_removes_one "2" 2
           (GameplanTask.mk 2 1 (Some 1) (Some 420) (Some 425)) Sample.alice_in).
  - reflexivity.
  - unfold unique_gameplan_task_ids. simpl.
    repeat constructor; simpl; intuition lia.
  - reflexivity.
Defined.

(* ------------------------------------------------------------------ *)
(** ** Deleting a task template *)

(** C3, as amended.  Deleting a [Task] that has a [GameplanTask] removes
    nothing: the flush raises [AssertionError], the handler catches it,
    flashes the "active in your gameplan" message and redirects to the
    dashboard.  Deleting a [Task] that has no [GameplanTask] and that no
    [tasks_categories] row refers to removes exactly that row from [tasks]
    and changes nothing else. *)
Theorem delete_task_from_task_list_spec (id : string) (k : Z) (t : Task.t) (w : World) :
  int4_in id = Some k ->
  unique_task_ids (store w) ->
  get_task k (store w) = Some t ->
  (get_gameplan_task k (store w) <> None ->
   run (delete_task_from_task_list id) w
   = (Redirect "/dashboard",
      mkWorld (store w) [] (session w) (flashed w ++ [msg_task_active])))
  /\ (get_gameplan_task k (store w) = None ->
      (forall c, In c (tasks_categories (store w)) -> TaskCategory.task_id c <> k) ->
      exists l1 l2,
        tasks (store w) = l1 ++ t :: l2
        /\ run (delete_task_from_task_list id) w
           = (Redirect "/dashboard",
              mkWorld (with_tasks (l1 ++ l2) (store w)) [] (session w) (flashed w))).
Proof.
  intros Hid ND Ht.
  destruct (find_key_In Task.task_id _ _ _ Ht) as [Hin Hk].
  split.
  - intro Hg.
    unfold run, delete_task_from_task_list, bind, try_except, query_get, bind, lift.
    simpl. rewrite (int4_in_bindable _ _ Hid), Hid. unfold query. simpl. rewrite Ht. simpl.
    unfold db_session_commit. simpl.
    unfold delete_task. rewrite Hk, existsb_key_find.
    unfold get_gameplan_task in Hg.
    destruct (find (fun y => GameplanTask.task_id y =? k) (gameplan_tasks (store w)));
      [|congruence].
    simpl. rewrite rolled_back_same. reflexivity.
  - intros Hg Hc.
    destruct (delete_by_key Task.task_id k _ t ND Ht) as (l1 & l2 & Hl & Hf & _).
    exists l1, l2. split; [exact Hl|].
    unfold run, delete_task_from_task_list, bind, try_except, query_get, bind, lift.
    simpl. rewrite (int4_in_bindable _ _ Hid), Hid. unfold query. simpl. rewrite Ht. simpl.
    unfold db_session_commit. simpl.
    unfold delete_task. rewrite Hk, !existsb_key_find.
    unfold get_gameplan_task in Hg. rewrite Hg.
    destruct (find (fun y => TaskCategory.task_id y =? k) (tasks_categories (store w)))
      as [c|] eqn:E.
    + apply (find_key_In TaskCategory.task_id) in E. destruct E as [E1 E2].
      exfalso. exact (Hc c E1 E2).
    + rewrite Hf. reflexivity.
Qed.

Lemma delete_task_from_task_list_spec_witness :
  run (delete_task_from_task_list "2") Sample.alice_in
  = (Redirect "/dashboard", mkWorld Sample.planned [] (Some (VInt 1)) [msg_task_active])
  /\ exists l1 l2,
       tasks Sample.planned = l1 ++ Sample.journal :: l2
       /\ run (delete_task_from_task_list "4") Sample.alice_in
          = (Redirect "/dashboard",
             mkWorld (with_tasks (l1 ++ l2) Sample.planned) [] (Some (VInt 1)) []).
Proof.
  assert (unique_task_ids Sample.planned) as ND.
  { unfold unique_task_ids. simpl. repeat constructor; simpl; intuition lia. }
  split.
  - destruct (delete_task_from_task_list_spec "2" 2 Sample.coffee Sample.alice_in
                eq_refl ND eq_refl) as [A _].
    apply A. simpl. discriminate.
  - destruct (delete_task_from_task_list_spec "4" 4 Sample.journal Sample.alice_in
                eq_refl ND eq_refl) as [_ B].
    apply B.
    + reflexivity.
    + simpl. intros c [<-|[]]. simpl. lia.
Defined.

(** C3 as stated does not hold: task 3 has no [GameplanTask], yet the
    delete request does not remove it, because a [tasks_categories] row
    refers to it and the store refuses the delete. *)
Lemma delete_task_counterexample :
  ~ (forall (id : string) (k : Z) (t : Task.t) (w : World),
        int4_in id = Some k ->
        unique_task_ids (store w) ->
        get_task k (store w) = Some t ->
        get_gameplan_task k (store w) = None ->
        get_task k (store (snd (run (delete_task_from_task_list id) w))) = None).
Proof.
  intro H.
  specialize (H "3" 3 Sample.stretch Sample.alice_in eq_refl).
  assert (unique_task_ids (store Sample.alice_in)) as ND.
  { unfold unique_task_ids. simpl. repeat constructor; simpl; intuition lia. }
  specialize (H ND eq_refl eq_refl). discriminate H.
Qed.

Example delete_task_with_category :
  run (delete_task_from_task_list "3") Sample.alice_in
  = (InternalServerError IntegrityError, Sample.alice_in).
Proof. reflexivity. Qed.

(* ------------------------------------------------------------------ *)
(** ** Updating a setting *)

Lemma set_value_where_same (k : Z) (row : UserSetting.t) (l : list UserSetting.t) :
  NoDup (map UserSetting.user_setting_id l) ->
  In row l -> UserSetting.user_setting_id row = k ->
  map (set_value_where k (UserSetting.value row)) l = l.
Proof.
  intros ND Hin Hk.
  destruct (select_by_key UserSetting.user_setting_id k l row ND Hin Hk) as [_ Hfind].
  rewrite <- (map_id l) at 2. apply map_ext_in. intros x Hx.
  unfold set_value_where.
  destruct (Z.eqb_spec (UserSetting.user_setting_id x) k) as [E|N]; [|reflexivity].
  destruct (select_by_key UserSetting.user_setting_id k l x ND Hx E) as [_ Hfind'].
  assert (x = row) by congruence. subst x. now destruct row.
Qed.




(* ------------------------------------------------------------------ *)
(** ** The monad, step by step *)

Lemma bind_Ok {A B : Type} (m : M A) (k : A -> M B) (w w' : World) (a : A) :
  m w = (Ok a, w') -> bind m k w = k a w'.
Proof. intro H. unfold bind. now rewrite H. Qed.

Lemma bind_Raise {A B : Type} (m : M A) (k : A -> M B) (w w' : World) (e : Exc) :
  m w = (Raise e, w') -> bind m k w = (Raise e, w').
Proof. intro H. unfold bind. now rewrite H. Qed.

Lemma filter_by_int_VInt {A : Type} (col : A -> Z) (table : DB -> list A) (k : Z)
      (w : World) :
  filter_by_int col table (VInt k) w
  = (Ok (filter (fun x => col x =? k) (table (store w))), w).
Proof. reflexivity. Qed.

Lemma setting_value_VInt (k n : Z) (w : World) :
  exists v, setting_value (VInt k) n w = (Ok v, w).
Proof.
  unfold setting_value. rewrite (bind_Ok _ _ _ _ _ (filter_by_int_VInt _ _ k w)).
  destruct (first _); eexists; reflexivity.
Qed.

(* ------------------------------------------------------------------ *)
(** ** Ordered listings *)

Section Ordering.

Context {A : Type} (leb : A -> A -> bool).
Hypothesis leb_total : forall a b, leb a b = true \/ leb b a = true.

Let le (a b : A) : Prop := leb a b = true.

Lemma insert_by_Permutation (x : A) (l : list A) :
  Permutation (x :: l) (insert_by leb x l).
Proof.
  induction l as [|y l IH]; simpl; [reflexivity|].
  destruct (leb x y); [reflexivity|].
  rewrite perm_swap. now apply perm_skip.
Qed.

Lemma order_by_Permutation (l : list A) : Permutation l (order_by leb l).
Proof.
  induction l as [|x l IH]; simpl; [constructor|].
  rewrite <- insert_by_Permutation. now apply perm_skip.
Qed.

Lemma insert_by_HdRel (a x : A) (l : list A) :
  le a x -> HdRel le a l -> HdRel le a (insert_by leb x l).
Proof.
  intros Hax Hal. destruct l as [|y l]; simpl.
  - now constructor.
  - destruct (leb x y); constructor; [exact Hax|].
    now inversion Hal.
Qed.

Lemma insert_by_Sorted (x : A) (l : list A) :
  Sorted le l -> Sorted le (insert_by leb x l).
Proof.
  induction 1 as [|y l Hs IH Hhd]; simpl.
  - repeat constructor.
  - destruct (leb x y) eqn:E.
    + constructor; [now constructor|]. now constructor.
    + constructor; [exact IH|].
      apply insert_by_HdRel; [|exact Hhd].
      destruct (leb_total x y) as [H|H]; [congruence | exact H].
Qed.

Lemma order_by_Sorted (l : list A) : Sorted le (order_by leb l).
Proof.
  induction l as [|x l IH]; simpl; [constructor|].
  now apply insert_by_Sorted.
Qed.

End Ordering.

Lemma order_leb_total (a b : option Z) : order_leb a b = true \/ order_leb b a = true.
Proof.
  destruct a as [x|], b as [y|]; simpl; auto.
  destruct (Z.leb_spec x y); [now left|right]. apply Z.leb_le. lia.
Qed.

Lemma order_leb_trans (a b c : option Z) :
  order_leb a b = true -> order_leb b c = true -> order_leb a c = true.
Proof.
  destruct a as [x|], b as [y|], c as [z|]; simpl; try congruence.
  rewrite !Z.leb_le. lia.
Qed.

Lemma order_le_trans : Relations_1.Transitive order_le.
Proof. unfold Relations_1.Transitive, order_le. intros a b c. apply order_leb_trans. Qed.

(** The listing query by itself. *)
Lemma gameplan_tasks_of_spec (k : Z) (w : World) :
  exists listed,
    gameplan_tasks_of (VInt k) w = (Ok listed, w)
    /\ Permutation listed
         (filter (fun g => GameplanTask.user_id g =? k) (gameplan_tasks (store w)))
    /\ StronglySorted order_le listed.
Proof.
  eexists. split; [reflexivity|]. split.
  - symmetry. apply order_by_Permutation.
  - apply Sorted_StronglySorted; [exact order_le_trans|].
    apply (order_by_Sorted
             (fun a b => order_leb (GameplanTask.order a) (GameplanTask.order b))).
    intros a b. apply order_leb_total.
Qed.

(** C7.  For every user id, the gameplan listing of the dashboard is the
    rows of [gameplan_tasks] with that [user_id] (all of them, each once),
    in ascending [order] (a NULL [order] comes last); the dashboard of a
    logged-in user renders exactly that listing. *)
Theorem gameplan_listing_is_ordered (k : Z) (w : World) :
  exists listed,
    gameplan_tasks_of (VInt k) w = (Ok listed, w)
    /\ Permutation listed
         (filter (fun g => GameplanTask.user_id g =? k) (gameplan_tasks (store w)))
    /\ StronglySorted order_le listed
    /\ (forall u, session w = Some (VInt k) -> get_user k (store w) = Some u ->
        exists context,
          run show_user_tasks_and_gameplan w
          = (RenderTemplate "dashboard.html" context, at_rest w)
          /\ lookup "gameplan_tasks" context = Some (CGameplanTasks listed)).
Proof.
  destruct (gameplan_tasks_of_spec k w) as (listed & Hq & Hp & Hs).
  exists listed.
  split; [exact Hq|]. split; [exact Hp|]. split; [exact Hs|].
  intros u Hsess Hu.
  assert (gameplan_tasks_of (VInt k) (at_rest w) = (Ok listed, at_rest w)) as Hq'.
  { unfold gameplan_tasks_of in *.
    rewrite (bind_Ok _ _ _ _ _ (filter_by_int_VInt _ _ k _)) in *.
    unfold ret in *. simpl. inversion Hq. reflexivity. }
  clear Hq. rename Hq' into Hq.
  destruct (setting_value_VInt k 1 (at_rest w)) as (v1 & H1).
  destruct (setting_value_VInt k 9 (at_rest w)) as (v9 & H9).
  destruct (setting_value_VInt k 10 (at_rest w)) as (v10 & H10).
  eexists. split.
  - unfold run, show_user_tasks_and_gameplan.
    rewrite (bind_Ok session_getitem_user _ (at_rest w) (at_rest w) (VInt k))
      by (unfold session_getitem_user; simpl; now rewrite Hsess).
    rewrite (bind_Ok (query_get get_user (VInt k)) _ (at_rest w) (at_rest w) (Some u))
      by (unfold query_get, bind, lift, query; simpl; now rewrite Hu).
    rewrite (bind_Ok (username_of (Some u)) _ (at_rest w) (at_rest w)
                     (VStr (User.username u))) by reflexivity.
    rewrite (bind_Ok _ _ _ _ _ Hq).
    rewrite (bind_Ok _ _ _ _ _ (filter_by_int_VInt Task.user_id tasks k (at_rest w))).
    rewrite (bind_Ok _ _ _ _ _ H1).
    rewrite (bind_Ok _ _ _ _ _ H9).
    rewrite (bind_Ok _ _ _ _ _ H10).
    reflexivity.
  - reflexivity.
Qed.

Lemma gameplan_listing_is_ordered_witness :
  exists context,
    run show_user_tasks_and_gameplan Sample.alice_in
    = (RenderTemplate "dashboard.html" context, Sample.alice_in)
    /\ lookup "gameplan_tasks" context
       = Some (CGameplanTasks [GameplanTask.mk 2 1 (Some 1) (Some 420) (Some 425);
                               GameplanTask.mk 1 1 (Some 2) (Some 430) (Some 440)]).
Proof.
  destruct (gameplan_listing_is_ordered 1 Sample.alice_in) as (listed & Hq & _ & _ & H).
  inversion Hq; subst listed.
  apply (H Sample.alice); reflexivity.
Defined.

(* ------------------------------------------------------------------ *)
(** ** What every handler but login and logout leaves alone *)

Section StableHandlers.

Variable R : DB -> DB -> Prop.
Hypothesis R_refl : forall d, R d d.
Hypothesis R_trans : forall a b c, R a b -> R b c -> R a c.
Hypothesis R_rolled_back : forall before d, R before (rolled_back before d).

Variable timestamp_in : string -> option Z.
Hypothesis R_insert_user : forall o, respects R (insert_user o).
Hypothesis R_insert_user_setting : forall o, respects R (insert_user_setting o).
Hypothesis R_insert_task : forall o, respects R (insert_task o).
Hypothesis R_insert_gameplan_task :
  forall o, respects R (insert_gameplan_task timestamp_in o).
Hypothesis R_delete_task : forall t, respects R (delete_task t).
Hypothesis R_delete_gameplan_task : forall g, respects R (delete_gameplan_task g).
Hypothesis R_update_user_setting_value :
  forall row v, respects R (update_user_setting_value row v).

Lemma stable_ret {A : Type} (a : A) : stable R (ret a).
Proof. intros w Hc. simpl. repeat split; [apply R_refl | exact Hc]. Qed.

Lemma stable_raise {A : Type} (e : Exc) : stable R (@raise A e).
Proof. intros w Hc. simpl. repeat split; [apply R_refl | exact Hc]. Qed.

Lemma stable_lift {A : Type} (o : Outcome A) : stable R (lift o).
Proof. intros w Hc. simpl. repeat split; [apply R_refl | exact Hc]. Qed.

Lemma stable_query {A : Type} (q : DB -> A) : stable R (query q).
Proof. intros w Hc. simpl. repeat split; [apply R_refl | exact Hc]. Qed.

Lemma stable_flash (msg : string) : stable R (flash msg).
Proof. intros w Hc. simpl. repeat split; [apply R_refl | exact Hc]. Qed.

Lemma stable_session_getitem_user : stable R session_getitem_user.
Proof.
  intros w Hc. unfold session_getitem_user.
  destruct (session w) eqn:E; simpl;
    (repeat split; [exact E | apply R_refl | exact Hc]).
Qed.

Lemma stable_bind {A B : Type} (m : M A) (k : A -> M B) :
  stable R m -> (forall a, stable R (k a)) -> stable R (bind m k).
Proof.
  intros Hm Hk w Hc. unfold bind.
  destruct (Hm w Hc) as (Hs & Hu & Hc').
  destruct (m w) as [[a|e] w1]; simpl in *.
  - destruct (Hk a w1 Hc') as (Hs2 & Hu2 & Hc2).
    repeat split; [congruence | eapply R_trans; eassumption | exact Hc2].
  - repeat split; assumption.
Qed.

Lemma stable_try_except {A : Type} (body : M A) (exc : Exc) (handler : M A) :
  stable R body -> stable R handler -> stable R (try_except body exc handler).
Proof.
  intros Hb Hh w Hc. unfold try_except.
  destruct (Hb w Hc) as (Hs & Hu & Hc').
  destruct (body w) as [[a|e] w1]; simpl in *.
  - repeat split; assumption.
  - destruct (Exc_eqb e exc).
    + destruct (Hh w1 Hc') as (Hs2 & Hu2 & Hc2).
      repeat split; [congruence | eapply R_trans; eassumption | exact Hc2].
    + simpl. repeat split; assumption.
Qed.

Lemma stable_for_each {A : Type} (l : list A) (body : A -> M unit) :
  (forall x, stable R (body x)) -> stable R (for_each l body).
Proof.
  intro Hb. induction l as [|x l IH]; simpl.
  - apply stable_ret.
  - apply stable_bind; [apply Hb | intros _; exact IH].
Qed.

Lemma stable_db_session_add (c : DB -> FlushResult) :
  respects R c -> stable R (db_session_add c).
Proof.
  intros Hg w Hc. simpl. repeat split.
  - apply R_refl.
  - unfold calm. simpl. apply Forall_app. split; [exact Hc | now constructor].
Qed.

Lemma flush_respects (changes : list (DB -> FlushResult)) :
  Forall (respects R) changes ->
  forall before d keys,
    R before d -> R before (snd (flush changes before d keys)).
Proof.
  induction 1 as [|c changes Hc _ IH]; intros before d keys Hd; simpl.
  - exact Hd.
  - pose proof (Hc d) as Hc'.
    destruct (c d) as [d' k|e d']; simpl in *.
    + apply IH. eapply R_trans; eassumption.
    + apply R_rolled_back.
Qed.

Lemma stable_db_session_commit : stable R db_session_commit.
Proof.
  intros w Hc. unfold db_session_commit.
  pose proof (flush_respects _ Hc (store w) (store w) [] (R_refl _)) as He.
  destruct (flush (db_session w) (store w) (store w) []) as [o d]; simpl in *.
  repeat split; [exact He | constructor].
Qed.

Ltac stable_step :=
  lazymatch goal with
  | |- stable _ (bind _ _) => apply stable_bind; [|intro]
  | |- stable _ (ret _) => apply stable_ret
  | |- stable _ (raise _) => apply stable_raise
  | |- stable _ (lift _) => apply stable_lift
  | |- stable _ (query _) => apply stable_query
  | |- stable _ (flash _) => apply stable_flash
  | |- stable _ session_getitem_user => apply stable_session_getitem_user
  | |- stable _ db_session_commit => apply stable_db_session_commit
  | |- stable _ (db_session_add _) => apply stable_db_session_add
  | |- stable _ (try_except _ _ _) => apply stable_try_except
  | |- stable _ (for_each _ _) => apply stable_for_each; intro
  | |- stable _ (match ?x with _ => _ end) => destruct x
  | |- respects _ (insert_user _) => apply R_insert_user
  | |- respects _ (insert_user_setting _) => apply R_insert_user_setting
  | |- respects _ (insert_task _) => apply R_insert_task
  | |- respects _ (insert_gameplan_task _ _) => apply R_insert_gameplan_task
  | |- respects _ (update_user_setting_value _ _) => apply R_update_user_setting_value
  end.

Ltac stable_steps := repeat stable_step.

Lemma stable_render_template (name : string) (context : list (string * Ctx)) :
  stable R (render_template name context).
Proof. unfold render_template. stable_steps. Qed.

Lemma stable_redirect (location : string) : stable R (redirect location).
Proof. unfold redirect. stable_steps. Qed.

Lemma stable_local {A : Type} (v : option A) : stable R (local v).
Proof. unfold local. stable_steps. Qed.

Lemma stable_one {A : Type} (l : list A) : stable R (one l).
Proof. unfold one. stable_steps. Qed.

Lemma stable_query_get {A : Type} (get : Z -> DB -> option A) (v : Value) :
  stable R (query_get get v).
Proof. unfold query_get. stable_steps. Qed.

Lemma stable_filter_by_int {A : Type} (col : A -> Z) (table : DB -> list A) (v : Value) :
  stable R (filter_by_int col table v).
Proof. unfold filter_by_int. stable_steps. Qed.

Lemma stable_username_of (user : option User.t) : stable R (username_of user).
Proof. unfold username_of. stable_steps. Qed.

Lemma stable_setting_value (v : Value) (k : Z) : stable R (setting_value v k).
Proof.
  unfold setting_value. apply stable_bind; [apply stable_filter_by_int | intro].
  stable_steps.
Qed.

Lemma stable_gameplan_tasks_of (v : Value) : stable R (gameplan_tasks_of v).
Proof.
  unfold gameplan_tasks_of. apply stable_bind; [apply stable_filter_by_int | intro].
  stable_steps.
Qed.

Lemma stable_db_session_delete_task (t : option Task.t) :
  stable R (db_session_delete (option_map delete_task t)).
Proof.
  destruct t; simpl; [|apply stable_raise].
  apply stable_db_session_add, R_delete_task.
Qed.

Lemma stable_db_session_delete_gameplan_task (g : option GameplanTask.t) :
  stable R (db_session_delete (option_map delete_gameplan_task g)).
Proof.
  destruct g; simpl; [|apply stable_raise].
  apply stable_db_session_add, R_delete_gameplan_task.
Qed.

Ltac stable_handler :=
  repeat first
    [ apply stable_render_template | apply stable_redirect | apply stable_local
    | apply stable_one | apply stable_query_get | apply stable_filter_by_int
    | apply stable_username_of | apply stable_setting_value
    | apply stable_gameplan_tasks_of | apply stable_db_session_delete_task
    | apply stable_db_session_delete_gameplan_task
    | stable_step ].

Lemma stable_show_index : stable R show_index.
Proof. unfold show_index. stable_handler. Qed.

Lemma stable_display_registration_form : stable R display_registration_form.
Proof. unfold display_registration_form. stable_handler. Qed.

Lemma stable_execute_user_registration (r : Request) :
  stable R (execute_user_registration r).
Proof. unfold execute_user_registration. stable_handler. Qed.

Lemma stable_task_list : stable R task_list.
Proof. unfold task_list. stable_handler. Qed.

Lemma stable_add_new_task (r : Request) : stable R (add_new_task r).
Proof. unfold add_new_task. stable_handler. Qed.

Lemma stable_delete_task_from_task_list (task_id : string) :
  stable R (delete_task_from_task_list task_id).
Proof. unfold delete_task_from_task_list. stable_handler. Qed.

Lemma stable_show_user_settings : stable R show_user_settings.
Proof. unfold show_user_settings. stable_handler. Qed.

Lemma stable_update_user_setting (user_setting_id : string) (r : Request) :
  stable R (update_user_setting user_setting_id r).
Proof. unfold update_user_setting. stable_handler. Qed.

Lemma stable_show_user_tasks_and_gameplan : stable R show_user_tasks_and_gameplan.
Proof. unfold show_user_tasks_and_gameplan. stable_handler. Qed.

Lemma stable_delete_task_from_gameplan (task_id : string) :
  stable R (delete_task_from_gameplan task_id).
Proof. unfold delete_task_from_gameplan. stable_handler. Qed.

Lemma stable_display_about_page : stable R display_about_page.
Proof. unfold display_about_page. stable_handler. Qed.

Lemma stable_add_task_to_gameplan (r : Request) :
  stable R (add_task_to_gameplan timestamp_in r).
Proof. unfold add_task_to_gameplan. stable_handler. Qed.

(** Every route but login and logout leaves the session as it is and
    changes the store within [R]. *)
Lemma serve_stable (r : Request) (w : World) :
  route r <> POST_login -> route r <> GET_logout ->
  session (snd (serve timestamp_in r w)) = session w
  /\ R (store w) (store (snd (serve timestamp_in r w))).
Proof.
  intros Hl Ho.
  assert (stable R (dispatch timestamp_in r)) as Hst.
  { unfold dispatch. destruct (route r); try congruence.
    - apply stable_show_index.
    - apply stable_display_registration_form.
    - apply stable_execute_user_registration.
    - apply stable_task_list.
    - apply stable_add_new_task.
    - apply stable_delete_task_from_task_list.
    - apply stable_show_user_settings.
    - apply stable_update_user_setting.
    - apply stable_show_user_tasks_and_gameplan.
    - apply stable_add_task_to_gameplan.
    - apply stable_delete_task_from_gameplan.
    - apply stable_display_about_page. }
  assert (calm R (at_rest w)) as Hc by constructor.
  destruct (Hst (at_rest w) Hc) as (Hs & Hu & _).
  unfold serve, run.
  destruct (dispatch timestamp_in r (at_rest w)) as [o w']. simpl in *.
  split; assumption.
Qed.

End StableHandlers.

(** *** No handler removes a user *)

Lemma users_grow_refl (d : DB) : users_grow d d.
Proof. exists []. now rewrite app_nil_r. Qed.

Lemma users_grow_trans (a b c : DB) : users_grow a b -> users_grow b c -> users_grow a c.
Proof.
  intros (e1 & H1) (e2 & H2). exists (e1 ++ e2). rewrite H2, H1. now rewrite app_assoc.
Qed.

Lemma users_grow_rolled_back (before d : DB) : users_grow before (rolled_back before d).
Proof. exists []. simpl. now rewrite app_nil_r. Qed.

Lemma users_grow_same (d d' : DB) : users d' = users d -> users_grow d d'.
Proof. intro H. exists []. now rewrite app_nil_r. Qed.

Lemma grows_insert_user (o : Obj) : respects users_grow (insert_user o).
Proof.
  intro d. unfold insert_user.
  destruct (negb (binds o _)); [apply users_grow_refl|].
  destruct (as_varchar 50 (attr o "username")) as [[un|]|];
    destruct (as_varchar 50 (attr o "password")) as [[pw|]|];
    destruct (as_varchar 100 (attr o "home_address"));
    destruct (as_varchar 100 (attr o "destination_address"));
    simpl; try apply users_grow_refl; try (now apply users_grow_same).
  destruct (_ || _); simpl; [now apply users_grow_same|].
  eexists. reflexivity.
Qed.

Lemma grows_insert_user_setting (o : Obj) : respects users_grow (insert_user_setting o).
Proof.
  intro d. apply users_grow_same. unfold insert_user_setting.
  destruct (negb (binds o _)); [reflexivity|].
  destruct (as_int4 (attr o "user_id")) as [[u|]|];
    destruct (as_int4 (attr o "setting_id")) as [[s|]|];
    destruct (as_varchar 100 (attr o "value")) as [[v|]|];
    simpl; try reflexivity.
  destruct (_ || _); reflexivity.
Qed.

Lemma grows_insert_task (o : Obj) : respects users_grow (insert_task o).
Proof.
  intro d. apply users_grow_same. unfold insert_task.
  destruct (negb (binds o _)); [reflexivity|].
  destruct (as_int4 (attr o "user_id")) as [[u|]|];
    destruct (as_varchar 50 (attr o "task_name")) as [[n|]|];
    destruct (as_varchar 100 (attr o "task_description"));
    destruct (as_int4 (attr o "duration_estimate")) as [[est|]|];
    destruct (as_int4 (attr o "duration_actual"));
    simpl; try reflexivity.
  destruct (_ || _); reflexivity.
Qed.

Lemma grows_insert_gameplan_task (timestamp_in : string -> option Z) (o : Obj) :
  respects users_grow (insert_gameplan_task timestamp_in o).
Proof.
  intro d. apply users_grow_same. unfold insert_gameplan_task.
  destruct (negb (binds o _)); [reflexivity|].
  destruct (as_int4 (attr o "task_id")) as [[t|]|];
    destruct (as_int4 (attr o "user_id")) as [[u|]|];
    destruct (as_int4 (attr o "order"));
    destruct (as_timestamp timestamp_in (attr o "start_time"));
    destruct (as_timestamp timestamp_in (attr o "end_time"));
    simpl; try reflexivity.
  destruct (_ || _); reflexivity.
Qed.

Lemma grows_delete_task (t : Task.t) : respects users_grow (delete_task t).
Proof.
  intro d. apply users_grow_same. unfold delete_task.
  destruct (existsb _ (gameplan_tasks d)); [reflexivity|].
  destruct (existsb _ (tasks_categories d)); reflexivity.
Qed.

Lemma grows_delete_gameplan_task (g : GameplanTask.t) :
  respects users_grow (delete_gameplan_task g).
Proof. intro d. now apply users_grow_same. Qed.

Lemma grows_update_user_setting_value (row : UserSetting.t) (v : Value) :
  respects users_grow (update_user_setting_value row v).
Proof.
  intro d. apply users_grow_same. unfold update_user_setting_value.
  destruct (py_eq _ v); [reflexivity|].
  destruct (as_varchar 100 v) as [[s|]|]; reflexivity.
Qed.

Lemma serve_users_grow (timestamp_in : string -> option Z) (r : Request) (w : World) :
  route r <> POST_login -> route r <> GET_logout ->
  session (snd (serve timestamp_in r w)) = session w
  /\ users_grow (store w) (store (snd (serve timestamp_in r w))).
Proof.
  apply (serve_stable users_grow users_grow_refl users_grow_trans users_grow_rolled_back
           timestamp_in).
  - exact grows_insert_user.
  - exact grows_insert_user_setting.
  - exact grows_insert_task.
  - exact (grows_insert_gameplan_task timestamp_in).
  - exact grows_delete_task.
  - exact grows_delete_gameplan_task.
  - exact grows_update_user_setting_value.
Qed.

(* ------------------------------------------------------------------ *)
(** ** Login, logout and the session *)

Section Columns.

Context {Row Col : Type} (col : Row -> Col).

(** Under a unique column, two rows that agree on it are one row. *)
Lemma unique_column_row (rows : list Row) (a b : Row) :
  NoDup (map col rows) -> In a rows -> In b rows -> col a = col b -> a = b.
Proof.
  intros Huniq. revert a b.
  induction rows as [|r rows IH]; intros a b Ha Hb Hab; [destruct Ha|].
  simpl in Huniq. apply NoDup_cons_iff in Huniq. destruct Huniq as [Hfresh Huniq].
  destruct Ha as [Ha|Ha]; destruct Hb as [Hb|Hb]; subst.
  - reflexivity.
  - contradict Hfresh. rewrite Hab. apply in_map, Hb.
  - contradict Hfresh. rewrite <- Hab. apply in_map, Ha.
  - apply IH; assumption.
Qed.

(** Appending a row whose column value is new keeps the column unique. *)
Lemma unique_column_append (rows : list Row) (r : Row) :
  NoDup (map col rows) -> ~ In (col r) (map col rows) ->
  NoDup (map col (rows ++ [r])).
Proof.
  intros Huniq Hfresh. rewrite map_app. simpl.
  apply NoDup_app.
  - exact Huniq.
  - repeat constructor. intros [].
  - intros c Hc [<-|[]]. contradiction.
Qed.

(** Deleting rows keeps the column unique. *)
Lemma unique_column_delete (keep : Row -> bool) (rows : list Row) :
  NoDup (map col rows) -> NoDup (map col (filter keep rows)).
Proof.
  intro Huniq. induction rows as [|r rows IH]; [exact Huniq|].
  simpl in Huniq. apply NoDup_cons_iff in Huniq. destruct Huniq as [Hfresh Huniq].
  simpl. destruct (keep r); [|exact (IH Huniq)].
  simpl. apply NoDup_cons_iff. split; [|exact (IH Huniq)].
  contradict Hfresh.
  apply in_map_iff in Hfresh. destruct Hfresh as (r' & Hcol & Hin).
  rewrite <- Hcol. apply in_map. apply filter_In in Hin. exact (proj1 Hin).
Qed.

End Columns.

Lemma first_filter_Some {A : Type} (p : A -> bool) (l : list A) (x : A) :
  first (filter p l) = Some x -> In x l /\ p x = true.
Proof.
  unfold first. intro H.
  assert (In x (filter p l)) as Hin.
  { destruct (filter p l); simpl in H; [discriminate|]. inversion H. now left. }
  now apply filter_In in Hin.
Qed.

Lemma first_filter_None {A : Type} (p : A -> bool) (l : list A) :
  first (filter p l) = None -> forall x, In x l -> p x = false.
Proof.
  unfold first. intros H x Hin.
  destruct (p x) eqn:E; [|reflexivity].
  assert (In x (filter p l)) as Hf by (apply filter_In; now split).
  destruct (filter p l); [contradiction | discriminate].
Qed.

(** What a login request does, case by case: it never touches the store;
    either the first stored user with the submitted username has the
    submitted password and the session takes that user's id, or the session
    stays as it was. *)
Lemma login_outcome (r : Request) (w : World) :
  store (snd (run (check_login_credentials r) w)) = store w
  /\ ((exists u s,
          form_get r "username" = VStr s
          /\ has_nul s = false
          /\ first (filter (fun x => String.eqb (User.username x) s) (users (store w)))
             = Some u
          /\ form_get r "password" = VStr (User.password u)
          /\ session (snd (run (check_login_credentials r) w))
             = Some (VInt (User.user_id u)))
      \/ (session (snd (run (check_login_credentials r) w)) = session w
          /\ forall u s,
               form_get r "username" = VStr s ->
               has_nul s = false ->
               first (filter (fun x => String.eqb (User.username x) s) (users (store w)))
               = Some u ->
               form_get r "password" <> VStr (User.password u))).
Proof.
  unfold run, check_login_credentials, bind, users_by_username.
  destruct (form_get r "username") as [| z | s] eqn:Eu; cbn -[py_eq first filter].
  - split; [reflexivity|]. right. split; [reflexivity|]. intros; discriminate.
  - split; [reflexivity|]. right. split; [reflexivity|]. intros; discriminate.
  - destruct (has_nul s) eqn:Hn; cbn -[py_eq first filter].
    { split; [reflexivity|]. right. split; [reflexivity|].
      intros u' s' Hs' Hn'. inversion Hs'; subst s'. congruence. }
    destruct (first (filter (fun x => String.eqb (User.username x) s) (users (store w))))
      as [u|] eqn:Ef.
    + destruct (py_eq (VStr (User.password u)) (form_get r "password")) eqn:Ep;
        cbn -[py_eq first filter].
      * split; [reflexivity|]. left. exists u, s. repeat split; try assumption.
        apply py_eq_true_iff in Ep. now symmetry.
      * split; [reflexivity|]. right. split; [reflexivity|].
        intros u' s' Hs' _ Hf' Hp. inversion Hs'; subst s'.
        rewrite Hf' in Ef. inversion Ef; subst u'.
        rewrite Hp, py_eq_refl in Ep. discriminate.
    + simpl. split; [reflexivity|]. right. split; [reflexivity|].
      intros u' s' Hs' _ Hf'. inversion Hs'; subst s'. congruence.
Qed.

Lemma logout_outcome (w : World) :
  run log_out_user w
  = (Redirect "/", mkWorld (store w) [] (Some VNone) (flashed w ++ [msg_logged_out])).
Proof. reflexivity. Qed.

(** C4.  The session state machine.  (1) A login that presents the username
    and password of a stored user makes the session Authenticated with that
    user's id.  (2) A login whose username and password are those of no
    stored user (wrong password, or no such username) leaves the session as
    it was, so an Anonymous session stays Anonymous.  (3) Logout makes the
    session Anonymous.  (4) A request moves an Anonymous session to
    Authenticated only as a login with a stored user's credentials, and the
    session then holds that user's id.  (5) From a browser without a session
    cookie, every session reached holds no user, [None], or the id of a
    stored user. *)
Theorem session_state_machine (timestamp_in : string -> option Z) :
  (forall r w u,
      route r = POST_login ->
      unique_usernames (store w) ->
      In u (users (store w)) -> credentials_of r u ->
      session_state (snd (serve timestamp_in r w)) = Authenticated (User.user_id u))
  /\ (forall r w,
         route r = POST_login ->
         (forall u, In u (users (store w)) -> ~ credentials_of r u) ->
         session (snd (serve timestamp_in r w)) = session w)
  /\ (forall r w,
         route r = GET_logout ->
         session_state (snd (serve timestamp_in r w)) = Anonymous)
  /\ (forall r w k,
         session_state w = Anonymous ->
         session_state (snd (serve timestamp_in r w)) = Authenticated k ->
         route r = POST_login
         /\ exists u, In u (users (store w)) /\ credentials_of r u /\ User.user_id u = k)
  /\ (forall d0 w, reachable timestamp_in d0 w -> session_ok w).
Proof.
  split; [|split; [|split; [|split]]].
  - intros r w u Hr ND Hin (Hn' & Hp' & Hb).
    unfold serve, dispatch. rewrite Hr.
    destruct (login_outcome r w) as [_ [(u' & s & Hs & _ & Hf & Hpw & Hsess) | (_ & Hno)]].
    + rewrite Hn' in Hs. inversion Hs; subst s.
      apply first_filter_Some in Hf. destruct Hf as [Hin' Heq].
      apply String.eqb_eq in Heq.
      assert (u' = u) by (eapply (unique_column_row User.username); eauto). subst u'.
      unfold session_state. now rewrite Hsess.
    + exfalso.
      destruct (first (filter (fun x => String.eqb (User.username x) (User.username u))
                              (users (store w)))) as [u'|] eqn:Ef.
      * pose proof (first_filter_Some _ _ _ Ef) as [Hin' Heq].
        apply String.eqb_eq in Heq.
        assert (u' = u) by (eapply (unique_column_row User.username); eauto). subst u'.
        exact (Hno u _ Hn' Hb Ef Hp').
      * pose proof (first_filter_None _ _ Ef u Hin) as C.
        cbv beta in C. rewrite String.eqb_refl in C. discriminate.
  - intros r w Hr Hnone. unfold serve, dispatch. rewrite Hr.
    destruct (login_outcome r w) as [_ [(u & s & Hs & Hb & Hf & Hpw & _) | (Hsess & _)]].
    + exfalso. apply first_filter_Some in Hf. destruct Hf as [Hin Heq].
      apply String.eqb_eq in Heq. apply (Hnone u Hin).
      split; [now rewrite Heq | split; [exact Hpw | now rewrite Heq]].
    + exact Hsess.
  - intros r w Hr. unfold serve, dispatch. rewrite Hr. reflexivity.
  - intros r w k Ha Hb.
    destruct (route r) eqn:Hr;
      try (exfalso;
           assert (route r <> POST_login) as N1 by congruence;
           assert (route r <> GET_logout) as N2 by congruence;
           destruct (serve_users_grow timestamp_in r w N1 N2) as [Hs _];
           unfold session_state in *; rewrite Hs in Hb; rewrite Ha in Hb;
           discriminate).
    + split; [reflexivity|].
      unfold serve, dispatch in Hb. rewrite Hr in Hb.
      destruct (login_outcome r w)
        as [_ [(u & s & Hs & Hnul & Hf & Hpw & Hsess) | (Hsess & _)]].
      * apply first_filter_Some in Hf. destruct Hf as [Hin Heq].
        apply String.eqb_eq in Heq.
        exists u.
        repeat split; [exact Hin | now rewrite Heq | exact Hpw | now rewrite Heq |].
        unfold session_state in Hb. rewrite Hsess in Hb. now inversion Hb.
      * exfalso. unfold session_state in *. rewrite Hsess in Hb. rewrite Ha in Hb.
        discriminate.
    + exfalso. unfold serve, dispatch in Hb. rewrite Hr in Hb. discriminate.
  - intros d0 w Hreach. induction Hreach as [|w r Hreach IH].
    + exact I.
    + destruct (route r) eqn:Hr;
        try (assert (route r <> POST_login) as N1 by congruence;
             assert (route r <> GET_logout) as N2 by congruence;
             destruct (serve_users_grow timestamp_in r w N1 N2) as [Hs (ext & Hu)];
             unfold session_ok in *; rewrite Hs, Hu;
             destruct (session w) as [[| k | s]|]; try exact I; try contradiction;
             destruct IH as (u & Hin & Hk); exists u; split;
             [apply in_or_app; now left | exact Hk]).
      * unfold serve, dispatch. rewrite Hr.
        destruct (login_outcome r w)
          as [Hst [(u & s & Hs & _ & Hf & Hpw & Hsess) | (Hsess & _)]];
          unfold session_ok in *; rewrite Hsess, Hst.
        -- apply first_filter_Some in Hf. destruct Hf as [Hin _].
           exists u. now split.
        -- exact IH.
      * unfold serve, dispatch. rewrite Hr. exact I.
Qed.

Lemma session_state_machine_witness :
  session_state (snd (serve Sample.timestamp_in Sample.login_alice (fresh Sample.planned)))
  = Authenticated 1
  /\ session (snd (serve Sample.timestamp_in Sample.login_wrong_password
                         (fresh Sample.planned))) = None
  /\ session (snd (serve Sample.timestamp_in Sample.login_nobody (fresh Sample.planned)))
     = None
  /\ session_state (snd (serve Sample.timestamp_in Sample.logout Sample.alice_in))
     = Anonymous
  /\ session_ok (snd (serve Sample.timestamp_in Sample.login_alice (fresh Sample.planned))).
Proof.
  destruct (session_state_machine Sample.timestamp_in) as (H1 & H2 & H3 & _ & H5).
  assert (unique_usernames Sample.planned) as ND.
  { unfold unique_usernames. simpl. repeat constructor; simpl.
    - intros [C|[]]. discriminate C.
    - intros []. }
  split; [|split; [|split; [|split]]].
  - apply (H1 Sample.login_alice (fresh Sample.planned) Sample.alice eq_refl ND).
    + simpl. auto.
    + repeat split; reflexivity.
  - apply (H2 Sample.login_wrong_password (fresh Sample.planned) eq_refl).
    intros u [<-|[<-|[]]] (C1 & C2 & _); discriminate.
  - apply (H2 Sample.login_nobody (fresh Sample.planned) eq_refl).
    intros u [<-|[<-|[]]] (C1 & C2 & _); discriminate.
  - apply (H3 Sample.logout Sample.alice_in eq_refl).
  - apply (H5 Sample.planned). apply reachable_serve. apply reachable_fresh.
Defined.

(* ------------------------------------------------------------------ *)
(** ** The coercions on sample input *)

Example int4_in_blanks : int4_in " 42 " = Some 42.
Proof. reflexivity. Qed.

Example int4_in_negative : int4_in "-7" = Some (-7).
Proof. reflexivity. Qed.

Example int4_in_letters : int4_in "4x" = None.
Proof. reflexivity. Qed.

Example int4_in_out_of_range : int4_in "2147483648" = None.
Proof. reflexivity. Qed.

Example int4_in_hexadecimal : int4_in " -0X1f " = Some (-31).
Proof. reflexivity. Qed.

Example int4_in_octal_and_binary : int4_in "0o17" = Some 15 /\ int4_in "0b101" = Some 5.
Proof. split; reflexivity. Qed.

Example int4_in_underscores :
  int4_in "1_000" = Some 1000 /\ int4_in "0x_1" = Some 1
  /\ int4_in "_1" = None /\ int4_in "1__0" = None /\ int4_in "1_" = None.
Proof. repeat split; reflexivity. Qed.

Example int4_in_prefix_alone : int4_in "0x" = None.
Proof. reflexivity. Qed.

Example as_varchar_cuts_blanks :
  as_varchar 100 (VStr Demo.hundred_and_blank) = Ok (Some Demo.hundred).
Proof. reflexivity. Qed.

Example as_varchar_cuts_blanks_only :
  as_varchar 100 (VStr Demo.hundred_and_letter) = Raise DataError.
Proof. reflexivity. Qed.

Example as_varchar_NUL : as_varchar 50 (VStr Demo.nul_name) = Raise ValueError.
Proof. reflexivity. Qed.

Example py_int_underscore : py_int (VStr "1_000") = Ok 1000.
Proof. reflexivity. Qed.

Example py_int_two_underscores : py_int (VStr "1__0") = Raise ValueError.
Proof. reflexivity. Qed.

Example py_int_None : py_int VNone = Raise TypeError.
Proof. reflexivity. Qed.

(* ------------------------------------------------------------------ *)
(** ** The uniqueness constraints are kept by every request *)

Lemma existsb_key_false {A : Type} (key : A -> Z) (k : Z) (l : list A) :
  existsb (fun y => key y =? k) l = false -> ~ In k (map key l).
Proof.
  intros H Hin. apply in_map_iff in Hin. destruct Hin as (y & Hy & Hin).
  assert (existsb (fun y => key y =? k) l = true) as C.
  { apply existsb_exists. exists y. split; [exact Hin|]. rewrite Hy. apply Z.eqb_refl. }
  congruence.
Qed.

Lemma set_value_where_ids (k : Z) (s : string) (l : list UserSetting.t) :
  map UserSetting.user_setting_id (map (set_value_where k s) l)
  = map UserSetting.user_setting_id l.
Proof.
  rewrite map_map. apply map_ext. intro x. unfold set_value_where.
  destruct (UserSetting.user_setting_id x =? k); reflexivity.
Qed.

Lemma schema_kept_refl (d : DB) : schema_kept d d.
Proof. intro H. exact H. Qed.

Lemma schema_kept_trans (a b c : DB) :
  schema_kept a b -> schema_kept b c -> schema_kept a c.
Proof. unfold schema_kept. tauto. Qed.

Lemma schema_kept_rolled_back (before d : DB) : schema_kept before (rolled_back before d).
Proof. intro H. exact H. Qed.

Lemma keeps_insert_user (o : Obj) : respects schema_kept (insert_user o).
Proof.
  intros d (Hu & Hn & Hrest). unfold insert_user.
  destruct (negb (binds o _)); [split; [exact Hu | split; [exact Hn | exact Hrest]]|].
  destruct (as_varchar 50 (attr o "username")) as [[un|]|];
    destruct (as_varchar 50 (attr o "password")) as [[pw|]|];
    destruct (as_varchar 100 (attr o "home_address"));
    destruct (as_varchar 100 (attr o "destination_address"));
    simpl; try (split; [exact Hu | split; [exact Hn | exact Hrest]]).
  destruct (existsb (fun u => User.user_id u =? users_user_id_seq d + 1) (users d))
    eqn:E1; simpl;
    [split; [exact Hu | split; [exact Hn | exact Hrest]]|].
  destruct (existsb (fun u => String.eqb (User.username u) un) (users d)) eqn:E2; simpl;
    [split; [exact Hu | split; [exact Hn | exact Hrest]]|].
  split; [|split; [|exact Hrest]].
  - simpl. apply unique_column_append; [exact Hu|]. simpl.
    now apply existsb_key_false.
  - unfold unique_usernames. simpl. apply unique_column_append; [exact Hn|]. simpl.
    intro Hin. apply in_map_iff in Hin. destruct Hin as (y & Hy & Hin).
    assert (existsb (fun u => String.eqb (User.username u) un) (users d) = true) as C.
    { apply existsb_exists. exists y. split; [exact Hin|]. rewrite Hy.
      apply String.eqb_refl. }
    congruence.
Qed.

Lemma keeps_insert_user_setting (o : Obj) : respects schema_kept (insert_user_setting o).
Proof.
  intros d (Hu & Hn & Hs & Hrest). unfold insert_user_setting.
  destruct (negb (binds o _));
    [split; [exact Hu | split; [exact Hn | split; [exact Hs | exact Hrest]]]|].
  destruct (as_int4 (attr o "user_id")) as [[u|]|];
    destruct (as_int4 (attr o "setting_id")) as [[s|]|];
    destruct (as_varchar 100 (attr o "value")) as [[v|]|];
    simpl; try (split; [exact Hu | split; [exact Hn | split; [exact Hs | exact Hrest]]]).
  destruct (existsb _ (users_settings d)) eqn:E1; simpl;
    [split; [exact Hu | split; [exact Hn | split; [exact Hs | exact Hrest]]]|].
  destruct (_ || _); simpl;
    [split; [exact Hu | split; [exact Hn | split; [exact Hs | exact Hrest]]]|].
  split; [exact Hu | split; [exact Hn | split; [|exact Hrest]]].
  unfold unique_user_setting_ids. simpl. apply unique_column_append; [exact Hs|]. simpl.
  now apply existsb_key_false.
Qed.

Lemma keeps_insert_task (o : Obj) : respects schema_kept (insert_task o).
Proof.
  intros d (Hu & Hn & Hs & Ht & Hg). unfold insert_task.
  destruct (negb (binds o _)); [repeat split; assumption|].
  destruct (as_int4 (attr o "user_id")) as [[u|]|];
    destruct (as_varchar 50 (attr o "task_name")) as [[n|]|];
    destruct (as_varchar 100 (attr o "task_description"));
    destruct (as_int4 (attr o "duration_estimate")) as [[est|]|];
    destruct (as_int4 (attr o "duration_actual"));
    simpl; try (repeat split; assumption).
  destruct (existsb _ (tasks d)) eqn:E1; simpl; [repeat split; assumption|].
  destruct (negb _); simpl; [repeat split; assumption|].
  split; [exact Hu | split; [exact Hn | split; [exact Hs | split; [|exact Hg]]]].
  unfold unique_task_ids. simpl. apply unique_column_append; [exact Ht|]. simpl.
  now apply existsb_key_false.
Qed.

Lemma keeps_insert_gameplan_task (timestamp_in : string -> option Z) (o : Obj) :
  respects schema_kept (insert_gameplan_task timestamp_in o).
Proof.
  intros d (Hu & Hn & Hs & Ht & Hg). unfold insert_gameplan_task.
  destruct (negb (binds o _)); [repeat split; assumption|].
  destruct (as_int4 (attr o "task_id")) as [[t|]|];
    destruct (as_int4 (attr o "user_id")) as [[u|]|];
    destruct (as_int4 (attr o "order"));
    destruct (as_timestamp timestamp_in (attr o "start_time"));
    destruct (as_timestamp timestamp_in (attr o "end_time"));
    simpl; try (repeat split; assumption).
  destruct (existsb _ (gameplan_tasks d)) eqn:E1; simpl; [repeat split; assumption|].
  destruct (_ || _); simpl; [repeat split; assumption|].
  split; [exact Hu | split; [exact Hn | split; [exact Hs | split; [exact Ht|]]]].
  unfold unique_gameplan_task_ids. simpl. apply unique_column_append; [exact Hg|]. simpl.
  now apply existsb_key_false.
Qed.

Lemma keeps_delete_task (t : Task.t) : respects schema_kept (delete_task t).
Proof.
  intros d (Hu & Hn & Hs & Ht & Hg). unfold delete_task.
  destruct (existsb _ (gameplan_tasks d)); [repeat split; assumption|].
  destruct (existsb _ (tasks_categories d)); [repeat split; assumption|].
  split; [exact Hu | split; [exact Hn | split; [exact Hs | split; [|exact Hg]]]].
  unfold unique_task_ids. simpl. now apply unique_column_delete.
Qed.

Lemma keeps_delete_gameplan_task (g : GameplanTask.t) :
  respects schema_kept (delete_gameplan_task g).
Proof.
  intros d (Hu & Hn & Hs & Ht & Hg).
  split; [exact Hu | split; [exact Hn | split; [exact Hs | split; [exact Ht|]]]].
  unfold unique_gameplan_task_ids. simpl. now apply unique_column_delete.
Qed.

Lemma keeps_update_user_setting_value (row : UserSetting.t) (v : Value) :
  respects schema_kept (update_user_setting_value row v).
Proof.
  intros d (Hu & Hn & Hs & Ht & Hg). unfold update_user_setting_value.
  destruct (py_eq _ v); [repeat split; assumption|].
  destruct (as_varchar 100 v) as [[s|]|]; simpl; try (repeat split; assumption).
  split; [exact Hu | split; [exact Hn | split; [|split; [exact Ht | exact Hg]]]].
  unfold unique_user_setting_ids. simpl. now rewrite set_value_where_ids.
Qed.

(** Whatever the request, the store it leaves satisfies the uniqueness
    constraints when the store it found did. *)
Theorem serve_keeps_schema (timestamp_in : string -> option Z) (r : Request) (w : World) :
  schema_ok (store w) -> schema_ok (store (snd (serve timestamp_in r w))).
Proof.
  intro H.
  destruct (route r) eqn:Hr;
    try (assert (route r <> POST_login) as N1 by congruence;
         assert (route r <> GET_logout) as N2 by congruence;
         refine (proj2 (serve_stable schema_kept schema_kept_refl schema_kept_trans
                          schema_kept_rolled_back timestamp_in
                          keeps_insert_user keeps_insert_user_setting keeps_insert_task
                          (keeps_insert_gameplan_task timestamp_in)
                          keeps_delete_task keeps_delete_gameplan_task
                          keeps_update_user_setting_value r w N1 N2) H)).
  - unfold serve, dispatch. rewrite Hr.
    destruct (login_outcome r w) as [Hst _]. now rewrite Hst.
  - unfold serve, dispatch. rewrite Hr. exact H.
Qed.

(** X21.  The uniqueness constraints are an invariant of the application:
    started on a store in which user ids, usernames, user-setting ids, task
    ids and gameplan task ids are unique, every world that any sequence of
    requests leads to has a store in which they still are. *)
Corollary reachable_schema_ok (timestamp_in : string -> option Z) (d0 : DB) (w : World) :
  schema_ok d0 -> reachable timestamp_in d0 w -> schema_ok (store w).
Proof.
  intros H0 Hreach. induction Hreach as [|w r Hreach IH].
  - exact H0.
  - now apply serve_keeps_schema.
Qed.

Example planned_schema_ok : schema_ok Sample.planned.
Proof.
  unfold schema_ok, unique_usernames, unique_user_setting_ids, unique_task_ids,
    unique_gameplan_task_ids. simpl.
  repeat split; repeat constructor; simpl; try (intuition lia); intuition discriminate.
Qed.

(* ================================================================== *)
(** * Further properties *)

(* ------------------------------------------------------------------ *)
(** ** The views change nothing *)

Lemma at_rest_idem (w : World) : at_rest (at_rest w) = at_rest w.
Proof. reflexivity. Qed.

Lemma quiet_ret {A : Type} (a : A) : quiet (ret a).
Proof. intro w. reflexivity. Qed.

Lemma quiet_raise {A : Type} (e : Exc) : quiet (@raise A e).
Proof. intro w. reflexivity. Qed.

Lemma quiet_lift {A : Type} (o : Outcome A) : quiet (lift o).
Proof. intro w. reflexivity. Qed.

Lemma quiet_query {A : Type} (q : DB -> A) : quiet (query q).
Proof. intro w. reflexivity. Qed.

Lemma quiet_session_getitem_user : quiet session_getitem_user.
Proof. intro w. unfold session_getitem_user. now destruct (session w). Qed.

Lemma quiet_bind {A B : Type} (m : M A) (k : A -> M B) :
  quiet m -> (forall a, quiet (k a)) -> quiet (bind m k).
Proof.
  intros Hm Hk w. unfold bind. specialize (Hm w).
  destruct (m w) as [[a|e] w1]; simpl in Hm; subst w1; [apply Hk | reflexivity].
Qed.

Ltac quiet_step :=
  lazymatch goal with
  | |- quiet (bind _ _) => apply quiet_bind; [|intro]
  | |- quiet (ret _) => apply quiet_ret
  | |- quiet (raise _) => apply quiet_raise
  | |- quiet (lift _) => apply quiet_lift
  | |- quiet (query _) => apply quiet_query
  | |- quiet session_getitem_user => apply quiet_session_getitem_user
  | |- quiet (match ?x with _ => _ end) => destruct x
  end.

Ltac quiet_unfold :=
  unfold render_template, redirect, local, one, query_get, filter_by_int,
    username_of, setting_value, gameplan_tasks_of, users_by_username.

Ltac quiet_all := repeat (quiet_unfold; quiet_step).

Lemma quiet_run (h : M Response) (w : World) :
  quiet h -> snd (run h w) = at_rest w.
Proof.
  intro Hq. unfold run. specialize (Hq (at_rest w)).
  destruct (h (at_rest w)) as [o w']. simpl in *. now subst w'.
Qed.

(** X1.  The six views (home, registration form, task list, settings,
    dashboard, about) are read-only: whatever they answer, even when they
    end as a server error, the store, the session and the flashed messages
    are as before. *)
Theorem views_change_nothing (w : World) :
  snd (run show_index w) = at_rest w
  /\ snd (run display_registration_form w) = at_rest w
  /\ snd (run task_list w) = at_rest w
  /\ snd (run show_user_settings w) = at_rest w
  /\ snd (run show_user_tasks_and_gameplan w) = at_rest w
  /\ snd (run display_about_page w) = at_rest w.
Proof.
  split; [|split; [|split; [|split; [|split]]]]; apply quiet_run.
  - unfold show_index. quiet_all.
  - unfold display_registration_form. quiet_all.
  - unfold task_list. quiet_all.
  - unfold show_user_settings. quiet_all.
  - unfold show_user_tasks_and_gameplan. quiet_all.
  - unfold display_about_page. quiet_all.
Qed.

(* ------------------------------------------------------------------ *)
(** ** Sessions without a logged-in user *)

(** X2.  After a logout, whatever the world was: the home view greets
    "friend", the settings view redirects home, the task list renders with
    no task, and the dashboard, which has no guard, ends as a server error
    ([AttributeError] at [user.username]). *)
Theorem views_after_logout (w : World) :
  fst (run show_index (snd (run log_out_user w)))
  = RenderTemplate "index.html" [("username", CValue (VStr "friend"))]
  /\ fst (run show_user_settings (snd (run log_out_user w))) = Redirect "/"
  /\ fst (run task_list (snd (run log_out_user w)))
     = RenderTemplate "dashboard.html" [("tasks", CTasks [])]
  /\ fst (run show_user_tasks_and_gameplan (snd (run log_out_user w)))
     = InternalServerError AttributeError.
Proof. repeat split. Qed.

(** X3.  With no ['user'] entry in the session (a browser that never logged
    in or out), every handler that reads the session ends as a server error
    ([KeyError]) and changes nothing: task list, add task, settings,
    dashboard and add to gameplan. *)
Theorem no_session_entry_is_KeyError (timestamp_in : string -> option Z)
        (r : Request) (w : World) :
  session w = None ->
  run task_list w = (InternalServerError KeyError, at_rest w)
  /\ run (add_new_task r) w = (InternalServerError KeyError, at_rest w)
  /\ run show_user_settings w = (InternalServerError KeyError, at_rest w)
  /\ run show_user_tasks_and_gameplan w = (InternalServerError KeyError, at_rest w)
  /\ run (add_task_to_gameplan timestamp_in r) w
     = (InternalServerError KeyError, at_rest w).
Proof.
  intro H.
  repeat split;
    unfold run, task_list, add_new_task, show_user_settings,
      show_user_tasks_and_gameplan, add_task_to_gameplan, bind, session_getitem_user;
    simpl; rewrite H; reflexivity.
Qed.

Lemma no_session_entry_is_KeyError_witness :
  run task_list (fresh Sample.planned)
  = (InternalServerError KeyError, fresh Sample.planned)
  /\ run (add_new_task Sample.add_shower) (fresh Sample.planned)
     = (InternalServerError KeyError, fresh Sample.planned)
  /\ run show_user_settings (fresh Sample.planned)
     = (InternalServerError KeyError, fresh Sample.planned)
  /\ run show_user_tasks_and_gameplan (fresh Sample.planned)
     = (InternalServerError KeyError, fresh Sample.planned)
  /\ run (add_task_to_gameplan Sample.timestamp_in Demo.plan_journal)
         (fresh Sample.planned)
     = (InternalServerError KeyError, fresh Sample.planned).
Proof.
  apply (no_session_entry_is_KeyError Sample.timestamp_in Sample.add_shower
           (fresh Sample.planned)).
  reflexivity.
Defined.

Example plan_journal_needs_order_form :
  run (add_task_to_gameplan Sample.timestamp_in Sample.add_shower) Sample.alice_in
  = (InternalServerError TypeError, Sample.alice_in).
Proof. reflexivity. Qed.

(* ------------------------------------------------------------------ *)
(** ** What a login answers *)

Lemma form_get_cases (r : Request) (k : string) :
  form_get r k = VNone \/ exists s, form_get r k = VStr s.
Proof.
  unfold form_get. destruct (lookup k (form r)) as [s|]; [right; now exists s | now left].
Qed.

(** The whole of a login request, by cases on the stored user found. *)
Lemma login_run (r : Request) (w : World) :
  run (check_login_credentials r) w
  = match form_get r "username" with
    | VStr s =>
        if has_nul s then (InternalServerError ValueError, at_rest w) else
        match first (filter (fun x => String.eqb (User.username x) s) (users (store w))) with
        | Some u =>
            if py_eq (VStr (User.password u)) (form_get r "password")
            then (Redirect "/",
                  mkWorld (store w) [] (Some (VInt (User.user_id u)))
                          (flashed w ++ [msg_logged_in]))
            else (Redirect "/",
                  mkWorld (store w) [] (session w) (flashed w ++ [msg_incorrect_login]))
        | None =>
            (Redirect "/",
             mkWorld (store w) [] (session w) (flashed w ++ [msg_no_such_username]))
        end
    | VNone =>
        (Redirect "/",
         mkWorld (store w) [] (session w) (flashed w ++ [msg_no_such_username]))
    | VInt _ => (InternalServerError ProgrammingError, at_rest w)
    end.
Proof.
  unfold run, check_login_credentials, bind, users_by_username.
  destruct (form_get r "username") as [| z | s]; cbn -[py_eq first filter];
    try reflexivity.
  destruct (has_nul s); cbn -[py_eq first filter]; [reflexivity|].
  destruct (first _) as [u|]; [|reflexivity].
  destruct (py_eq _ _); reflexivity.
Qed.

(** X4.  A login request whose username the driver can bind (a text without
    NUL, or none) redirects home, never changes the store, and flashes
    exactly one message that tells the three cases apart: "does not exist"
    when no stored user has the submitted username (or none was submitted),
    "Incorrect login information" when the user with that username has
    another password, "You are now logged in" when the password matches,
    the only case in which the session changes.  A submitted username that
    holds NUL is refused by the driver: the request ends as a server error
    ([ValueError]) with nothing flashed and the session as it was. *)
Theorem login_messages (r : Request) (w : World) :
  unique_usernames (store w) ->
  (unbindable (form_get r "username") = false ->
   (forall u, In u (users (store w)) -> form_get r "username" <> VStr (User.username u)) ->
   run (check_login_credentials r) w
   = (Redirect "/",
      mkWorld (store w) [] (session w) (flashed w ++ [msg_no_such_username])))
  /\ (forall u, In u (users (store w)) ->
      has_nul (User.username u) = false ->
      form_get r "username" = VStr (User.username u) ->
      form_get r "password" <> VStr (User.password u) ->
      run (check_login_credentials r) w
      = (Redirect "/",
         mkWorld (store w) [] (session w) (flashed w ++ [msg_incorrect_login])))
  /\ (forall u, In u (users (store w)) ->
      has_nul (User.username u) = false ->
      form_get r "username" = VStr (User.username u) ->
      form_get r "password" = VStr (User.password u) ->
      run (check_login_credentials r) w
      = (Redirect "/",
         mkWorld (store w) [] (Some (VInt (User.user_id u)))
                 (flashed w ++ [msg_logged_in])))
  /\ (unbindable (form_get r "username") = true ->
      run (check_login_credentials r) w = (InternalServerError ValueError, at_rest w)).
Proof.
  intro ND.
  assert (forall u, In u (users (store w)) ->
          first (filter (fun x => String.eqb (User.username x) (User.username u))
                        (users (store w))) = Some u) as Hfirst.
  { intros u Hin.
    destruct (first (filter (fun x => String.eqb (User.username x) (User.username u))
                            (users (store w)))) as [u'|] eqn:Ef.
    - apply first_filter_Some in Ef. destruct Ef as [Hin' Heq].
      apply String.eqb_eq in Heq. f_equal.
      eapply (unique_column_row User.username); eauto.
    - pose proof (first_filter_None _ _ Ef u Hin) as C.
      cbv beta in C. rewrite String.eqb_refl in C. discriminate. }
  rewrite login_run. split; [|split; [|split]].
  - intros Hb Hno. destruct (form_get_cases r "username") as [E|(s & E)]; rewrite E.
    + reflexivity.
    + rewrite E in Hb. simpl in Hb. rewrite Hb.
      destruct (first (filter (fun x => String.eqb (User.username x) s) (users (store w))))
        as [u|] eqn:Ef; [|reflexivity].
      apply first_filter_Some in Ef. destruct Ef as [Hin Heq].
      apply String.eqb_eq in Heq. exfalso. apply (Hno u Hin). now rewrite E, Heq.
  - intros u Hin Hb Hn Hp. rewrite Hn, Hb, (Hfirst u Hin).
    destruct (py_eq (VStr (User.password u)) (form_get r "password")) eqn:E;
      [|reflexivity].
    apply py_eq_true_iff in E. congruence.
  - intros u Hin Hb Hn Hp. rewrite Hn, Hb, (Hfirst u Hin), Hp, py_eq_refl. reflexivity.
  - intro Hb. destruct (form_get r "username") as [| z | s]; try discriminate.
    simpl in Hb. now rewrite Hb.
Qed.

Lemma login_messages_witness :
  run (check_login_credentials Sample.login_nobody) (fresh Sample.planned)
  = (Redirect "/", mkWorld Sample.planned [] None [msg_no_such_username])
  /\ run (check_login_credentials Sample.login_wrong_password) (fresh Sample.planned)
     = (Redirect "/", mkWorld Sample.planned [] None [msg_incorrect_login])
  /\ run (check_login_credentials Sample.login_alice) (fresh Sample.planned)
     = (Redirect "/", mkWorld Sample.planned [] (Some (VInt 1)) [msg_logged_in])
  /\ run (check_login_credentials Demo.login_nul) (fresh Sample.planned)
     = (InternalServerError ValueError, fresh Sample.planned).
Proof.
  assert (unique_usernames Sample.planned) as ND.
  { unfold unique_usernames. simpl. repeat constructor; simpl.
    - intros [C|[]]. discriminate C.
    - intros []. }
  split; [|split; [|split]].
  - destruct (login_messages Sample.login_nobody (fresh Sample.planned) ND) as (A & _).
    apply A; [reflexivity|]. intros u [<-|[<-|[]]]; discriminate.
  - destruct (login_messages Sample.login_wrong_password (fresh Sample.planned) ND)
      as (_ & B & _).
    apply (B Sample.alice); [simpl; auto | reflexivity | reflexivity | discriminate].
  - destruct (login_messages Sample.login_alice (fresh Sample.planned) ND)
      as (_ & _ & C & _).
    apply (C Sample.alice); [simpl; auto | reflexivity | reflexivity | reflexivity].
  - destruct (login_messages Demo.login_nul (fresh Sample.planned) ND) as (_ & _ & _ & D).
    apply D. reflexivity.
Defined.

(* ------------------------------------------------------------------ *)
(** ** Registration against the store *)

(** The whole of a registration with matching passwords, by cases on what
    the store answers to the insert. *)
Lemma register_run (r : Request) (w : World) :
  form_get r "password" = form_get r "confirm_password" ->
  run (execute_user_registration r) w
  = match insert_user [("username", form_get r "username");
                       ("password", form_get r "password")] (store w) with
    | Flushed d1 _ =>
        match settings d1 with
        | [] => (Redirect "/", mkWorld d1 [] (session w) (flashed w ++ [msg_registered]))
        | _ :: _ => (InternalServerError AttributeError,
                     mkWorld d1 [] (session w) (flashed w))
        end
    | Failed e d1 =>
        (InternalServerError e,
         mkWorld (rolled_back (store w) d1) [] (session w) (flashed w))
    end.
Proof.
  intro Hpw.
  unfold run, execute_user_registration.
  rewrite <- Hpw, py_eq_refl. cbn -[insert_user for_each].
  unfold bind at 1. cbn -[insert_user for_each].
  unfold bind at 1. unfold db_session_commit. cbn -[insert_user for_each].
  destruct (insert_user _ (store w)) as [d1 key|e d1]; cbn -[for_each]; [|reflexivity].
  destruct (settings d1); reflexivity.
Qed.

Lemma as_varchar_Raise (n : nat) (v : Value) (e : Exc) :
  as_varchar n v = Raise e -> (forall z, v <> VInt z) ->
  e = DataError \/ e = ValueError.
Proof.
  destruct v as [| z | s]; cbn [as_varchar]; intros H Hv.
  - discriminate.
  - now destruct (Hv z).
  - destruct (has_nul s); [inversion H; now right|].
    destruct (Nat.leb _ _); [discriminate|].
    destruct (all_blank _); [discriminate|]. inversion H; now left.
Qed.

(** The object a registration builds holds what the form held: texts, or
    nothing. *)
Lemma registration_object_text (r : Request) (c : string) (z : Z) :
  attr [("username", form_get r "username"); ("password", form_get r "password")] c
  <> VInt z.
Proof.
  unfold attr. cbn [lookup].
  destruct (String.eqb c "username");
    [destruct (form_get_cases r "username") as [->|(s & ->)]; discriminate|].
  destruct (String.eqb c "password");
    [destruct (form_get_cases r "password") as [->|(s & ->)]; discriminate|].
  discriminate.
Qed.

(** What a refused [INSERT INTO users] of texts was refused with. *)
Lemma insert_user_Failed_exc (o : Obj) (d d' : DB) (e : Exc) :
  (forall c z, attr o c <> VInt z) ->
  insert_user o d = Failed e d' ->
  e = IntegrityError \/ e = DataError \/ e = ValueError.
Proof.
  intros Ho. unfold insert_user.
  destruct (negb (binds o _)); [intro H; inversion H; auto|].
  pose proof (fun n c e => as_varchar_Raise n (attr o c) e) as R.
  destruct (as_varchar 50 (attr o "username")) as [un|e1] eqn:E1;
    [|intro H; inversion H; subst; destruct (R _ _ _ E1 (Ho _)); auto].
  destruct (as_varchar 50 (attr o "password")) as [pw|e2] eqn:E2;
    [|intro H; inversion H; subst; destruct (R _ _ _ E2 (Ho _)); auto].
  destruct (as_varchar 100 (attr o "home_address")) as [ha|e3] eqn:E3;
    [|intro H; inversion H; subst; destruct (R _ _ _ E3 (Ho _)); auto].
  destruct (as_varchar 100 (attr o "destination_address")) as [da|e4] eqn:E4;
    [|intro H; inversion H; subst; destruct (R _ _ _ E4 (Ho _)); auto].
  destruct un as [un|]; destruct pw as [pw|];
    try solve [intro H; inversion H; auto].
  destruct (_ || _); intro H; inversion H; auto.
Qed.

Lemma insert_user_Failed_rows (o : Obj) (d d' : DB) (e : Exc) :
  insert_user o d = Failed e d' -> same_rows (rolled_back d d') d.
Proof. intros _. unfold same_rows. simpl. repeat split. Qed.

(** X5.  A registration with matching passwords whose username is already
    stored (a name within the 50 characters of its column), or that submits
    no username, stores nothing: the request ends as a server error
    ([IntegrityError] from the store; [DataError] or [ValueError] when a
    submitted text is refused before that), no row is created or changed,
    nothing is flashed and the session is as before. *)
Theorem register_refused (r : Request) (w : World) :
  form_get r "password" = form_get r "confirm_password" ->
  ((exists u, In u (users (store w))
              /\ (String.length (User.username u) <= 50)%nat
              /\ form_get r "username" = VStr (User.username u))
   \/ form_get r "username" = VNone) ->
  exists e d,
    run (execute_user_registration r) w
    = (InternalServerError e, mkWorld d [] (session w) (flashed w))
    /\ (e = IntegrityError \/ e = DataError \/ e = ValueError)
    /\ same_rows d (store w).
Proof.
  intros Hpw Hname. rewrite (register_run r w Hpw).
  destruct (insert_user _ (store w)) as [d1 key|e d'] eqn:Hins.
  - exfalso.
    destruct (insert_user_Flushed _ _ _ _ Hins) as (u' & _ & _ & _ & Hun & _ & Hfresh & _).
    change (attr [("username", form_get r "username"); ("password", form_get r "password")]
                 "username") with (form_get r "username") in Hun.
    destruct Hname as [(u & Hin & Hlen & Hn)|Hn]; rewrite Hn in Hun; [|discriminate].
    destruct (as_varchar_stored _ _ _ Hun) as (s & Hs & _ & [[_ Ht]|[Hlong _]] & _);
      injection Hs as Hs'.
    + apply Hfresh. rewrite Ht, <- Hs'. now apply in_map.
    + rewrite <- Hs' in Hlong. lia.
  - exists e, (rolled_back (store w) d').
    split; [reflexivity|]. split.
    + exact (insert_user_Failed_exc _ _ _ _ (registration_object_text r) Hins).
    + exact (insert_user_Failed_rows _ _ _ _ Hins).
Qed.

Lemma register_refused_witness :
  exists e d,
    run (execute_user_registration Sample.register_alice) (fresh Sample.planned)
    = (InternalServerError e, mkWorld d [] None [])
    /\ (e = IntegrityError \/ e = DataError \/ e = ValueError)
    /\ same_rows d Sample.planned.
Proof.
  apply (register_refused Sample.register_alice (fresh Sample.planned)).
  - reflexivity.
  - left. exists Sample.alice. split; [simpl; auto | split; [simpl; lia | reflexivity]].
Defined.

Example register_taken_username_is_IntegrityError :
  fst (run (execute_user_registration Sample.register_alice) (fresh Sample.planned))
  = InternalServerError IntegrityError.
Proof. reflexivity. Qed.

(** Looking up a key in a table that was extended at its end. *)
Lemma find_in_extended {Row : Type} (hit : Row -> bool) (rows : list Row) (r : Row) :
  find hit (rows ++ [r])
  = match find hit rows with
    | Some x => Some x
    | None => if hit r then Some r else None
    end.
Proof.
  induction rows as [|x rows IH]; simpl; [reflexivity|].
  destruct (hit x); [reflexivity | exact IH].
Qed.

(** X6.  Register, then log in.  When the store accepts a registration
    (matching passwords) whose username and password are of at most 50
    characters, so that they are stored uncut, a login with the same
    username and password makes the session Authenticated with the id the
    new user was given; this holds whether or not the registration request
    itself ended well. *)
Theorem register_then_login (r login : Request) (w : World) (d1 : DB) (k : Z) :
  form_get r "password" = form_get r "confirm_password" ->
  insert_user [("username", form_get r "username"); ("password", form_get r "password")]
              (store w) = Flushed d1 (VInt k) ->
  fits 50 (form_get r "username") -> fits 50 (form_get r "password") ->
  form_get login "username" = form_get r "username" ->
  form_get login "password" = form_get r "password" ->
  run (check_login_credentials login) (snd (run (execute_user_registration r) w))
  = (Redirect "/",
     mkWorld d1 [] (Some (VInt k))
             (flashed (snd (run (execute_user_registration r) w)) ++ [msg_logged_in]))
  /\ (exists u, get_user k d1 = Some u
                /\ form_get r "username" = VStr (User.username u)).
Proof.
  intros Hpw Hins Hfn Hfp Hn Hp.
  destruct (insert_user_Flushed _ _ _ _ Hins)
    as (u & Hd1 & Hkey & Hid & Hun & Hpwd & Hfresh_name & Hfresh_id).
  change (attr [("username", form_get r "username"); ("password", form_get r "password")]
               "username") with (form_get r "username") in Hun.
  change (attr [("username", form_get r "username"); ("password", form_get r "password")]
               "password") with (form_get r "password") in Hpwd.
  destruct (as_varchar_stored _ _ _ Hun) as (un & Eun & Hb & Hcut & _).
  destruct (as_varchar_stored _ _ _ Hpwd) as (pw & Epw & _ & Hcutp & _).
  rewrite Eun in Hfn. rewrite Epw in Hfp. simpl in Hfn, Hfp.
  destruct Hcut as [[_ Hu]|[Hlong _]]; [|lia].
  destruct Hcutp as [[_ Hv]|[Hlong _]]; [|lia].
  subst un pw.
  assert (k = User.user_id u) as Hk by congruence. subst k. clear Hkey.
  assert (store (snd (run (execute_user_registration r) w)) = d1) as Hst.
  { rewrite (register_run r w Hpw), Hins. now destruct (settings d1). }
  assert (session (snd (run (execute_user_registration r) w)) = session w) as Hse.
  { rewrite (register_run r w Hpw), Hins. now destruct (settings d1). }
  assert (first (filter (fun x => String.eqb (User.username x) (User.username u))
                        (users d1)) = Some u) as Hfirst.
  { rewrite Hd1. simpl. rewrite filter_app. simpl. rewrite String.eqb_refl.
    assert (filter (fun x => String.eqb (User.username x) (User.username u))
                   (users (store w)) = []) as Hnone.
    { destruct (filter _ (users (store w))) as [|x l] eqn:Ef; [reflexivity|].
      exfalso. assert (In x (filter (fun x => String.eqb (User.username x)
                                                 (User.username u)) (users (store w))))
        as Hx by (rewrite Ef; now left).
      apply filter_In in Hx. destruct Hx as [Hx Heq]. apply String.eqb_eq in Heq.
      apply Hfresh_name. rewrite <- Heq. now apply in_map. }
    rewrite Hnone. reflexivity. }
  split.
  - rewrite login_run, Hn, Eun, Hb, Hst, Hfirst, Hp, Epw, py_eq_refl. reflexivity.
  - exists u. split; [|exact Eun].
    unfold get_user. rewrite Hd1. simpl.
    rewrite find_in_extended.
    destruct (find (fun x => User.user_id x =? User.user_id u) (users (store w)))
      as [x|] eqn:Ef.
    + exfalso. apply (find_key_In User.user_id) in Ef. destruct Ef as [Hx Hxk].
      apply Hfresh_id. rewrite <- Hxk. now apply in_map.
    + simpl. rewrite Z.eqb_refl. reflexivity.
Qed.

Lemma register_then_login_witness :
  run (check_login_credentials Demo.login_carol)
      (snd (run (execute_user_registration Demo.register_carol) (fresh Sample.planned)))
  = (Redirect "/",
     mkWorld (mkDB [Sample.alice; Sample.bob; Demo.carol] (settings Sample.planned)
                   (users_settings Sample.planned) (tasks Sample.planned)
                   (gameplan_tasks Sample.planned) (categories Sample.planned)
                   (tasks_categories Sample.planned) 3 1 4)
             [] (Some (VInt 3)) [msg_logged_in])
  /\ (exists u, get_user 3 (mkDB [Sample.alice; Sample.bob; Demo.carol]
                                 (settings Sample.planned)
                                 (users_settings Sample.planned) (tasks Sample.planned)
                                 (gameplan_tasks Sample.planned)
                                 (categories Sample.planned)
                                 (tasks_categories Sample.planned) 3 1 4) = Some u
                /\ form_get Demo.register_carol "username" = VStr (User.username u)).
Proof.
  apply (register_then_login Demo.register_carol Demo.login_carol (fresh Sample.planned)).
  - reflexivity.
  - reflexivity.
  - simpl. lia.
  - simpl. lia.
  - reflexivity.
  - reflexivity.
Defined.

(** A name that is stored cut is not the name that was submitted: the
    registration is accepted, and a login with the submitted name finds
    nobody. *)
Example register_padded_then_login :
  users (store (snd (run (execute_user_registration Demo.register_padded)
                         (fresh Sample.planned))))
  = [Sample.alice; Sample.bob; User.mk 3 ("dave" ++ Demo.blanks 46 "") "pw4" None None]
  /\ flashed (snd (run (check_login_credentials Demo.login_padded)
                       (snd (run (execute_user_registration Demo.register_padded)
                                 (fresh Sample.planned)))))
     = [msg_no_such_username].
Proof. split; reflexivity. Qed.

(* ------------------------------------------------------------------ *)
(** ** Promoting a task to the gameplan *)

(** A refused gameplan insert draws no sequence value: the store it
    returns is the one it was given. *)
Lemma insert_gameplan_task_Failed (timestamp_in : string -> option Z) (o : Obj)
      (d d' : DB) (e : Exc) :
  insert_gameplan_task timestamp_in o d = Failed e d' -> d' = d.
Proof.
  unfold insert_gameplan_task.
  destruct (negb (binds o _)); [intro H; inversion H; reflexivity|].
  destruct (as_int4 (attr o "task_id")) as [[t|]|];
    destruct (as_int4 (attr o "user_id")) as [[u|]|];
    destruct (as_int4 (attr o "order"));
    destruct (as_timestamp timestamp_in (attr o "start_time"));
    destruct (as_timestamp timestamp_in (attr o "end_time"));
    try (intro H; inversion H; reflexivity).
  destruct (_ || _); intro H; inversion H; reflexivity.
Qed.

(** The whole of an add-to-gameplan request once the session entry and the
    order are read, by cases on what the store answers to the insert. *)
Lemma add_task_to_gameplan_run (timestamp_in : string -> option Z) (r : Request)
      (w : World) (v : Value) (n : Z) :
  session w = Some v ->
  py_int (form_get r "order") = Ok n ->
  run (add_task_to_gameplan timestamp_in r) w
  = match insert_gameplan_task timestamp_in
            [("task_id", form_get r "gameplan_task_name"); ("user_id", v);
             ("order", VInt n); ("start_time", form_get r "start_time");
             ("end_time", form_get r "end_time")] (store w) with
    | Flushed d1 _ => (Redirect "/dashboard", mkWorld d1 [] (session w) (flashed w))
    | Failed e _ => (InternalServerError e, at_rest w)
    end.
Proof.
  intros Hs Ho.
  unfold run, add_task_to_gameplan, bind, session_getitem_user.
  cbn -[insert_gameplan_task py_int]. rewrite Hs, Ho.
  cbn -[insert_gameplan_task]. unfold db_session_commit.
  cbn -[insert_gameplan_task].
  destruct (insert_gameplan_task _ _ (store w)) as [d1 key|e d1] eqn:E;
    cbn; rewrite ?Hs; [reflexivity|].
  apply insert_gameplan_task_Failed in E. subst d1.
  rewrite rolled_back_same. unfold at_rest. now rewrite Hs.
Qed.




(** X8.  An add-to-gameplan request that does not succeed stores nothing:
    whenever the answer is a server error, the store, the session and the
    flashes are as before.  In particular, for a session with a ['user']
    entry, a form without [order] ends in [TypeError] and an [order] that
    is not an integer in [ValueError], both before the store is asked. *)
Theorem add_task_to_gameplan_failure (timestamp_in : string -> option Z) (r : Request)
        (w : World) :
  (forall e, fst (run (add_task_to_gameplan timestamp_in r) w) = InternalServerError e ->
             snd (run (add_task_to_gameplan timestamp_in r) w) = at_rest w)
  /\ (forall v, session w = Some v -> form_get r "order" = VNone ->
      run (add_task_to_gameplan timestamp_in r) w
      = (InternalServerError TypeError, at_rest w))
  /\ (forall v s, session w = Some v -> form_get r "order" = VStr s ->
      py_int_of_string s = None ->
      run (add_task_to_gameplan timestamp_in r) w
      = (InternalServerError ValueError, at_rest w)).
Proof.
  split; [|split].
  - intros e He.
    destruct (session w) as [v|] eqn:Hs.
    + destruct (py_int (form_get r "order")) as [n|e'] eqn:Ho.
      * rewrite (add_task_to_gameplan_run timestamp_in r w v n Hs Ho) in *.
        destruct (insert_gameplan_task _ _ (store w)); [discriminate He | reflexivity].
      * unfold run, add_task_to_gameplan, bind, session_getitem_user.
        cbn -[py_int]. rewrite Hs, Ho. cbn. unfold at_rest. now rewrite Hs.
    + unfold run, add_task_to_gameplan, bind, session_getitem_user.
      cbn. rewrite Hs. cbn. unfold at_rest. now rewrite Hs.
  - intros v Hs Ho.
    unfold run, add_task_to_gameplan, bind, session_getitem_user.
    cbn -[py_int]. rewrite Hs, Ho. cbn. unfold at_rest. now rewrite Hs.
  - intros v s Hs Ho Hbad.
    unfold run, add_task_to_gameplan, bind, session_getitem_user.
    cbn -[py_int]. rewrite Hs, Ho. unfold py_int. rewrite Hbad.
    cbn. unfold at_rest. now rewrite Hs.
Qed.

Lemma add_task_to_gameplan_failure_witness :
  run (add_task_to_gameplan Sample.timestamp_in Sample.add_shower) Sample.alice_in
  = (InternalServerError TypeError, Sample.alice_in)
  /\ run (add_task_to_gameplan Sample.timestamp_in
            (mkRequest POST_api_add_task_to_gameplan []
                       [("gameplan_task_name", "4"); ("order", "first")]))
         Sample.alice_in
     = (InternalServerError ValueError, Sample.alice_in)
  /\ snd (run (add_task_to_gameplan Sample.timestamp_in
                 (mkRequest POST_api_add_task_to_gameplan []
                            [("gameplan_task_name", "9"); ("order", "3")]))
              Sample.alice_in)
     = Sample.alice_in.
Proof.
  split; [|split].
  - destruct (add_task_to_gameplan_failure Sample.timestamp_in Sample.add_shower
                Sample.alice_in) as (_ & B & _).
    apply (B (VInt 1)); reflexivity.
  - destruct (add_task_to_gameplan_failure Sample.timestamp_in
                (mkRequest POST_api_add_task_to_gameplan []
                           [("gameplan_task_name", "4"); ("order", "first")])
                Sample.alice_in) as (_ & _ & C).
    apply (C (VInt 1) "first"); reflexivity.
  - destruct (add_task_to_gameplan_failure Sample.timestamp_in
                (mkRequest POST_api_add_task_to_gameplan []
                           [("gameplan_task_name", "9"); ("order", "3")])
                Sample.alice_in) as (A & _).
    apply (A IntegrityError). reflexivity.
Defined.

Lemma clashes_true (x : Z) (col : GameplanTask.t -> option Z) (l : list GameplanTask.t)
      (g : GameplanTask.t) :
  In g l -> col g = Some x -> clashes (Some x) col l = true.
Proof.
  intros Hin Hc. simpl. apply existsb_exists. exists g. split; [exact Hin|].
  rewrite Hc. simpl. apply Z.eqb_refl.
Qed.

(** X9.  The gameplan's uniqueness rules refuse a request and store
    nothing: a task that is already in the gameplan cannot be added again,
    and an order that any entry already has, of this or of any other user,
    cannot be used again. *)
Theorem add_task_to_gameplan_refused (timestamp_in : string -> option Z) (r : Request)
        (w : World) (v : Value) (n : Z) (g : GameplanTask.t) :
  session w = Some v ->
  py_int (form_get r "order") = Ok n ->
  In g (gameplan_tasks (store w)) ->
  (GameplanTask.order g = Some n
   \/ exists s, form_get r "gameplan_task_name" = VStr s
                /\ int4_in s = Some (GameplanTask.task_id g)) ->
  exists e, run (add_task_to_gameplan timestamp_in r) w
            = (InternalServerError e, at_rest w).
Proof.
  intros Hs Ho Hin Hclash.
  rewrite (add_task_to_gameplan_run timestamp_in r w v n Hs Ho).
  destruct (insert_gameplan_task _ _ (store w)) as [d1 key|e d1] eqn:E;
    [|now exists e].
  exfalso. revert E. unfold insert_gameplan_task.
  destruct (negb (binds _ _)); [discriminate|].
  cbn [attr lookup String.eqb Ascii.eqb Bool.eqb].
  destruct (as_int4 (form_get r "gameplan_task_name")) as [[t|]|] eqn:Et;
    destruct (as_int4 v) as [[u|]|];
    cbn [as_int4]; destruct (int4_ok n);
    destruct (as_timestamp timestamp_in (form_get r "start_time")) as [st|];
    destruct (as_timestamp timestamp_in (form_get r "end_time")) as [en|];
    try discriminate.
  destruct Hclash as [Hord|(s & Hf & Hsid)].
  - rewrite (clashes_true n GameplanTask.order _ g Hin Hord).
    rewrite !orb_true_r. simpl. discriminate.
  - rewrite Hf, (as_int4_int4_in _ _ Hsid) in Et. inversion Et; subst t.
    assert (existsb (fun x => GameplanTask.task_id x =? GameplanTask.task_id g)
                    (gameplan_tasks (store w)) = true) as Ex.
    { apply existsb_exists. exists g. split; [exact Hin | apply Z.eqb_refl]. }
    rewrite Ex. simpl. discriminate.
Qed.

Lemma add_task_to_gameplan_refused_witness :
  exists e,
    run (add_task_to_gameplan Sample.timestamp_in
           (mkRequest POST_api_add_task_to_gameplan []
                      [("gameplan_task_name", "4"); ("order", "1")]))
        (mkWorld Sample.planned [] (Some (VInt 2)) [])
    = (InternalServerError e, mkWorld Sample.planned [] (Some (VInt 2)) []).
Proof.
  apply (add_task_to_gameplan_refused Sample.timestamp_in
           (mkRequest POST_api_add_task_to_gameplan []
                      [("gameplan_task_name", "4"); ("order", "1")])
           (mkWorld Sample.planned [] (Some (VInt 2)) []) (VInt 2) 1
           (GameplanTask.mk 2 1 (Some 1) (Some 420) (Some 425))).
  - reflexivity.
  - reflexivity.
  - simpl. auto.
  - left. reflexivity.
Defined.

(* ------------------------------------------------------------------ *)
(** ** The delete handlers as equations *)

(** A gameplan removal that names a stored entry. *)
Lemma delete_task_from_gameplan_run (id : string) (k : Z) (g : GameplanTask.t)
      (w : World) :
  int4_in id = Some k ->
  get_gameplan_task k (store w) = Some g ->
  run (delete_task_from_gameplan id) w
  = (Redirect "/dashboard",
     mkWorld (with_gameplan_tasks
                (filter (fun x => negb (GameplanTask.task_id x =? k))
                        (gameplan_tasks (store w)))
                (store w))
             [] (session w) (flashed w)).
Proof.
  intros Hid Hg.
  destruct (find_key_In GameplanTask.task_id _ _ _ Hg) as [_ Hk].
  unfold run, delete_task_from_gameplan, bind, query_get, bind, lift.
  simpl. rewrite (int4_in_bindable _ _ Hid), Hid. unfold query. simpl. rewrite Hg. simpl.
  rewrite Hk. reflexivity.
Qed.

(** A task delete that names a stored task which nothing refers to. *)
Lemma delete_task_from_task_list_run (id : string) (k : Z) (t : Task.t) (w : World) :
  int4_in id = Some k ->
  get_task k (store w) = Some t ->
  get_gameplan_task k (store w) = None ->
  (forall c, In c (tasks_categories (store w)) -> TaskCategory.task_id c <> k) ->
  run (delete_task_from_task_list id) w
  = (Redirect "/dashboard",
     mkWorld (with_tasks (filter (fun x => negb (Task.task_id x =? k)) (tasks (store w)))
                         (store w))
             [] (session w) (flashed w)).
Proof.
  intros Hid Ht Hg Hc.
  destruct (find_key_In Task.task_id _ _ _ Ht) as [_ Hk].
  unfold run, delete_task_from_task_list, bind, try_except, query_get, bind, lift.
  simpl. rewrite (int4_in_bindable _ _ Hid), Hid. unfold query. simpl. rewrite Ht. simpl.
  unfold db_session_commit. simpl.
  unfold delete_task. rewrite Hk, !existsb_key_find.
  unfold get_gameplan_task in Hg. rewrite Hg.
  destruct (find (fun y => TaskCategory.task_id y =? k) (tasks_categories (store w)))
    as [c|] eqn:E; [|reflexivity].
  apply (find_key_In TaskCategory.task_id) in E. destruct E as [E1 E2].
  exfalso. exact (Hc c E1 E2).
Qed.


Lemma find_after_filter_out {Row : Type} (key : Row -> Z) (k : Z) (rows : list Row) :
  find (fun x => key x =? k) (filter (fun x => negb (key x =? k)) rows) = None.
Proof.
  induction rows as [|x rows IH]; simpl; [reflexivity|].
  destruct (key x =? k) eqn:E; simpl; [exact IH|]. now rewrite E.
Qed.

(* ------------------------------------------------------------------ *)
(** ** Promote, list, remove *)



(** X11.  Remove, then delete.  A task that is active in the gameplan (and
    that no [tasks_categories] row refers to) can be deleted from the
    templates once its gameplan entry is removed, as the conflict message
    advises: after the two requests neither the task nor its entry is
    stored, every other row is, and nothing was flashed. *)
Theorem remove_then_delete (id : string) (k : Z) (t : Task.t) (g : GameplanTask.t)
        (w : World) :
  int4_in id = Some k ->
  get_task k (store w) = Some t ->
  get_gameplan_task k (store w) = Some g ->
  (forall c, In c (tasks_categories (store w)) -> TaskCategory.task_id c <> k) ->
  run (delete_task_from_task_list id) (snd (run (delete_task_from_gameplan id) w))
  = (Redirect "/dashboard",
     mkWorld (with_tasks
                (filter (fun x => negb (Task.task_id x =? k)) (tasks (store w)))
                (with_gameplan_tasks
                   (filter (fun x => negb (GameplanTask.task_id x =? k))
                           (gameplan_tasks (store w)))
                   (store w)))
             [] (session w) (flashed w))
  /\ get_task k (store (snd (run (delete_task_from_task_list id)
                                 (snd (run (delete_task_from_gameplan id) w))))) = None.
Proof.
  intros Hid Ht Hg Hc.
  rewrite (delete_task_from_gameplan_run id k g w Hid Hg). simpl snd.
  rewrite (delete_task_from_task_list_run id k t).
  - split; [reflexivity|]. simpl. unfold get_task. simpl.
    apply find_after_filter_out.
  - exact Hid.
  - exact Ht.
  - unfold get_gameplan_task. simpl. apply find_after_filter_out.
  - exact Hc.
Qed.

Lemma remove_then_delete_witness :
  run (delete_task_from_task_list "2")
      (snd (run (delete_task_from_gameplan "2") Sample.alice_in))
  = (Redirect "/dashboard",
     mkWorld (with_tasks [Sample.shower; Sample.stretch; Sample.journal]
                (with_gameplan_tasks
                   [GameplanTask.mk 1 1 (Some 2) (Some 430) (Some 440)] Sample.planned))
             [] (Some (VInt 1)) [])
  /\ get_task 2 (store (snd (run (delete_task_from_task_list "2")
                                 (snd (run (delete_task_from_gameplan "2")
                                           Sample.alice_in))))) = None.
Proof.
  apply (remove_then_delete "2" 2 Sample.coffee
           (GameplanTask.mk 2 1 (Some 1) (Some 420) (Some 425)) Sample.alice_in).
  - reflexivity.
  - reflexivity.
  - reflexivity.
  - simpl. intros c [<-|[]]. simpl. lia.
Defined.

(* ------------------------------------------------------------------ *)
(** ** What the dashboard and the settings view show *)

Lemma setting_value_own (k n : Z) (w : World) :
  exists v, setting_value (VInt k) n w = (Ok v, w) /\ own_setting (store w) k n v.
Proof.
  unfold setting_value. rewrite (bind_Ok _ _ _ _ _ (filter_by_int_VInt _ _ k w)).
  destruct (first (filter (fun x => UserSetting.setting_id x =? n)
                          (filter (fun x => UserSetting.user_id x =? k)
                                  (users_settings (store w))))) as [x|] eqn:E.
  - exists (VStr (UserSetting.value x)). split; [reflexivity|]. right.
    apply first_filter_Some in E. destruct E as [Hin Hn].
    apply filter_In in Hin. destruct Hin as [Hin Hk].
    apply Z.eqb_eq in Hn, Hk. exists x. auto.
  - exists VNone. split; [reflexivity|]. left. split; [reflexivity|].
    intros x Hin Hk Hn.
    assert (In x (filter (fun x => UserSetting.user_id x =? k) (users_settings (store w))))
      as Hin' by (apply filter_In; split; [exact Hin | now apply Z.eqb_eq]).
    pose proof (first_filter_None _ _ E x Hin') as C. cbv beta in C.
    apply Z.eqb_neq in C. contradiction.
Qed.

(** The dashboard of a logged-in stored user, as an equation. *)
Lemma dashboard_run (k : Z) (u : User.t) (w : World) :
  session w = Some (VInt k) -> get_user k (store w) = Some u ->
  exists priority intention notes,
    run show_user_tasks_and_gameplan w
    = (RenderTemplate "dashboard.html"
         [("username", CValue (VStr (User.username u)));
          ("gameplan_tasks",
           CGameplanTasks
             (order_by (fun a b => order_leb (GameplanTask.order a) (GameplanTask.order b))
                       (filter (fun g => GameplanTask.user_id g =? k)
                               (gameplan_tasks (store w)))));
          ("tasks", CTasks (filter (fun t => Task.user_id t =? k) (tasks (store w))));
          ("priority", CValue priority); ("intention", CValue intention);
          ("notes_reminders", CValue notes)],
       at_rest w)
    /\ own_setting (store w) k 1 priority
    /\ own_setting (store w) k 9 intention
    /\ own_setting (store w) k 10 notes.
Proof.
  intros Hsess Hu.
  destruct (setting_value_own k 1 (at_rest w)) as (v1 & H1 & O1).
  destruct (setting_value_own k 9 (at_rest w)) as (v9 & H9 & O9).
  destruct (setting_value_own k 10 (at_rest w)) as (v10 & H10 & O10).
  exists v1, v9, v10. split; [|now repeat split].
  unfold run, show_user_tasks_and_gameplan.
  rewrite (bind_Ok session_getitem_user _ (at_rest w) (at_rest w) (VInt k))
    by (unfold session_getitem_user; simpl; now rewrite Hsess).
  rewrite (bind_Ok (query_get get_user (VInt k)) _ (at_rest w) (at_rest w) (Some u))
    by (unfold query_get, bind, lift, query; simpl; now rewrite Hu).
  rewrite (bind_Ok (username_of (Some u)) _ (at_rest w) (at_rest w)
                   (VStr (User.username u))) by reflexivity.
  assert (gameplan_tasks_of (VInt k) (at_rest w)
          = (Ok (order_by (fun a b => order_leb (GameplanTask.order a)
                                                (GameplanTask.order b))
                          (filter (fun g => GameplanTask.user_id g =? k)
                                  (gameplan_tasks (store w)))), at_rest w)) as Hq
    by reflexivity.
  rewrite (bind_Ok _ _ _ _ _ Hq).
  rewrite (bind_Ok _ _ _ _ _ (filter_by_int_VInt Task.user_id tasks k (at_rest w))).
  rewrite (bind_Ok _ _ _ _ _ H1).
  rewrite (bind_Ok _ _ _ _ _ H9).
  rewrite (bind_Ok _ _ _ _ _ H10).
  reflexivity.
Qed.

(** X12.  The dashboard shows the logged-in user's own data only: the
    user's name, the tasks and the gameplan entries whose [user_id] is the
    session's, and for priority, intention and notes (settings 1, 9 and 10)
    the value of one of the user's own [UserSetting] rows, or [None] when
    the user has none for that setting. *)
Theorem dashboard_shows_own_data (k : Z) (u : User.t) (w : World) :
  session w = Some (VInt k) -> get_user k (store w) = Some u ->
  exists listed mine priority intention notes,
    fst (run show_user_tasks_and_gameplan w)
    = RenderTemplate "dashboard.html"
        [("username", CValue (VStr (User.username u)));
         ("gameplan_tasks", CGameplanTasks listed); ("tasks", CTasks mine);
         ("priority", CValue priority); ("intention", CValue intention);
         ("notes_reminders", CValue notes)]
    /\ User.user_id u = k
    /\ Forall (fun g => GameplanTask.user_id g = k /\ In g (gameplan_tasks (store w)))
              listed
    /\ mine = filter (fun t => Task.user_id t =? k) (tasks (store w))
    /\ Forall (fun t => Task.user_id t = k) mine
    /\ own_setting (store w) k 1 priority
    /\ own_setting (store w) k 9 intention
    /\ own_setting (store w) k 10 notes.
Proof.
  intros Hsess Hu.
  destruct (dashboard_run k u w Hsess Hu) as (p & i & nr & Hrun & O1 & O9 & O10).
  eexists. eexists. exists p, i, nr.
  split; [rewrite Hrun; reflexivity|].
  split; [exact (proj2 (find_key_In User.user_id _ _ _ Hu))|].
  split; [|split; [reflexivity | split; [|now repeat split]]].
  - apply Forall_forall. intros g Hg.
    eapply Permutation_in in Hg;
      [|symmetry; apply order_by_Permutation].
    apply filter_In in Hg. destruct Hg as [Hin Hk]. apply Z.eqb_eq in Hk. now split.
  - apply Forall_forall. intros t Ht. apply filter_In in Ht.
    destruct Ht as [_ Hk]. now apply Z.eqb_eq in Hk.
Qed.

Lemma dashboard_shows_own_data_witness :
  exists listed mine priority intention notes,
    fst (run show_user_tasks_and_gameplan Sample.alice_in)
    = RenderTemplate "dashboard.html"
        [("username", CValue (VStr "alice"));
         ("gameplan_tasks", CGameplanTasks listed); ("tasks", CTasks mine);
         ("priority", CValue priority); ("intention", CValue intention);
         ("notes_reminders", CValue notes)]
    /\ User.user_id Sample.alice = 1
    /\ Forall (fun g => GameplanTask.user_id g = 1
                        /\ In g (gameplan_tasks (store Sample.alice_in))) listed
    /\ mine = filter (fun t => Task.user_id t =? 1) (tasks (store Sample.alice_in))
    /\ Forall (fun t => Task.user_id t = 1) mine
    /\ own_setting (store Sample.alice_in) 1 1 priority
    /\ own_setting (store Sample.alice_in) 1 9 intention
    /\ own_setting (store Sample.alice_in) 1 10 notes.
Proof.
  apply (dashboard_shows_own_data 1 Sample.alice Sample.alice_in); reflexivity.
Defined.

Example dashboard_of_alice :
  fst (run show_user_tasks_and_gameplan Sample.alice_in)
  = RenderTemplate "dashboard.html"
      [("username", CValue (VStr "alice"));
       ("gameplan_tasks",
        CGameplanTasks [GameplanTask.mk 2 1 (Some 1) (Some 420) (Some 425);
                        GameplanTask.mk 1 1 (Some 2) (Some 430) (Some 440)]);
       ("tasks", CTasks [Sample.shower; Sample.coffee; Sample.stretch; Sample.journal]);
       ("priority", CValue (VStr "ship it")); ("intention", CValue VNone);
       ("notes_reminders", CValue VNone)].
Proof. reflexivity. Qed.

(** A listing ordered by a boolean test is sorted for what the test decides. *)
Lemma sorted_by_test {Row : Type} (test : Row -> Row -> bool) (le : Row -> Row -> Prop)
      (rows : list Row) :
  (forall a b, test a b = true -> le a b) ->
  Sorted (fun a b => test a b = true) rows -> Sorted le rows.
Proof.
  intros Hle Hs. induction Hs as [|a rows Hs IH Hd]; constructor; [exact IH|].
  destruct Hd as [|b rows' Hab]; constructor. now apply Hle.
Qed.

(** X13.  The settings view of a logged-in stored user renders the user's
    name and the user's [UserSetting] rows, all of them and each once, in
    ascending [user_setting_id]. *)
Theorem settings_view_lists_in_id_order (k : Z) (u : User.t) (w : World) :
  session w = Some (VInt k) -> k <> 0 -> get_user k (store w) = Some u ->
  exists listed,
    run show_user_settings w
    = (RenderTemplate "user_settings.html"
         [("username", CValue (VStr (User.username u)));
          ("user_settings", CUserSettings listed)],
       at_rest w)
    /\ Permutation listed
         (filter (fun x => UserSetting.user_id x =? k) (users_settings (store w)))
    /\ StronglySorted user_setting_id_le listed.
Proof.
  intros Hsess Hk Hu.
  exists (order_by (fun a b => UserSetting.user_setting_id a <=? UserSetting.user_setting_id b)
                   (filter (fun x => UserSetting.user_id x =? k)
                           (users_settings (store w)))).
  split; [|split].
  - unfold run, show_user_settings.
    rewrite (bind_Ok session_getitem_user _ (at_rest w) (at_rest w) (VInt k))
      by (unfold session_getitem_user; simpl; now rewrite Hsess).
    cbv beta. unfold truthy. apply Z.eqb_neq in Hk. rewrite Hk. cbn [negb].
    rewrite (bind_Ok (query_get get_user (VInt k)) _ (at_rest w) (at_rest w) (Some u))
      by (unfold query_get, bind, lift, query; simpl; now rewrite Hu).
    rewrite (bind_Ok (username_of (Some u)) _ (at_rest w) (at_rest w)
                     (VStr (User.username u))) by reflexivity.
    rewrite (bind_Ok _ _ _ _ _ (filter_by_int_VInt UserSetting.user_id users_settings k
                                  (at_rest w))).
    reflexivity.
  - symmetry. apply order_by_Permutation.
  - apply Sorted_StronglySorted.
    + unfold Relations_1.Transitive, user_setting_id_le. intros a b c. lia.
    + apply (sorted_by_test
               (fun a b => UserSetting.user_setting_id a <=? UserSetting.user_setting_id b)).
      * intros a b H. unfold user_setting_id_le. now apply Z.leb_le.
      * apply order_by_Sorted. intros a b.
        destruct (Z.leb_spec (UserSetting.user_setting_id a)
                             (UserSetting.user_setting_id b)); [now left|right].
        apply Z.leb_le. lia.
Qed.

Lemma settings_view_lists_in_id_order_witness :
  exists listed,
    run show_user_settings Sample.alice_in
    = (RenderTemplate "user_settings.html"
         [("username", CValue (VStr "alice")); ("user_settings", CUserSettings listed)],
       Sample.alice_in)
    /\ Permutation listed
         (filter (fun x => UserSetting.user_id x =? 1) (users_settings Sample.planned))
    /\ StronglySorted user_setting_id_le listed.
Proof.
  apply (settings_view_lists_in_id_order 1 Sample.alice Sample.alice_in).
  - reflexivity.
  - lia.
  - reflexivity.
Defined.

(** X14.  A session that holds the id of a user who is not stored: the
    settings view and the dashboard end as a server error
    ([AttributeError] at [user.username]), and the task list still renders,
    with whatever tasks carry that user id. *)
Theorem views_of_unknown_user (k : Z) (w : World) :
  session w = Some (VInt k) -> k <> 0 -> get_user k (store w) = None ->
  run show_user_settings w = (InternalServerError AttributeError, at_rest w)
  /\ run show_user_tasks_and_gameplan w = (InternalServerError AttributeError, at_rest w)
  /\ run task_list w
     = (RenderTemplate "dashboard.html"
          [("tasks", CTasks (filter (fun t => Task.user_id t =? k) (tasks (store w))))],
        at_rest w).
Proof.
  intros Hsess Hk Hu. apply Z.eqb_neq in Hk.
  split; [|split].
  - unfold run, show_user_settings, bind, session_getitem_user. simpl.
    rewrite Hsess. simpl. rewrite Hk. simpl. unfold query. simpl. rewrite Hu.
    reflexivity.
  - unfold run, show_user_tasks_and_gameplan, bind, session_getitem_user. simpl.
    rewrite Hsess. simpl. unfold query. simpl. rewrite Hu. reflexivity.
  - unfold run, task_list, bind, session_getitem_user. simpl.
    rewrite Hsess. reflexivity.
Qed.

Lemma views_of_unknown_user_witness :
  run show_user_settings Sample.stale = (InternalServerError AttributeError, Sample.stale)
  /\ run show_user_tasks_and_gameplan Sample.stale
     = (InternalServerError AttributeError, Sample.stale)
  /\ run task_list Sample.stale
     = (RenderTemplate "dashboard.html" [("tasks", CTasks [])], Sample.stale).
Proof.
  apply (views_of_unknown_user 7 Sample.stale).
  - reflexivity.
  - lia.
  - reflexivity.
Defined.

(* ------------------------------------------------------------------ *)
(** ** Updating a setting, again *)

(** A refused update leaves the store it was given. *)
Lemma update_user_setting_value_Failed (row : UserSetting.t) (v : Value) (d d' : DB)
      (e : Exc) :
  update_user_setting_value row v d = Failed e d' -> d' = d.
Proof.
  unfold update_user_setting_value.
  destruct (py_eq _ v); [discriminate|].
  destruct (as_varchar 100 v) as [[s|]|]; intro H; inversion H; reflexivity.
Qed.

(** The whole of an update that names a stored setting, by cases on what
    the store answers to the changed value. *)
Lemma update_user_setting_run (id : string) (k : Z) (row : UserSetting.t)
      (r : Request) (w : World) :
  int4_in id = Some k ->
  unique_user_setting_ids (store w) ->
  In row (users_settings (store w)) ->
  UserSetting.user_setting_id row = k ->
  run (update_user_setting id r) w
  = match update_user_setting_value row (values_get r id) (store w) with
    | Flushed d _ => (Redirect "/settings", mkWorld d [] (session w) (flashed w))
    | Failed e _ => (InternalServerError e, at_rest w)
    end.
Proof.
  intros Hid ND Hin Hk.
  destruct (select_by_key UserSetting.user_setting_id k _ row ND Hin Hk) as [Hsel _].
  unfold run, update_user_setting, bind, filter_by_int, bind, lift.
  rewrite (as_key_int4_in _ _ Hid). unfold query.
  cbn -[update_user_setting_value]. rewrite Hsel.
  cbn -[update_user_setting_value]. unfold db_session_commit.
  cbn -[update_user_setting_value].
  destruct (update_user_setting_value row (values_get r id) (store w))
    as [d1 key|e d1] eqn:E; cbn; [reflexivity|].
  apply update_user_setting_value_Failed in E. subst d1.
  rewrite rolled_back_same. reflexivity.
Qed.

(** A value the driver binds and the column holds uncut. *)
Lemma update_user_setting_value_fits (row : UserSetting.t) (s : string) (d : DB) :
  unique_user_setting_ids d -> In row (users_settings d) ->
  has_nul s = false -> (String.length s <= 100)%nat ->
  update_user_setting_value row (VStr s) d
  = Flushed (with_users_settings
               (map (set_value_where (UserSetting.user_setting_id row) s)
                    (users_settings d)) d) VNone.
Proof.
  intros ND Hin Hb Hlen. unfold update_user_setting_value.
  rewrite (as_varchar_fits 100 s Hb Hlen). cbn [py_eq].
  destruct (String.eqb_spec (UserSetting.value row) s) as [E|N]; [|reflexivity].
  subst s. rewrite (set_value_where_same _ row _ ND Hin eq_refl).
  now rewrite with_users_settings_same.
Qed.

Lemma set_value_where_twice (k : Z) (s : string) (l : list UserSetting.t) :
  map (set_value_where k s) (map (set_value_where k s) l) = map (set_value_where k s) l.
Proof.
  rewrite map_map. apply map_ext. intro x. unfold set_value_where.
  destruct (UserSetting.user_setting_id x =? k) eqn:E; simpl; rewrite E; reflexivity.
Qed.

(** X15.  Updating a setting is idempotent, for a value the driver binds (no
    NUL) and of at most 100 characters: sending the same update twice gives
    the same answer and leaves the same world as sending it once, and after
    it the setting holds the submitted value. *)
Theorem update_user_setting_idempotent (id s : string) (k : Z) (row : UserSetting.t)
        (r : Request) (w : World) :
  int4_in id = Some k ->
  unique_user_setting_ids (store w) ->
  In row (users_settings (store w)) ->
  UserSetting.user_setting_id row = k ->
  values_get r id = VStr s -> has_nul s = false -> (String.length s <= 100)%nat ->
  run (update_user_setting id r) (snd (run (update_user_setting id r) w))
  = run (update_user_setting id r) w
  /\ In (UserSetting.mk k (UserSetting.user_id row) (UserSetting.setting_id row) s)
        (users_settings (store (snd (run (update_user_setting id r) w)))).
Proof.
  intros Hid ND Hin Hk Hv Hb Hlen.
  rewrite (update_user_setting_run id k row r w Hid ND Hin Hk), Hv.
  rewrite (update_user_setting_value_fits row s _ ND Hin Hb Hlen), Hk. simpl snd.
  set (w1 := mkWorld (with_users_settings
                        (map (set_value_where k s) (users_settings (store w))) (store w))
                     [] (session w) (flashed w)).
  assert (In (UserSetting.mk k (UserSetting.user_id row) (UserSetting.setting_id row) s)
             (users_settings (store w1))) as Hin'.
  { apply in_map_iff. exists row. split; [|exact Hin].
    unfold set_value_where. rewrite Hk, Z.eqb_refl. reflexivity. }
  assert (unique_user_setting_ids (store w1)) as ND'.
  { unfold unique_user_setting_ids. simpl. now rewrite set_value_where_ids. }
  split; [|exact Hin'].
  rewrite (update_user_setting_run id k
             (UserSetting.mk k (UserSetting.user_id row) (UserSetting.setting_id row) s)
             r w1 Hid ND' Hin' eq_refl), Hv.
  rewrite (update_user_setting_value_fits _ s _ ND' Hin' Hb Hlen).
  unfold w1. simpl. rewrite set_value_where_twice. reflexivity.
Qed.

Lemma update_user_setting_idempotent_witness :
  run (update_user_setting "1" (Demo.set_priority "rest"))
      (snd (run (update_user_setting "1" (Demo.set_priority "rest")) Sample.alice_in))
  = run (update_user_setting "1" (Demo.set_priority "rest")) Sample.alice_in
  /\ In (UserSetting.mk 1 1 1 "rest")
        (users_settings
           (store (snd (run (update_user_setting "1" (Demo.set_priority "rest"))
                            Sample.alice_in)))).
Proof.
  apply (update_user_setting_idempotent "1" "rest" 1 (UserSetting.mk 1 1 1 "ship it")
           (Demo.set_priority "rest") Sample.alice_in).
  - reflexivity.
  - unfold unique_user_setting_ids. simpl. repeat constructor; simpl; intuition.
  - simpl. auto.
  - reflexivity.
  - reflexivity.
  - reflexivity.
  - simpl. lia.
Defined.

(** X16.  The limits of the update handler, for a stored setting whose own
    value is a stored text (without NUL, within the column's 100
    characters).  An id that no [UserSetting] has ends in [NoResultFound]
    (from [.one()]).  A value of more than 100 characters is refused with
    [DataError] when a character other than a blank lies beyond the
    hundredth, and is stored cut to its first 100 characters when only
    blanks do.  A value holding NUL is refused by the driver with
    [ValueError].  What is refused stores nothing. *)
Theorem update_user_setting_refused (id : string) (k : Z) (r : Request) (w : World) :
  int4_in id = Some k ->
  ((forall x, In x (users_settings (store w)) -> UserSetting.user_setting_id x <> k) ->
   run (update_user_setting id r) w = (InternalServerError NoResultFound, at_rest w))
  /\ (forall row s,
         unique_user_setting_ids (store w) ->
         In row (users_settings (store w)) ->
         UserSetting.user_setting_id row = k ->
         (String.length (UserSetting.value row) <= 100)%nat ->
         has_nul (UserSetting.value row) = false ->
         values_get r id = VStr s ->
         (has_nul s = false -> (100 < String.length s)%nat ->
          all_blank (text_drop 100 s) = false ->
          run (update_user_setting id r) w = (InternalServerError DataError, at_rest w))
         /\ (has_nul s = false -> (100 < String.length s)%nat ->
             all_blank (text_drop 100 s) = true ->
             run (update_user_setting id r) w
             = (Redirect "/settings",
                mkWorld (with_users_settings
                           (map (set_value_where k (text_take 100 s))
                                (users_settings (store w))) (store w))
                        [] (session w) (flashed w)))
         /\ (has_nul s = true ->
             run (update_user_setting id r) w
             = (InternalServerError ValueError, at_rest w))).
Proof.
  intro Hid. split.
  - intro Hnone.
    assert (filter (fun x => UserSetting.user_setting_id x =? k) (users_settings (store w))
            = []) as Hf.
    { destruct (filter _ (users_settings (store w))) as [|x l] eqn:E; [reflexivity|].
      exfalso.
      assert (In x (filter (fun x => UserSetting.user_setting_id x =? k)
                           (users_settings (store w)))) as Hx by (rewrite E; now left).
      apply filter_In in Hx. destruct Hx as [Hx Hxk]. apply Z.eqb_eq in Hxk.
      exact (Hnone x Hx Hxk). }
    unfold run, update_user_setting, bind, filter_by_int, bind, lift.
    simpl. rewrite (int4_in_bindable _ _ Hid), Hid. unfold query. simpl. rewrite Hf. reflexivity.
  - intros row s ND Hin Hk Hstored Hbs Hv.
    rewrite (update_user_setting_run id k row r w Hid ND Hin Hk), Hv.
    unfold update_user_setting_value. cbn [py_eq as_varchar].
    split; [|split].
    + intros Hb Hlen Hx.
      destruct (String.eqb_spec (UserSetting.value row) s) as [E|N]; [subst s; lia|].
      apply Nat.leb_gt in Hlen. rewrite Hb, Hlen, Hx. reflexivity.
    + intros Hb Hlen Hx.
      destruct (String.eqb_spec (UserSetting.value row) s) as [E|N]; [subst s; lia|].
      apply Nat.leb_gt in Hlen. rewrite Hb, Hlen, Hx, Hk. reflexivity.
    + intros Hb.
      destruct (String.eqb_spec (UserSetting.value row) s) as [E|N]; [congruence|].
      rewrite Hb. reflexivity.
Qed.

Lemma update_user_setting_refused_witness :
  run (update_user_setting "5" (Demo.set_priority "rest")) Sample.alice_in
  = (InternalServerError NoResultFound, Sample.alice_in)
  /\ run (update_user_setting "1" (Demo.set_priority Demo.hundred_and_letter))
         Sample.alice_in
     = (InternalServerError DataError, Sample.alice_in)
  /\ run (update_user_setting "1" (Demo.set_priority Demo.hundred_and_blank))
         Sample.alice_in
     = (Redirect "/settings",
        mkWorld (with_users_settings [UserSetting.mk 1 1 1 Demo.hundred] Sample.planned)
                [] (Some (VInt 1)) [])
  /\ run (update_user_setting "1" (Demo.set_priority Demo.nul_name)) Sample.alice_in
     = (InternalServerError ValueError, Sample.alice_in).
Proof.
  assert (unique_user_setting_ids Sample.planned) as ND.
  { unfold unique_user_setting_ids. simpl. repeat constructor; simpl; intuition. }
  assert (In (UserSetting.mk 1 1 1 "ship it") (users_settings Sample.planned)) as Hin.
  { simpl. auto. }
  split; [|split; [|split]].
  - destruct (update_user_setting_refused "5" 5 (Demo.set_priority "rest")
                Sample.alice_in eq_refl) as [A _].
    apply A. simpl. intros x [<-|[]]. simpl. lia.
  - destruct (update_user_setting_refused "1" 1
                (Demo.set_priority Demo.hundred_and_letter)
                Sample.alice_in eq_refl) as [_ B].
    destruct (B (UserSetting.mk 1 1 1 "ship it") Demo.hundred_and_letter ND Hin eq_refl)
      as (B1 & _); [simpl; lia | reflexivity | reflexivity |].
    apply B1; [reflexivity | vm_compute; lia | reflexivity].
  - destruct (update_user_setting_refused "1" 1
                (Demo.set_priority Demo.hundred_and_blank)
                Sample.alice_in eq_refl) as [_ B].
    destruct (B (UserSetting.mk 1 1 1 "ship it") Demo.hundred_and_blank ND Hin eq_refl)
      as (_ & B2 & _); [simpl; lia | reflexivity | reflexivity |].
    apply B2; [reflexivity | vm_compute; lia | reflexivity].
  - destruct (update_user_setting_refused "1" 1 (Demo.set_priority Demo.nul_name)
                Sample.alice_in eq_refl) as [_ B].
    destruct (B (UserSetting.mk 1 1 1 "ship it") Demo.nul_name ND Hin eq_refl)
      as (_ & _ & B3); [simpl; lia | reflexivity | reflexivity |].
    apply B3. reflexivity.
Defined.

(** X17.  A path id that the store does not read as an integer is refused
    before anything is looked up: deleting a task, removing a gameplan
    entry and updating a setting all end as a server error, [DataError]
    from the store, or [ValueError] from the driver when the id holds NUL;
    the [except AssertionError] of the task delete catches neither, and
    nothing is changed. *)
Theorem malformed_id_is_refused (id : string) (r : Request) (w : World) :
  int4_in id = None ->
  run (delete_task_from_task_list id) w
  = (InternalServerError (if has_nul id then ValueError else DataError), at_rest w)
  /\ run (delete_task_from_gameplan id) w
     = (InternalServerError (if has_nul id then ValueError else DataError), at_rest w)
  /\ run (update_user_setting id r) w
     = (InternalServerError (if has_nul id then ValueError else DataError), at_rest w).
Proof.
  intro Hid. split; [|split].
  - unfold run, delete_task_from_task_list, bind, try_except, query_get, bind, lift.
    simpl. rewrite Hid. destruct (has_nul id); reflexivity.
  - unfold run, delete_task_from_gameplan, bind, query_get, bind, lift.
    simpl. rewrite Hid. destruct (has_nul id); reflexivity.
  - unfold run, update_user_setting, bind, filter_by_int, bind, lift.
    simpl. rewrite Hid. destruct (has_nul id); reflexivity.
Qed.

Lemma malformed_id_is_refused_witness :
  run (delete_task_from_task_list "two") Sample.alice_in
  = (InternalServerError DataError, Sample.alice_in)
  /\ run (delete_task_from_gameplan "two") Sample.alice_in
     = (InternalServerError DataError, Sample.alice_in)
  /\ run (update_user_setting "two" (Demo.set_priority "rest")) Sample.alice_in
     = (InternalServerError DataError, Sample.alice_in).
Proof.
  apply (malformed_id_is_refused "two" (Demo.set_priority "rest") Sample.alice_in).
  reflexivity.
Defined.

Example hexadecimal_id_is_read :
  run (delete_task_from_gameplan "0x2") Sample.alice_in
  = run (delete_task_from_gameplan "2") Sample.alice_in.
Proof. reflexivity. Qed.

Example nul_id_is_ValueError :
  run (delete_task_from_task_list Demo.nul_name) Sample.alice_in
  = (InternalServerError ValueError, Sample.alice_in).
Proof. reflexivity. Qed.

(* ------------------------------------------------------------------ *)
(** ** [User.get_user_by_username] *)

Lemma select_by_username (rows : list User.t) (u : User.t) :
  NoDup (map User.username rows) -> In u rows ->
  filter (fun x => String.eqb (User.username x) (User.username u)) rows = [u].
Proof.
  intros Huniq Hin. induction rows as [|r rows IH]; [destruct Hin|].
  simpl in Huniq. apply NoDup_cons_iff in Huniq. destruct Huniq as [Hfresh Huniq].
  simpl. destruct Hin as [->|Hin].
  - rewrite String.eqb_refl. f_equal.
    destruct (filter (fun x => String.eqb (User.username x) (User.username u)) rows)
      as [|x l] eqn:E; [reflexivity|].
    exfalso. assert (In x (filter (fun x => String.eqb (User.username x)
                                               (User.username u)) rows)) as Hx
      by (rewrite E; now left).
    apply filter_In in Hx. destruct Hx as [Hx Heq]. apply String.eqb_eq in Heq.
    apply Hfresh. rewrite <- Heq. now apply in_map.
  - destruct (String.eqb_spec (User.username r) (User.username u)) as [E|N].
    + exfalso. apply Hfresh. rewrite E. now apply in_map.
    + now apply IH.
Qed.

(** X18.  [User.get_user_by_username], over usernames that are unique as
    declared: for a name the driver binds (a text without NUL) it returns
    the stored user of that name and raises [NoResultFound] when no stored
    user has it, as it does for [None]; a name holding NUL is refused by the
    driver with [ValueError]; it never raises [MultipleResultsFound], and it
    changes nothing. *)
Theorem get_user_by_username_one (w : World) :
  unique_usernames (store w) ->
  (forall u, In u (users (store w)) -> has_nul (User.username u) = false ->
             get_user_by_username (VStr (User.username u)) w = (Ok u, w))
  /\ (forall s, has_nul s = false ->
                (forall u, In u (users (store w)) -> User.username u <> s) ->
                get_user_by_username (VStr s) w = (Raise NoResultFound, w))
  /\ get_user_by_username VNone w = (Raise NoResultFound, w)
  /\ (forall s, has_nul s = true ->
                get_user_by_username (VStr s) w = (Raise ValueError, w))
  /\ (forall v, fst (get_user_by_username v w) <> Raise MultipleResultsFound).
Proof.
  intro ND.
  split; [|split; [|split; [|split]]].
  - intros u Hin Hb. unfold get_user_by_username, bind, users_by_username, query.
    rewrite Hb. simpl.
    rewrite (select_by_username _ u ND Hin). reflexivity.
  - intros s Hb Hno. unfold get_user_by_username, bind, users_by_username, query.
    rewrite Hb. simpl.
    destruct (filter (fun x => String.eqb (User.username x) s) (users (store w)))
      as [|x l] eqn:E; [reflexivity|].
    exfalso. assert (In x (filter (fun x => String.eqb (User.username x) s)
                                  (users (store w)))) as Hx by (rewrite E; now left).
    apply filter_In in Hx. destruct Hx as [Hx Heq]. apply String.eqb_eq in Heq.
    exact (Hno x Hx Heq).
  - reflexivity.
  - intros s Hb. unfold get_user_by_username, bind, users_by_username.
    rewrite Hb. reflexivity.
  - intros [| z | s]; try (simpl; discriminate).
    unfold get_user_by_username, bind, users_by_username, query.
    destruct (has_nul s); simpl; [discriminate|].
    destruct (filter (fun x => String.eqb (User.username x) s) (users (store w)))
      as [|x l] eqn:E; [simpl; discriminate|].
    assert (In x (filter (fun x => String.eqb (User.username x) s)
                         (users (store w)))) as Hx by (rewrite E; now left).
    apply filter_In in Hx. destruct Hx as [Hx Heq]. apply String.eqb_eq in Heq.
    subst s. rewrite (select_by_username _ x ND Hx) in E. inversion E. subst l.
    simpl. discriminate.
Qed.

Lemma get_user_by_username_one_witness :
  get_user_by_username (VStr "bob") Sample.alice_in = (Ok Sample.bob, Sample.alice_in)
  /\ get_user_by_username (VStr "carol") Sample.alice_in
     = (Raise NoResultFound, Sample.alice_in)
  /\ get_user_by_username (VStr Demo.nul_name) Sample.alice_in
     = (Raise ValueError, Sample.alice_in).
Proof.
  assert (unique_usernames (store Sample.alice_in)) as ND.
  { unfold unique_usernames. simpl. repeat constructor; simpl.
    - intros [C|[]]. discriminate C.
    - intros []. }
  destruct (get_user_by_username_one Sample.alice_in ND) as (A & B & _ & C & _).
  split; [|split].
  - apply (A Sample.bob); [simpl; auto | reflexivity].
  - apply (B "carol"); [reflexivity|]. intros u [<-|[<-|[]]]; discriminate.
  - apply (C Demo.nul_name). reflexivity.
Defined.

Example get_user_by_username_two_rows :
  fst (get_user_by_username (VStr "alice")
         (fresh (with_users [Sample.alice; User.mk 5 "alice" "pw5" None None]
                            Sample.empty)))
  = Raise MultipleResultsFound.
Proof. reflexivity. Qed.

(* ------------------------------------------------------------------ *)
(** ** What no request does to the store *)

Section Unreached.

(** Two inserts are never reached: [Task(...)] and
    [setting.setting_default_value] raise before them.  The handlers are
    stable for any relation that the five remaining changes respect. *)
Variable R : DB -> DB -> Prop.
Hypothesis R_refl : forall d, R d d.
Hypothesis R_trans : forall a b c, R a b -> R b c -> R a c.
Hypothesis R_rolled_back : forall before d, R before (rolled_back before d).

Variable timestamp_in : string -> option Z.
Hypothesis R_insert_user : forall o, respects R (insert_user o).
Hypothesis R_insert_gameplan_task :
  forall o, respects R (insert_gameplan_task timestamp_in o).
Hypothesis R_delete_task : forall t, respects R (delete_task t).
Hypothesis R_delete_gameplan_task : forall g, respects R (delete_gameplan_task g).
Hypothesis R_update_user_setting_value :
  forall row v, respects R (update_user_setting_value row v).

Lemma quiet_stable {A : Type} (m : M A) : quiet m -> stable R m.
Proof.
  intros Hq w Hc. rewrite (Hq w). repeat split; [apply R_refl | exact Hc].
Qed.

Lemma quiet_add_new_task (r : Request) : quiet (add_new_task r).
Proof.
  intro w. unfold add_new_task, bind, session_getitem_user.
  destruct (session w); reflexivity.
Qed.

Lemma stable_registration_unreached (r : Request) :
  stable R (execute_user_registration r).
Proof.
  unfold execute_user_registration.
  destruct (negb _).
  - apply (stable_bind R R_trans); [apply (stable_flash R R_refl) | intro].
    apply (stable_redirect R R_refl).
  - apply (stable_bind R R_trans); [apply (stable_lift R R_refl) | intro user].
    apply (stable_bind R R_trans);
      [apply (stable_db_session_add R R_refl), R_insert_user | intro].
    apply (stable_bind R R_trans);
      [apply (stable_db_session_commit R R_refl R_trans R_rolled_back) | intro keys].
    apply (stable_bind R R_trans); [apply (stable_query R R_refl) | intro catalog].
    apply (stable_bind R R_trans).
    + apply (stable_for_each R R_refl R_trans). intro setting.
      apply quiet_stable. intro w. reflexivity.
    + intro. apply (stable_bind R R_trans); [apply (stable_flash R R_refl) | intro].
      apply (stable_redirect R R_refl).
Qed.

Lemma dispatch_stable_unreached (r : Request) :
  route r <> POST_login -> route r <> GET_logout ->
  stable R (dispatch timestamp_in r).
Proof.
  intros Hl Ho. unfold dispatch. destruct (route r); try congruence.
  - apply (stable_show_index R R_refl R_trans).
  - apply (stable_display_registration_form R R_refl).
  - apply stable_registration_unreached.
  - apply (stable_task_list R R_refl R_trans).
  - apply quiet_stable, quiet_add_new_task.
  - apply (stable_delete_task_from_task_list R R_refl R_trans R_rolled_back R_delete_task).
  - apply (stable_show_user_settings R R_refl R_trans).
  - apply (stable_update_user_setting R R_refl R_trans R_rolled_back
             R_update_user_setting_value).
  - apply (stable_show_user_tasks_and_gameplan R R_refl R_trans).
  - apply (stable_add_task_to_gameplan R R_refl R_trans R_rolled_back timestamp_in
             R_insert_gameplan_task).
  - apply (stable_delete_task_from_gameplan R R_refl R_trans R_rolled_back
             R_delete_gameplan_task).
  - apply (stable_display_about_page R R_refl).
Qed.

Lemma serve_within (r : Request) (w : World) :
  R (store w) (store (snd (serve timestamp_in r w))).
Proof.
  destruct (route r) eqn:Hr;
    try (assert (route r <> POST_login) as N1 by congruence;
         assert (route r <> GET_logout) as N2 by congruence;
         pose proof (dispatch_stable_unreached r N1 N2 (at_rest w)
                       (Forall_nil _)) as (_ & Hst & _);
         unfold serve, run;
         destruct (dispatch timestamp_in r (at_rest w)) as [o w']; exact Hst).
  - unfold serve, dispatch. rewrite Hr.
    destruct (login_outcome r w) as [Hst _]. rewrite Hst. apply R_refl.
  - unfold serve, dispatch. rewrite Hr. apply R_refl.
Qed.

End Unreached.

Lemma filter_all {Row : Type} (rows : list Row) : filter (fun _ => true) rows = rows.
Proof. induction rows as [|x rows IH]; simpl; [reflexivity | now rewrite IH]. Qed.

Lemma filter_then_filter {Row : Type} (p q : Row -> bool) (rows : list Row) :
  filter q (filter p rows) = filter (fun x => p x && q x) rows.
Proof.
  induction rows as [|x rows IH]; simpl; [reflexivity|].
  destruct (p x); simpl; [destruct (q x); now rewrite IH | exact IH].
Qed.

Lemma frame_refl (d : DB) : frame d d.
Proof.
  unfold frame.
  split; [reflexivity|]. split; [reflexivity|]. split; [reflexivity|].
  split; [exists (fun _ => true); now rewrite filter_all|].
  split; [reflexivity | apply users_grow_refl].
Qed.

Lemma frame_trans (a b c : DB) : frame a b -> frame b c -> frame a c.
Proof.
  intros (S1 & C1 & T1 & (k1 & K1) & P1 & U1) (S2 & C2 & T2 & (k2 & K2) & P2 & U2).
  unfold frame.
  split; [congruence|]. split; [congruence|]. split; [congruence|].
  split; [exists (fun x => k1 x && k2 x); rewrite K2, K1; apply filter_then_filter|].
  split; [congruence | eapply users_grow_trans; eassumption].
Qed.

Lemma frame_rolled_back (before d : DB) : frame before (rolled_back before d).
Proof.
  unfold frame. simpl.
  split; [reflexivity|]. split; [reflexivity|]. split; [reflexivity|].
  split; [exists (fun _ => true); now rewrite filter_all|].
  split; [reflexivity | apply users_grow_rolled_back].
Qed.

(** A change that touches neither catalogs, tasks nor settings rows. *)
Lemma frame_when_same (d d' : DB) :
  settings d' = settings d -> categories d' = categories d ->
  tasks_categories d' = tasks_categories d -> tasks d' = tasks d ->
  users_settings d' = users_settings d -> users_grow d d' ->
  frame d d'.
Proof.
  intros S C T K P U. unfold frame.
  split; [exact S|]. split; [exact C|]. split; [exact T|].
  split; [exists (fun _ => true); rewrite filter_all; exact K|].
  split; [now rewrite P | exact U].
Qed.

Lemma frame_insert_user (o : Obj) : respects frame (insert_user o).
Proof.
  intro d. pose proof (grows_insert_user o d) as U. revert U. unfold insert_user.
  destruct (negb (binds o _)); [intros _; apply frame_refl|].
  destruct (as_varchar 50 (attr o "username")) as [[un|]|];
    destruct (as_varchar 50 (attr o "password")) as [[pw|]|];
    destruct (as_varchar 100 (attr o "home_address"));
    destruct (as_varchar 100 (attr o "destination_address"));
    simpl; try (intro U; apply frame_when_same; (reflexivity || exact U)).
  destruct (_ || _); simpl; intro U; apply frame_when_same; (reflexivity || exact U).
Qed.

Lemma frame_insert_gameplan_task (timestamp_in : string -> option Z) (o : Obj) :
  respects frame (insert_gameplan_task timestamp_in o).
Proof.
  intro d. pose proof (grows_insert_gameplan_task timestamp_in o d) as U. revert U.
  unfold insert_gameplan_task.
  destruct (negb (binds o _)); [intros _; apply frame_refl|].
  destruct (as_int4 (attr o "task_id")) as [[t|]|];
    destruct (as_int4 (attr o "user_id")) as [[u|]|];
    destruct (as_int4 (attr o "order"));
    destruct (as_timestamp timestamp_in (attr o "start_time"));
    destruct (as_timestamp timestamp_in (attr o "end_time"));
    simpl; try (intro U; apply frame_when_same; (reflexivity || exact U)).
  destruct (_ || _); simpl; intro U; apply frame_when_same; (reflexivity || exact U).
Qed.

Lemma frame_delete_task (t : Task.t) : respects frame (delete_task t).
Proof.
  intro d. unfold delete_task.
  destruct (existsb _ (gameplan_tasks d)); [apply frame_refl|].
  destruct (existsb _ (tasks_categories d)); [apply frame_refl|].
  simpl. unfold frame. simpl.
  split; [reflexivity|]. split; [reflexivity|]. split; [reflexivity|].
  split; [eexists; reflexivity|]. split; [reflexivity|].
  exists []. now rewrite app_nil_r.
Qed.

Lemma frame_delete_gameplan_task (g : GameplanTask.t) :
  respects frame (delete_gameplan_task g).
Proof.
  intro d. simpl. apply frame_when_same; try reflexivity. now apply users_grow_same.
Qed.

Lemma frame_update_user_setting_value (row : UserSetting.t) (v : Value) :
  respects frame (update_user_setting_value row v).
Proof.
  intro d. unfold update_user_setting_value.
  destruct (py_eq _ v); [apply frame_refl|].
  destruct (as_varchar 100 v) as [[s|]|]; simpl; try apply frame_refl.
  unfold frame. simpl.
  split; [reflexivity|]. split; [reflexivity|]. split; [reflexivity|].
  split; [exists (fun _ => true); now rewrite filter_all|].
  split; [|exists []; now rewrite app_nil_r].
  rewrite map_map. apply map_ext. intro x. unfold set_value_where, pairing.
  destruct (UserSetting.user_setting_id x =? UserSetting.user_setting_id row);
    reflexivity.
Qed.

(** X19.  What no request does to the store, whatever the route, the
    session and the form: [settings], [categories] and [tasks_categories]
    are never changed; no [Task] row is ever added or altered ([tasks] only
    loses rows); no [UserSetting] row is ever added or removed (only values
    change); no [User] row is ever removed or altered ([users] only grows at
    its end). *)
Theorem serve_frame (timestamp_in : string -> option Z) (r : Request) (w : World) :
  frame (store w) (store (snd (serve timestamp_in r w))).
Proof.
  apply (serve_within frame frame_refl frame_trans frame_rolled_back timestamp_in).
  - exact frame_insert_user.
  - exact (frame_insert_gameplan_task timestamp_in).
  - exact frame_delete_task.
  - exact frame_delete_gameplan_task.
  - exact frame_update_user_setting_value.
Qed.

Lemma reachable_schema_ok_witness :
  schema_ok
    (store (snd (serve Sample.timestamp_in Demo.plan_journal
                       (snd (serve Sample.timestamp_in Sample.login_alice
                                   (snd (serve Sample.timestamp_in Demo.register_carol
                                               (fresh Sample.planned)))))))).
Proof.
  apply (reachable_schema_ok Sample.timestamp_in Sample.planned).
  - unfold schema_ok, unique_usernames, unique_user_setting_ids, unique_task_ids,
      unique_gameplan_task_ids. simpl.
    repeat split; repeat constructor; simpl; try (intuition lia); intuition discriminate.
  - apply reachable_serve, reachable_serve, reachable_serve, reachable_fresh.
Defined.

(* ------------------------------------------------------------------ *)
(** ** The diagnostic strings *)

Example User_repr_alice : User_repr Sample.alice = "<User user_id=1 username=alice>".
Proof. reflexivity. Qed.

Example TaskCategory_repr_unfiled :
  TaskCategory_repr (TaskCategory.mk 12 3 None)
  = "<TaskCategory id= 12 task_id=3 category_id=None>".
Proof. reflexivity. Qed.

Lemma digits_have_no_space (d : Decimal.uint) :
  ~ In " "%char (list_ascii_of_string (NilEmpty.string_of_uint d)).
Proof.
  induction d; simpl; intros H; try (destruct H as [H|H]; [discriminate H | tauto]).
  exact H.
Qed.

Lemma py_str_int_has_no_space (z : Z) :
  ~ In " "%char (list_ascii_of_string (py_str_int z)).
Proof.
  unfold py_str_int, NilZero.string_of_int, NilZero.string_of_uint.
  destruct (Z.to_int z) as [d|d]; destruct d eqn:E; simpl;
    try (intros [H|H]; [discriminate H|]);
    try (destruct H as [H|H]; [discriminate H|]);
    try exact H; try tauto;
    try (revert H; apply digits_have_no_space).
Qed.

Lemma py_str_int_injective (a b : Z) : py_str_int a = py_str_int b -> a = b.
Proof.
  unfold py_str_int. intro H.
  assert (forall z, Z.to_int z <> Decimal.Pos Decimal.Nil
                    /\ Z.to_int z <> Decimal.Neg Decimal.Nil) as Hnn.
  { intro z. destruct z; simpl; split; try discriminate;
      intro C; inversion C as [C']; exact (Unsigned.to_uint_nonnil _ C'). }
  assert (Some (Z.to_int a) = Some (Z.to_int b)) as E.
  { rewrite <- (NilZero.isi (Z.to_int a)), <- (NilZero.isi (Z.to_int b));
      try apply Hnn. now rewrite H. }
  inversion E as [E']. rewrite <- (DecimalZ.of_to a), <- (DecimalZ.of_to b).
  now rewrite E'.
Qed.

(** Two texts that agree up to their first blank. *)
Lemma same_up_to_blank (s1 s2 r1 r2 : string) :
  ~ In " "%char (list_ascii_of_string s1) ->
  ~ In " "%char (list_ascii_of_string s2) ->
  String.append s1 (String " " r1) = String.append s2 (String " " r2) ->
  s1 = s2.
Proof.
  revert s2. induction s1 as [|c s1 IH]; intros [|c2 s2] H1 H2 E; simpl in *.
  - reflexivity.
  - inversion E. subst c2. exfalso. apply H2. now left.
  - inversion E. subst c. exfalso. apply H1. now left.
  - inversion E. subst c2. f_equal. apply IH; [tauto | tauto | assumption].
Qed.

Lemma keyed_text (a b : Z) (r1 r2 : string) :
  String.append (py_str_int a) (String " " r1)
  = String.append (py_str_int b) (String " " r2) ->
  a = b.
Proof.
  intro E. apply py_str_int_injective.
  eapply same_up_to_blank; [apply py_str_int_has_no_space .. | exact E].
Qed.

Lemma after_same_char (c : ascii) (s1 s2 : string) :
  String c s1 = String c s2 -> s1 = s2.
Proof. intro E. now inversion E. Qed.

(** X20.  The diagnostic string ([__repr__]) of a [User], [Setting],
    [Task], [GameplanTask], [Category] or [TaskCategory] row names its
    primary key: two rows with the same string have the same key.  The
    string of a [UserSetting] does not show its [user_setting_id], so two
    different rows can print alike. *)
Theorem repr_names_the_key :
  (forall a b, User_repr a = User_repr b -> User.user_id a = User.user_id b)
  /\ (forall a b, Setting_repr a = Setting_repr b ->
                  Setting.setting_id a = Setting.setting_id b)
  /\ (forall a b, Task_repr a = Task_repr b -> Task.task_id a = Task.task_id b)
  /\ (forall a b, GameplanTask_repr a = GameplanTask_repr b ->
                  GameplanTask.task_id a = GameplanTask.task_id b)
  /\ (forall a b, Category_repr a = Category_repr b ->
                  Category.category_id a = Category.category_id b)
  /\ (forall a b, TaskCategory_repr a = TaskCategory_repr b ->
                  TaskCategory.tasks_categories_id a = TaskCategory.tasks_categories_id b)
  /\ UserSetting_repr (UserSetting.mk 1 1 1 "calm")
     = UserSetting_repr (UserSetting.mk 2 1 1 "calm").
Proof.
  split; [|split; [|split; [|split; [|split; [|split]]]]].
  - intros a b E. unfold User_repr in E. simpl in E.
    repeat apply after_same_char in E.
    exact (keyed_text _ _ _ _ E).
  - intros a b E. unfold Setting_repr in E. simpl in E.
    repeat apply after_same_char in E.
    exact (keyed_text _ _ _ _ E).
  - intros a b E. unfold Task_repr in E. simpl in E.
    repeat apply after_same_char in E.
    exact (keyed_text _ _ _ _ E).
  - intros a b E. unfold GameplanTask_repr in E. simpl in E.
    repeat apply after_same_char in E.
    exact (keyed_text _ _ _ _ E).
  - intros a b E. unfold Category_repr in E. simpl in E.
    repeat apply after_same_char in E.
    exact (keyed_text _ _ _ _ E).
  - intros a b E. unfold TaskCategory_repr in E. simpl in E.
    repeat apply after_same_char in E.
    exact (keyed_text _ _ _ _ E).
  - reflexivity.
Qed.
